(** * Tempus: fiscal-year and federal-holiday arithmetic (fiscal.py)

    A shallow embedding of [fiscal.py] together with the parts of the Python
    runtime it relies on: the proleptic Gregorian calendar of [datetime], the
    month iterator of [calendar], dynamically typed operators, exceptions and
    the error-dialog sink of [boogr.py]. *)

From Stdlib Require Import ZArith List String Bool Lia.
From Stdlib Require Import Sorted Permutation.
From Stdlib Require Import PrimFloat.
From Stdlib Require Uint63.
Import ListNotations.
Local Open Scope Z_scope.

(** ** The Python runtime *)

Module Py.

(** Exceptions that the modelled code can meet. *)
Inductive exn : Type :=
| ValueError
| TypeError
| OverflowError
| AttributeError
| IndexError
| ZeroDivisionError.

(** Result of running a piece of code: a value, an exception in flight, or a
    loop that was still running when its unrolling budget ended. *)
Inductive outcome (A : Type) : Type :=
| Returned (a : A)
| Raised (e : exn)
| Diverged.
Arguments Returned {A} a.
Arguments Raised {A} e.
Arguments Diverged {A}.

Definition obind {A B} (o : outcome A) (k : A -> outcome B) : outcome B :=
  match o with
  | Returned a => k a
  | Raised e => Raised e
  | Diverged => Diverged
  end.

(** *** datetime.py: calendar arithmetic *)

Definition MINYEAR : Z := 1.
Definition MAXYEAR : Z := 9999.
Definition _MAXORDINAL : Z := 3652059.

Definition _DAYS_IN_MONTH : list Z :=
  [-1; 31; 28; 31; 30; 31; 30; 31; 31; 30; 31; 30; 31].

Definition _DAYS_BEFORE_MONTH : list Z :=
  [-1; 0; 31; 59; 90; 120; 151; 181; 212; 243; 273; 304; 334].

Definition index (l : list Z) (i : Z) : Z := nth (Z.to_nat i) l 0.

Definition _is_leap (year : Z) : bool :=
  (year mod 4 =? 0) && (negb (year mod 100 =? 0) || (year mod 400 =? 0)).

Definition _days_before_year (year : Z) : Z :=
  let y := year - 1 in
  y * 365 + y / 4 - y / 100 + y / 400.

Definition _days_in_month (year month : Z) : Z :=
  if (month =? 2) && _is_leap year then 29 else index _DAYS_IN_MONTH month.

Definition _days_before_month (year month : Z) : Z :=
  index _DAYS_BEFORE_MONTH month
  + (if (2 <? month) && _is_leap year then 1 else 0).

Definition _ymd2ord (year month day : Z) : Z :=
  _days_before_year year + _days_before_month year month + day.

Definition _DI400Y : Z := Eval cbv in _days_before_year 401.
Definition _DI100Y : Z := Eval cbv in _days_before_year 101.
Definition _DI4Y : Z := Eval cbv in _days_before_year 5.

Definition _ord2ymd (n : Z) : Z * Z * Z :=
  let n := n - 1 in
  let n400 := n / _DI400Y in
  let n := n mod _DI400Y in
  let year := n400 * 400 + 1 in
  let n100 := n / _DI100Y in
  let n := n mod _DI100Y in
  let n4 := n / _DI4Y in
  let n := n mod _DI4Y in
  let n1 := n / 365 in
  let n := n mod 365 in
  let year := year + (n100 * 100 + n4 * 4 + n1) in
  if (n1 =? 4) || (n100 =? 4) then (year - 1, 12, 31)
  else
    let leapyear := (n1 =? 3) && (negb (n4 =? 24) || (n100 =? 3)) in
    let month := Z.shiftr (n + 50) 5 in
    let preceding :=
      index _DAYS_BEFORE_MONTH month
      + (if (2 <? month) && leapyear then 1 else 0) in
    let '(month, preceding) :=
      if n <? preceding
      then (month - 1,
            preceding - (index _DAYS_IN_MONTH (month - 1)
                         + (if (month - 1 =? 2) && leapyear then 1 else 0)))
      else (month, preceding) in
    (year, month, n - preceding + 1).

(** [datetime.date]: a naive calendar date. *)
Record date : Type := Date { year : Z; month : Z; day : Z }.

(** [datetime.timedelta], kept normalised by [timedelta_new]. *)
Record timedelta : Type :=
  Timedelta { days : Z; seconds : Z; microseconds : Z }.

(** [datetime.datetime]: a date with a naive time of day. *)
Record datetime : Type :=
  DateTime { dt_date : date; hour : Z; minute : Z; second : Z;
             microsecond : Z }.

Definition valid_dateb (d : date) : bool :=
  (MINYEAR <=? year d) && (year d <=? MAXYEAR)
  && (1 <=? month d) && (month d <=? 12)
  && (1 <=? day d) && (day d <=? _days_in_month (year d) (month d)).

Definition valid_date (d : date) : Prop := valid_dateb d = true.

(** [date(year, month, day)], with the range checks of [_check_date_fields]. *)
Definition date_new (y m d : Z) : outcome date :=
  if negb ((MINYEAR <=? y) && (y <=? MAXYEAR)) then Raised ValueError
  else if negb ((1 <=? m) && (m <=? 12)) then Raised ValueError
  else if negb ((1 <=? d) && (d <=? _days_in_month y m)) then Raised ValueError
  else Returned (Date y m d).

Definition valid_timeb (h mi s us : Z) : bool :=
  (0 <=? h) && (h <=? 23) && (0 <=? mi) && (mi <=? 59)
  && (0 <=? s) && (s <=? 59) && (0 <=? us) && (us <=? 999999).

Definition valid_datetimeb (dt : datetime) : bool :=
  valid_dateb (dt_date dt)
  && valid_timeb (hour dt) (minute dt) (second dt) (microsecond dt).

Definition valid_datetime (dt : datetime) : Prop := valid_datetimeb dt = true.

(** [datetime(year, month, day)]: midnight of the given day. *)
Definition datetime_new (y m d : Z) : outcome datetime :=
  obind (date_new y m d) (fun dd => Returned (DateTime dd 0 0 0 0)).

Definition toordinal (d : date) : Z := _ymd2ord (year d) (month d) (day d).

Definition fromordinal (n : Z) : date :=
  let '(y, m, d) := _ord2ymd n in Date y m d.

(** [date.weekday()]: Monday is 0, Sunday is 6. *)
Definition weekday (d : date) : Z := (toordinal d + 6) mod 7.

(** [timedelta(days, seconds, microseconds)] normalises its fields and
    refuses magnitudes above 999999999 days. *)
Definition timedelta_new (d s us : Z) : outcome timedelta :=
  let s := s + us / 1000000 in
  let us := us mod 1000000 in
  let d := d + s / 86400 in
  let s := s mod 86400 in
  if Z.abs d >? 999999999 then Raised OverflowError
  else Returned (Timedelta d s us).

Definition date_eqb (a b : date) : bool :=
  (year a =? year b) && (month a =? month b) && (day a =? day b).

(** Ordering of dates, as [date._cmp] compares the (year, month, day)
    triples. *)
Definition date_cmp (a b : date) : comparison :=
  match year a ?= year b with
  | Eq => match month a ?= month b with
          | Eq => day a ?= day b
          | c => c
          end
  | c => c
  end.

Definition date_leb (a b : date) : bool :=
  match date_cmp a b with Gt => false | _ => true end.

Definition date_ltb (a b : date) : bool :=
  match date_cmp a b with Lt => true | _ => false end.

(** [date + timedelta]: only the [days] field takes part. *)
Definition date_add (d : date) (td : timedelta) : outcome date :=
  let o := toordinal d + days td in
  if (0 <? o) && (o <=? _MAXORDINAL) then Returned (fromordinal o)
  else Raised OverflowError.

(** [date - timedelta] is [date + timedelta(-days)]. *)
Definition date_sub_delta (d : date) (td : timedelta) : outcome date :=
  obind (timedelta_new (- days td) 0 0) (date_add d).

Definition day_seconds (dt : datetime) : Z :=
  second dt + minute dt * 60 + hour dt * 3600.

(** [datetime - datetime] for naive operands. *)
Definition datetime_sub (a b : datetime) : outcome timedelta :=
  timedelta_new (toordinal (dt_date a) - toordinal (dt_date b))
                (day_seconds a - day_seconds b)
                (microsecond a - microsecond b).

(** [datetime + timedelta]. *)
Definition datetime_add (a : datetime) (td : timedelta) : outcome datetime :=
  obind (timedelta_new (toordinal (dt_date a) + days td)
                       (day_seconds a + seconds td)
                       (microsecond a + microseconds td))
    (fun t =>
       if (0 <? days t) && (days t <=? _MAXORDINAL)
       then Returned (DateTime (fromordinal (days t))
                               (seconds t / 3600)
                               ((seconds t mod 3600) / 60)
                               (seconds t mod 60)
                               (microseconds t))
       else Raised OverflowError).

Definition datetime_cmp (a b : datetime) : comparison :=
  match date_cmp (dt_date a) (dt_date b) with
  | Eq => match day_seconds a ?= day_seconds b with
          | Eq => microsecond a ?= microsecond b
          | c => c
          end
  | c => c
  end.

(** *** Dynamically typed values and operators *)

(** The values the program manipulates. [VNone] is Python's [None]. *)
Inductive value : Type :=
| VNone
| VBool (b : bool)
| VInt (z : Z)
| VFloat (f : PrimFloat.float)
| VDate (d : date)
| VDateTime (dt : datetime)
| VTimedelta (td : timedelta).

(** Conversion of an integer to a binary64 float (exact below 2^53). *)
Definition float_of_Z (z : Z) : PrimFloat.float :=
  if z <? 0 then PrimFloat.opp (PrimFloat.of_uint63 (Uint63.of_Z (- z)))
  else PrimFloat.of_uint63 (Uint63.of_Z z).

(** [bool] is a subclass of [int]. *)
Definition as_int (v : value) : option Z :=
  match v with
  | VBool b => Some (Z.b2z b)
  | VInt z => Some z
  | _ => None
  end.

Definition as_float (v : value) : option PrimFloat.float :=
  match v with
  | VFloat f => Some f
  | _ => option_map float_of_Z (as_int v)
  end.

(** Truth value, as [not value] tests it in [throw_if]. *)
Definition truthy (v : value) : bool :=
  match v with
  | VNone => false
  | VBool b => b
  | VInt z => negb (z =? 0)
  | VFloat f => negb (PrimFloat.eqb f PrimFloat.zero)
  | VDate _ => true
  | VDateTime _ => true
  | VTimedelta td =>
      negb ((days td =? 0) && (seconds td =? 0) && (microseconds td =? 0))
  end.

Definition td_microseconds (td : timedelta) : Z :=
  (days td * 86400 + seconds td) * 1000000 + microseconds td.

Definition td_neg (td : timedelta) : outcome timedelta :=
  timedelta_new (- days td) (- seconds td) (- microseconds td).

(** Binary [-]. A [date] and a [datetime] never subtract: both
    [date.__sub__] and [datetime.__sub__] answer [NotImplemented] for the
    mixed pair, which the interpreter turns into [TypeError]. *)
Definition py_sub (a b : value) : outcome value :=
  match a, b with
  | VDate x, VDate y =>
      obind (timedelta_new (toordinal x - toordinal y) 0 0)
            (fun t => Returned (VTimedelta t))
  | VDate x, VTimedelta t =>
      obind (date_sub_delta x t) (fun r => Returned (VDate r))
  | VDateTime x, VDateTime y =>
      obind (datetime_sub x y) (fun t => Returned (VTimedelta t))
  | VDateTime x, VTimedelta t =>
      obind (td_neg t)
            (fun n => obind (datetime_add x n)
                            (fun r => Returned (VDateTime r)))
  | VTimedelta x, VTimedelta y =>
      obind (timedelta_new (days x - days y) (seconds x - seconds y)
                           (microseconds x - microseconds y))
            (fun t => Returned (VTimedelta t))
  | _, _ =>
      match as_int a, as_int b with
      | Some x, Some y => Returned (VInt (x - y))
      | _, _ =>
          match as_float a, as_float b with
          | Some x, Some y => Returned (VFloat (PrimFloat.sub x y))
          | _, _ => Raised TypeError
          end
      end
  end.

(** Binary [+]. *)
Definition py_add (a b : value) : outcome value :=
  match a, b with
  | VDate x, VTimedelta t | VTimedelta t, VDate x =>
      obind (date_add x t) (fun r => Returned (VDate r))
  | VDateTime x, VTimedelta t | VTimedelta t, VDateTime x =>
      obind (datetime_add x t) (fun r => Returned (VDateTime r))
  | VTimedelta x, VTimedelta y =>
      obind (timedelta_new (days x + days y) (seconds x + seconds y)
                           (microseconds x + microseconds y))
            (fun t => Returned (VTimedelta t))
  | _, _ =>
      match as_int a, as_int b with
      | Some x, Some y => Returned (VInt (x + y))
      | _, _ =>
          match as_float a, as_float b with
          | Some x, Some y => Returned (VFloat (PrimFloat.add x y))
          | _, _ => Raised TypeError
          end
      end
  end.

(** Binary [*] on numbers. (Python also scales a [timedelta] by a number;
    this program never multiplies one.) *)
Definition py_mul (a b : value) : outcome value :=
  match as_int a, as_int b with
  | Some x, Some y => Returned (VInt (x * y))
  | _, _ =>
      match as_float a, as_float b with
      | Some x, Some y => Returned (VFloat (PrimFloat.mul x y))
      | _, _ => Raised TypeError
      end
  end.

(** [_divide_and_round]: quotient rounded half to even. *)
Definition _divide_and_round (a b : Z) : Z :=
  let q := a / b in
  let r := 2 * (a mod b) in
  let greater_than_half := if 0 <? b then b <? r else r <? b in
  if greater_than_half || ((r =? b) && (q mod 2 =? 1)) then q + 1 else q.

(** Binary [/] (true division). *)
Definition py_truediv (a b : value) : outcome value :=
  match a, b with
  | VTimedelta x, VTimedelta y =>
      if td_microseconds y =? 0 then Raised ZeroDivisionError
      else Returned (VFloat (PrimFloat.div (float_of_Z (td_microseconds x))
                                           (float_of_Z (td_microseconds y))))
  | VTimedelta x, VInt n =>
      if n =? 0 then Raised ZeroDivisionError
      else obind (timedelta_new 0 0 (_divide_and_round (td_microseconds x) n))
                 (fun t => Returned (VTimedelta t))
  | _, _ =>
      match as_float a, as_float b with
      | Some x, Some y =>
          if PrimFloat.eqb y PrimFloat.zero then Raised ZeroDivisionError
          else Returned (VFloat (PrimFloat.div x y))
      | _, _ => Raised TypeError
      end
  end.

(** Three-way comparison behind [<], [<=], [>], [>=]. A [date] and a
    [datetime] do not order ([TypeError]), nor does a [timedelta] with a
    number, nor [None] with anything. *)
Definition py_cmp (a b : value) : outcome comparison :=
  match a, b with
  | VDate x, VDate y => Returned (date_cmp x y)
  | VDateTime x, VDateTime y => Returned (datetime_cmp x y)
  | VTimedelta x, VTimedelta y =>
      Returned (td_microseconds x ?= td_microseconds y)
  | _, _ =>
      match as_int a, as_int b with
      | Some x, Some y => Returned (x ?= y)
      | _, _ =>
          match as_float a, as_float b with
          | Some x, Some y =>
              Returned (if PrimFloat.ltb x y then Lt
                        else if PrimFloat.eqb x y then Eq else Gt)
          | _, _ => Raised TypeError
          end
      end
  end.

Definition py_le (a b : value) : outcome bool :=
  obind (py_cmp a b)
        (fun c => Returned (match c with Gt => false | _ => true end)).

Definition py_gt (a b : value) : outcome bool :=
  obind (py_cmp a b)
        (fun c => Returned (match c with Gt => true | _ => false end)).

(** [==] never raises; a [date] is never equal to a [datetime]. *)
Definition py_eq (a b : value) : bool :=
  match a, b with
  | VNone, VNone => true
  | VDate x, VDate y => date_eqb x y
  | VDateTime x, VDateTime y =>
      match datetime_cmp x y with Eq => true | _ => false end
  | VTimedelta x, VTimedelta y => td_microseconds x =? td_microseconds y
  | _, _ =>
      match as_int a, as_int b with
      | Some x, Some y => x =? y
      | _, _ =>
          match as_float a, as_float b with
          | Some x, Some y => PrimFloat.eqb x y
          | _, _ => false
          end
      end
  end.

(** [max(a, b)]: the second argument wins only when [b > a]. *)
Definition py_max (a b : value) : outcome value :=
  obind (py_gt b a) (fun g => Returned (if g then b else a)).

(** Attribute reads on date-like values. *)
Definition get_year (v : value) : outcome Z :=
  match v with
  | VDate d => Returned (year d)
  | VDateTime dt => Returned (year (dt_date dt))
  | _ => Raised AttributeError
  end.

Definition get_month (v : value) : outcome Z :=
  match v with
  | VDate d => Returned (month d)
  | VDateTime dt => Returned (month (dt_date dt))
  | _ => Raised AttributeError
  end.

Definition get_days (v : value) : outcome value :=
  match v with
  | VTimedelta td => Returned (VInt (days td))
  | _ => Raised AttributeError
  end.

Definition get_weekday (v : value) : outcome Z :=
  match v with
  | VDate d => Returned (weekday d)
  | VDateTime dt => Returned (weekday (dt_date dt))
  | _ => Raised AttributeError
  end.

(** [l[i]] on a list, negative indices counting from the end. *)
Definition list_get {A} (l : list A) (i : Z) : outcome A :=
  let j := if i <? 0 then i + Z.of_nat (List.length l) else i in
  if j <? 0 then Raised IndexError
  else match nth_error l (Z.to_nat j) with
       | Some a => Returned a
       | None => Raised IndexError
       end.

(** [range(a, b)]. *)
Definition range (a b : Z) : list Z :=
  map (fun i => a + Z.of_nat i) (seq 0 (Z.to_nat (b - a))).

(** *** calendar.py *)

Definition MONDAY : Z := 0.
Definition THURSDAY : Z := 3.

Definition mdays : list Z := [0; 31; 28; 31; 30; 31; 30; 31; 31; 30; 31; 30; 31].

Definition isleap (year : Z) : bool :=
  (year mod 4 =? 0) && (negb (year mod 100 =? 0) || (year mod 400 =? 0)).

Definition cal_weekday (year month day : Z) : outcome Z :=
  let year :=
    if negb ((MINYEAR <=? year) && (year <=? MAXYEAR))
    then 2000 + year mod 400 else year in
  obind (date_new year month day) (fun d => Returned (weekday d)).

Definition _monthlen (year month : Z) : Z :=
  index mdays month + (if (month =? 2) && isleap year then 1 else 0).

(** [IllegalMonthError] is a [ValueError]. *)
Definition monthrange (year month : Z) : outcome (Z * Z) :=
  if negb ((1 <=? month) && (month <=? 12)) then Raised ValueError
  else obind (cal_weekday year month 1)
             (fun day1 => Returned (day1, _monthlen year month)).

Definition _prevmonth (year month : Z) : Z * Z :=
  if month =? 1 then (year - 1, 12) else (year, month - 1).

Definition _nextmonth (year month : Z) : Z * Z :=
  if month =? 12 then (year + 1, 1) else (year, month + 1).

(** [Calendar().itermonthdays3], with [firstweekday = 0]. *)
Definition itermonthdays3 (year month : Z) : outcome (list (Z * Z * Z)) :=
  obind (monthrange year month)
    (fun '(day1, ndays) =>
       let days_before := (day1 - 0) mod 7 in
       let days_after := (0 - day1 - ndays) mod 7 in
       let '(py, pm) := _prevmonth year month in
       let stop := _monthlen py pm + 1 in
       let '(ny, nm) := _nextmonth year month in
       Returned
         (map (fun d => (py, pm, d)) (range (stop - days_before) stop)
          ++ map (fun d => (year, month, d)) (range 1 (ndays + 1))
          ++ map (fun d => (ny, nm, d)) (range 1 (days_after + 1)))).

Fixpoint dates_of (l : list (Z * Z * Z)) : outcome (list date) :=
  match l with
  | [] => Returned []
  | (y, m, d) :: r =>
      obind (date_new y m d)
            (fun x => obind (dates_of r) (fun xs => Returned (x :: xs)))
  end.

(** [Calendar().itermonthdates], run to exhaustion as the list
    comprehensions of the program do. *)
Definition itermonthdates (year month : Z) : outcome (list date) :=
  obind (itermonthdays3 year month) dates_of.

(** *** Exceptions, the error sink and the method monad *)

(** The record handed to the error dialog ([boogr.Error]). *)
Record Error : Type :=
  MkError { exception : exn;
            heading : option string;
            cause : option string;
            method : option string;
            module : option string }.

(** What the dialog has been shown so far, oldest first. *)
Definition sink : Type := list Error.

(** A computation over a store [S] that may raise. The store survives an
    exception, as assignments made before a [raise] do. *)
Definition M (S A : Type) : Type := S -> outcome A * S.

Definition ret {S A} (a : A) : M S A := fun s => (Returned a, s).

Definition bind {S A B} (m : M S A) (k : A -> M S B) : M S B :=
  fun s =>
    match m s with
    | (Returned a, s') => k a s'
    | (Raised e, s') => (Raised e, s')
    | (Diverged, s') => (Diverged, s')
    end.

Definition lift {S A} (o : outcome A) : M S A := fun s => (o, s).

Definition raise {S A} (e : exn) : M S A := lift (Raised e).

(** Stores that carry the error sink. *)
Class HasSink (S : Type) : Type := show_dialog : Error -> S -> S.

#[global] Instance sink_HasSink : HasSink sink := fun e s => s ++ [e].

(** The handler every guarded method ends with:
    [except Exception as e: exception = Error(e); exception.module = ...;
     exception.cause = ...; exception.method = ...;
     ErrorDialog(exception).show()], after which the method falls off its
    end. [none] is what the caller then sees. *)
Definition except_show {S A} `{HasSink S}
    (module_ cause_ method_ : string) (none : A) (body : M S A) : M S A :=
  fun s =>
    match body s with
    | (Raised e, s') =>
        (Returned none,
         show_dialog (MkError e None (Some cause_) (Some method_)
                              (Some module_)) s')
    | r => r
    end.

End Py.

Declare Scope py_scope.
Notation "x <- m ;; k" := (Py.bind m (fun x => k))
  (at level 61, m at next level, right associativity) : py_scope.
Notation "m ;;; k" := (Py.bind m (fun _ => k))
  (at level 61, right associativity) : py_scope.

Import Py.
Local Open Scope string_scope.
Local Open Scope Z_scope.
Local Open Scope py_scope.

(** ** fiscal.py: module-level helpers *)

(** [throw_if(name, value)]: raises [ValueError] when [value] is falsy. *)
Definition throw_if {S} (name : string) (v : value) : M S unit :=
  if negb (truthy v) then raise ValueError else ret tt.

(** [_to_date(value)]. [now] is what [date.today()] answers. A value that is
    neither [None], a [datetime] nor a [date] falls through every test and the
    function returns [None]. *)
Definition _to_date (now : date) (v : value) : value :=
  match v with
  | VNone => VDate now
  | VDateTime dt => VDate (dt_date dt)
  | VDate d => VDate d
  | _ => VNone
  end.

(** [timedelta( days=1 )]. *)
Definition one_day : outcome value :=
  obind (timedelta_new 1 0 0) (fun t => Returned (VTimedelta t)).

(** ** class FederalHoliday *)

Module FederalHoliday.

(** The inner dictionary [{ 'actual': ..., 'observed': ... }]. *)
Record payload : Type := Payload { actual : value; observed : value }.

(** [Dict[str, Dict[str, date]]]: keys are unique and keep insertion order. *)
Definition dict : Type := list (string * payload).

(** [hols[name] = p]. *)
Fixpoint dict_set (hols : dict) (name : string) (p : payload) : dict :=
  match hols with
  | [] => [(name, p)]
  | (k, v) :: r =>
      if String.eqb k name then (k, p) :: r else (k, v) :: dict_set r name p
  end.

Definition keys (hols : dict) : list string := map fst hols.
Definition values (hols : dict) : list payload := map snd hols.

Record t : Type :=
  Build { fiscal_year : Z; fy_start_date : date; fy_end_date : date }.

(** [FederalHoliday.__init__]: the one constructor without a handler. *)
Definition __init__ (fiscal_year : Z) : M sink t :=
  s <- lift (date_new (fiscal_year - 1) 10 1) ;;
  e <- lift (date_new fiscal_year 9 30) ;;
  ret (Build fiscal_year s e).

Definition _observed_date (self : t) (d : value) : M sink value :=
  except_show "tempus" "" "" VNone
    (w <- lift (get_weekday d) ;;
     if w =? 5 then
       delta <- lift one_day ;; lift (py_sub d delta)
     else
       w <- lift (get_weekday d) ;;
       if w =? 6 then
         delta <- lift one_day ;; lift (py_add d delta)
       else ret d).

(** The list comprehension shared by the two weekday finders. *)
Definition matches (year month weekday : Z) : outcome (list date) :=
  obind (itermonthdates year month)
        (fun ds =>
           Returned (filter (fun d => (Py.month d =? month)
                                      && (Py.weekday d =? weekday)) ds)).

Definition _nth_weekday_of_month (self : t) (year month weekday n : Z)
  : M sink value :=
  except_show "tempus" "" "" VNone
    (ms <- lift (matches year month weekday) ;;
     d <- lift (list_get ms (n - 1)) ;;
     ret (VDate d)).

Definition _last_weekday_of_month (self : t) (year month weekday : Z)
  : M sink value :=
  except_show "tempus" "" "" VNone
    (ms <- lift (matches year month weekday) ;;
     d <- lift (list_get ms (-1)) ;;
     ret (VDate d)).

(** [_add_holiday] mutates the dictionary it is given; the model returns the
    dictionary as it is after the call. The chained comparison
    [a <= obs <= b] evaluates [obs <= b] only when [a <= obs] holds. *)
Definition _add_holiday (self : t) (hols : dict) (name : string)
    (actual : value) : M sink dict :=
  except_show "tempus" "FederalHoliday" "" hols
    (obs <- _observed_date self actual ;;
     lo <- lift (py_le (VDate (fy_start_date self)) obs) ;;
     inside <- (if lo then lift (py_le obs (VDate (fy_end_date self)))
                else ret false) ;;
     if inside then ret (dict_set hols name (Payload actual obs))
     else ret hols).

(** [date( y, m, d )] as an argument expression. *)
Definition date_value (y m d : Z) : M sink value :=
  x <- lift (date_new y m d) ;; ret (VDate x).

(** [holidays()]: [None] stands for the method falling off its handler. *)
Definition holidays (self : t) : M sink (option dict) :=
  except_show "tempus" "FederalHoliday"
    "holidays( self ) -> Dict[ str, Dict[ str, date ] ]" None
    (let hols : dict := [] in
     let start := Py.year (fy_start_date self) in
     let end_ := fiscal_year self in
     a <- _nth_weekday_of_month self start 10 MONDAY 2 ;;
     hols <- _add_holiday self hols "Columbus Day" a ;;
     a <- date_value start 11 11 ;;
     hols <- _add_holiday self hols "Veterans Day" a ;;
     a <- _nth_weekday_of_month self start 11 THURSDAY 4 ;;
     hols <- _add_holiday self hols "Thanksgiving Day" a ;;
     a <- date_value start 12 25 ;;
     hols <- _add_holiday self hols "Christmas Day" a ;;
     a <- date_value end_ 1 1 ;;
     hols <- _add_holiday self hols "New Year's Day" a ;;
     a <- _nth_weekday_of_month self end_ 1 MONDAY 3 ;;
     hols <- _add_holiday self hols "Birthday of Martin Luther King, Jr." a ;;
     a <- _nth_weekday_of_month self end_ 2 MONDAY 3 ;;
     hols <- _add_holiday self hols "Washington's Birthday" a ;;
     a <- _last_weekday_of_month self end_ 5 MONDAY ;;
     hols <- _add_holiday self hols "Memorial Day" a ;;
     a <- date_value end_ 6 19 ;;
     hols <- _add_holiday self hols "Juneteenth National Independence Day" a ;;
     a <- date_value end_ 7 4 ;;
     hols <- _add_holiday self hols "Independence Day" a ;;
     a <- _nth_weekday_of_month self end_ 9 MONDAY 1 ;;
     hols <- _add_holiday self hols "Labor Day" a ;;
     ret (Some hols)).

(** [hols.values()] on what [holidays()] returned. *)
Definition values_or_raise (hols : option dict) : M sink (list payload) :=
  match hols with
  | Some h => ret (values h)
  | None => raise AttributeError
  end.

(** [is_holiday(when, observed)]. [now] is what [date.today()] answers. *)
Definition is_holiday (now : date) (self : t) (when : value)
    (observed_ : bool) : M sink value :=
  except_show "tempus" "FederalHoliday"
    "is_holiday( self, when: datetime, use_observed: bool=True ) -> bool"
    VNone
    (let d := _to_date now when in
     hols <- holidays self ;;
     ps <- values_or_raise hols ;;
     if observed_
     then ret (VBool (existsb (fun p => py_eq d (observed p)) ps))
     else ret (VBool (existsb (fun p => py_eq d (actual p)) ps))).

(** [is_weekend(when)]: the guard runs before [_to_date], so [None] is
    refused and never stands for today. *)
Definition is_weekend (now : date) (self : t) (when : value) : M sink value :=
  except_show "tempus" "FederalHoliday"
    "is_weekend( self, when: datetime ) -> bool " VNone
    (throw_if "when" when ;;;
     let d := _to_date now when in
     w <- lift (get_weekday d) ;;
     ret (VBool (5 <=? w))).

End FederalHoliday.

(** ** class FiscalYear *)

Module FiscalYear.

(** Instance attributes. An attribute that has not been assigned yet is
    [None] here and reading it raises [AttributeError]. *)
Record t : Type :=
  Build { current_date : option value;
          today : option value;
          date : option value;
          calendar_year : option Z;
          fiscal_year : option Z;
          beginning_fiscal_year : option Z;
          ending_fiscal_year : option Z;
          cy_start_date : option datetime;
          cy_end_date : option datetime;
          fy_start_date : option datetime;
          fy_end_date : option datetime }.

(** A freshly allocated instance, before [__init__] runs. *)
Definition fresh : t :=
  Build None None None None None None None None None None None.

(** The store the methods run in: the instance and the error sink. *)
Record world : Type := World { self : t; dialogs : sink }.

#[global] Instance world_HasSink : HasSink world :=
  fun e w => World (self w) (show_dialog e (dialogs w)).

(** [self.a] *)
Definition attr {A} (a : t -> option A) : M world A :=
  fun w =>
    match a (self w) with
    | Some v => (Returned v, w)
    | None => (Raised AttributeError, w)
    end.

(** [self.a = v] *)
Definition assign (upd : t -> t) : M world unit :=
  fun w => (Returned tt, World (upd (self w)) (dialogs w)).

(** A [FederalHoliday] call made from a method of this class. *)
Definition call {A} (m : M sink A) : M world A :=
  fun w => let '(r, s) := m (dialogs w) in (r, World (self w) s).

Definition set_current_date v o :=
  Build (Some v) (today o) (date o) (calendar_year o) (fiscal_year o)
        (beginning_fiscal_year o) (ending_fiscal_year o) (cy_start_date o)
        (cy_end_date o) (fy_start_date o) (fy_end_date o).
Definition set_today v o :=
  Build (current_date o) (Some v) (date o) (calendar_year o) (fiscal_year o)
        (beginning_fiscal_year o) (ending_fiscal_year o) (cy_start_date o)
        (cy_end_date o) (fy_start_date o) (fy_end_date o).
Definition set_date v o :=
  Build (current_date o) (today o) (Some v) (calendar_year o) (fiscal_year o)
        (beginning_fiscal_year o) (ending_fiscal_year o) (cy_start_date o)
        (cy_end_date o) (fy_start_date o) (fy_end_date o).
Definition set_calendar_year v o :=
  Build (current_date o) (today o) (date o) (Some v) (fiscal_year o)
        (beginning_fiscal_year o) (ending_fiscal_year o) (cy_start_date o)
        (cy_end_date o) (fy_start_date o) (fy_end_date o).
Definition set_fiscal_year v o :=
  Build (current_date o) (today o) (date o) (calendar_year o) (Some v)
        (beginning_fiscal_year o) (ending_fiscal_year o) (cy_start_date o)
        (cy_end_date o) (fy_start_date o) (fy_end_date o).
Definition set_beginning_fiscal_year v o :=
  Build (current_date o) (today o) (date o) (calendar_year o) (fiscal_year o)
        (Some v) (ending_fiscal_year o) (cy_start_date o)
        (cy_end_date o) (fy_start_date o) (fy_end_date o).
Definition set_ending_fiscal_year v o :=
  Build (current_date o) (today o) (date o) (calendar_year o) (fiscal_year o)
        (beginning_fiscal_year o) (Some v) (cy_start_date o)
        (cy_end_date o) (fy_start_date o) (fy_end_date o).
Definition set_cy_start_date v o :=
  Build (current_date o) (today o) (date o) (calendar_year o) (fiscal_year o)
        (beginning_fiscal_year o) (ending_fiscal_year o) (Some v)
        (cy_end_date o) (fy_start_date o) (fy_end_date o).
Definition set_cy_end_date v o :=
  Build (current_date o) (today o) (date o) (calendar_year o) (fiscal_year o)
        (beginning_fiscal_year o) (ending_fiscal_year o) (cy_start_date o)
        (Some v) (fy_start_date o) (fy_end_date o).
Definition set_fy_start_date v o :=
  Build (current_date o) (today o) (date o) (calendar_year o) (fiscal_year o)
        (beginning_fiscal_year o) (ending_fiscal_year o) (cy_start_date o)
        (cy_end_date o) (Some v) (fy_end_date o).
Definition set_fy_end_date v o :=
  Build (current_date o) (today o) (date o) (calendar_year o) (fiscal_year o)
        (beginning_fiscal_year o) (ending_fiscal_year o) (cy_start_date o)
        (cy_end_date o) (fy_start_date o) (Some v).

(** [_bind(d)]: every assignment made before a failing expression stays. *)
Definition _bind (d : value) : M world unit :=
  except_show "tempus" "" "" tt
    (throw_if "d" d ;;;
     assign (set_date d) ;;;
     y <- lift (get_year d) ;;
     assign (set_calendar_year y) ;;;
     m <- lift (get_month d) ;;
     (if 10 <=? m then
        assign (set_fiscal_year (y + 1)) ;;;
        assign (set_beginning_fiscal_year y) ;;;
        assign (set_ending_fiscal_year (y + 1)) ;;;
        a <- lift (datetime_new y 10 1) ;;
        assign (set_fy_start_date a) ;;;
        b <- lift (datetime_new (y + 1) 9 30) ;;
        assign (set_fy_end_date b)
      else
        assign (set_fiscal_year y) ;;;
        assign (set_beginning_fiscal_year (y - 1)) ;;;
        assign (set_ending_fiscal_year y) ;;;
        a <- lift (datetime_new (y - 1) 10 1) ;;
        assign (set_fy_start_date a) ;;;
        b <- lift (datetime_new y 9 30) ;;
        assign (set_fy_end_date b)) ;;;
     a <- lift (datetime_new y 1 1) ;;
     assign (set_cy_start_date a) ;;;
     b <- lift (datetime_new y 12 31) ;;
     assign (set_cy_end_date b)).

Section Methods.

(** What [date.today()] answers while the methods run. *)
Variable now : Py.date.

Definition __init__ (current_date_ : value) : M world unit :=
  except_show "fiscal" "FiscalYear" "__init__(self, current_date)" tt
    (assign (set_current_date current_date_) ;;;
     c <- attr current_date ;;
     assign (set_today (_to_date now c)) ;;;
     d <- attr today ;;
     _bind d).

(** [FiscalYear(current_date)]: allocate, initialise, hand the instance
    over. *)
Definition new (current_date_ : value) : M sink t :=
  fun s =>
    let '(r, w) := __init__ current_date_ (World fresh s) in
    (obind r (fun _ => Returned (self w)), dialogs w).

Definition calendar_day_of_year : M world value :=
  except_show "tempus" "" "" VNone
    (d <- attr date ;;
     c <- attr cy_start_date ;;
     delta <- lift (py_sub d (VDateTime c)) ;;
     n <- lift (get_days delta) ;;
     lift (py_add n (VInt 1))).

Definition fiscal_day_of_year : M world value :=
  except_show "tempus" "" "" VNone
    (d <- attr date ;;
     a <- attr fy_start_date ;;
     delta <- lift (py_sub d (VDateTime a)) ;;
     lift (py_add delta (VInt 1))).

Definition fiscal_days_in_year : M world value :=
  except_show "tempus" "" "" VNone
    (b <- attr fy_end_date ;;
     a <- attr fy_start_date ;;
     delta <- lift (py_sub (VDateTime b) (VDateTime a)) ;;
     n <- lift (get_days delta) ;;
     lift (py_add n (VInt 1))).

Definition fiscal_elapsed_days : M world value :=
  except_show "tempus" "" "" VNone
    (d <- attr date ;;
     a <- attr fy_start_date ;;
     delta <- lift (py_sub d (VDateTime a)) ;;
     lift (py_max (VInt 0) delta)).

(** [(completed / total) * 100.0] *)
Definition percent (completed total : value) : outcome value :=
  obind (py_truediv completed total) (fun q => py_mul q (VFloat 100%float)).

Definition fiscal_percent_elapsed : M world value :=
  except_show "tempus" "" "" VNone
    (completed <- fiscal_elapsed_days ;;
     total <- fiscal_days_in_year ;;
     lift (percent completed total)).

(** How many times a day-by-day loop from [s] to [e] can test its
    condition. *)
Definition span (s e : value) : nat :=
  match s, e with
  | VDate a, VDate b => Z.to_nat (toordinal b - toordinal a + 2)
  | _, _ => 1%nat
  end.

(** [while cur <= e: if cur.weekday() >= 5: count += 1; cur += one day] *)
Fixpoint weekends_loop (fuel : nat) (count : Z) (cur e : value)
  : M world value :=
  match fuel with
  | O => lift Diverged
  | S fuel =>
      go <- lift (py_le cur e) ;;
      if go then
        w <- lift (get_weekday cur) ;;
        let count := if 5 <=? w then count + 1 else count in
        delta <- lift one_day ;;
        cur <- lift (py_add cur delta) ;;
        weekends_loop fuel count cur e
      else ret (VInt count)
  end.

Definition count_weekends (start end_ : value) : M world value :=
  except_show "fiscal" "FiscalYear" "count_weekends(self, start, end)" VNone
    (let s := _to_date now start in
     let e := _to_date now end_ in
     late <- lift (py_gt s e) ;;
     if late then ret (VInt 0)
     else weekends_loop (span s e) 0 s e).

(** [hols.values()] *)
Definition values_of (hols : option FederalHoliday.dict)
  : M world (list FederalHoliday.payload) :=
  match hols with
  | Some h => ret (FederalHoliday.values h)
  | None => raise AttributeError
  end.

(** [payload[ 'observed' if use_observed else 'actual' ]] *)
Definition pick (use_observed : bool) (p : FederalHoliday.payload) : value :=
  if use_observed then FederalHoliday.observed p else FederalHoliday.actual p.

(** [sum( 1 for payload in ... if s <= payload[ key ] <= e )] *)
Fixpoint sum_in_range (s e : value) (l : list value) : outcome Z :=
  match l with
  | [] => Returned 0
  | v :: r =>
      obind (py_le s v)
        (fun lo =>
           obind (if lo then py_le v e else Returned false)
             (fun inside =>
                obind (sum_in_range s e r)
                  (fun n => Returned (if inside then 1 + n else n))))
  end.

Definition count_holidays (start end_ : value) (use_observed : bool)
  : M world value :=
  except_show "fiscal" "FiscalYear" "count_holidays(self, start, end)" VNone
    (let s := _to_date now start in
     let e := _to_date now end_ in
     late <- lift (py_gt s e) ;;
     if late then ret (VInt 0)
     else
       fy <- attr fiscal_year ;;
       fh <- call (FederalHoliday.__init__ fy) ;;
       hols <- call (FederalHoliday.holidays fh) ;;
       ps <- values_of hols ;;
       n <- lift (sum_in_range s e (map (pick use_observed) ps)) ;;
       ret (VInt n)).

(** [while cur <= e: if cur.weekday() < 5 and cur not in hset: count += 1;
    cur += one day] *)
Fixpoint workdays_loop (fuel : nat) (hset : list value) (count : Z)
    (cur e : value) : M world value :=
  match fuel with
  | O => lift Diverged
  | S fuel =>
      go <- lift (py_le cur e) ;;
      if go then
        w <- lift (get_weekday cur) ;;
        let count :=
          if (w <? 5) && negb (existsb (py_eq cur) hset)
          then count + 1 else count in
        delta <- lift one_day ;;
        cur <- lift (py_add cur delta) ;;
        workdays_loop fuel hset count cur e
      else ret (VInt count)
  end.

Definition count_workdays (start end_ : value) (use_observed : bool)
  : M world value :=
  except_show "fiscal" "FiscalYear" "count_workdays(self, start, end)" VNone
    (let s := _to_date now start in
     let e := _to_date now end_ in
     late <- lift (py_gt s e) ;;
     if late then ret (VInt 0)
     else
       fy <- attr fiscal_year ;;
       fh <- call (FederalHoliday.__init__ fy) ;;
       hols <- call (FederalHoliday.holidays fh) ;;
       ps <- values_of hols ;;
       workdays_loop (span s e) (map (pick use_observed) ps) 0 s e).

Definition is_fiscal_start_year : M world value :=
  except_show "tempus" "" "" VNone
    (d <- attr date ;;
     a <- attr fy_start_date ;;
     ret (VBool (py_eq d (VDateTime a)))).

(** [to_dict()]: nine attribute reads and no handler. *)
Definition to_dict : M world (list (string * value)) :=
  d <- attr date ;;
  cy <- attr calendar_year ;;
  fy <- attr fiscal_year ;;
  bfy <- attr beginning_fiscal_year ;;
  efy <- attr ending_fiscal_year ;;
  cs <- attr cy_start_date ;;
  ce <- attr cy_end_date ;;
  fs <- attr fy_start_date ;;
  fe <- attr fy_end_date ;;
  ret [("date", d); ("calendar_year", VInt cy); ("fiscal_year", VInt fy);
       ("beginning_fiscal_year", VInt bfy); ("ending_fiscal_year", VInt efy);
       ("cy_start_date", VDateTime cs); ("cy_end_date", VDateTime ce);
       ("fy_start_date", VDateTime fs); ("fy_end_date", VDateTime fe)].

Definition calendar_days_in_year : M world value :=
  except_show "tempus" "" "" VNone
    (b <- attr cy_end_date ;;
     a <- attr cy_start_date ;;
     delta <- lift (py_sub (VDateTime b) (VDateTime a)) ;;
     n <- lift (get_days delta) ;;
     lift (py_add n (VInt 1))).

Definition calendar_elapsed_days : M world value :=
  except_show "tempus" "" "" VNone
    (d <- attr date ;;
     a <- attr cy_start_date ;;
     delta <- lift (py_sub d (VDateTime a)) ;;
     n <- lift (get_days delta) ;;
     lift (py_max (VInt 0) n)).

Definition calendar_remaining_days : M world value :=
  except_show "tempus" "" "" VNone
    (b <- attr cy_end_date ;;
     d <- attr date ;;
     delta <- lift (py_sub (VDateTime b) d) ;;
     n <- lift (get_days delta) ;;
     lift (py_max (VInt 0) n)).

Definition calendar_elapsed_months : M world value :=
  except_show "tempus" "" "" VNone
    (d <- attr date ;;
     m <- lift (get_month d) ;;
     lift (py_max (VInt 0) (VInt (m - 1)))).

Definition calendar_remaining_months : M world value :=
  except_show "tempus" "" "" VNone
    (d <- attr date ;;
     m <- lift (get_month d) ;;
     ret (VInt (12 - m))).

Definition calendar_percent_elapsed : M world value :=
  except_show "tempus" "" "" VNone
    (completed <- calendar_elapsed_days ;;
     total <- calendar_days_in_year ;;
     lift (percent completed total)).

Definition fiscal_month_number : M world value :=
  except_show "tempus" "" "" VNone
    (d <- attr date ;;
     m <- lift (get_month d) ;;
     ret (VInt ((m - 10) mod 12 + 1))).

Definition fiscal_days_remaining : M world value :=
  except_show "tempus" "" "" VNone
    (b <- attr fy_end_date ;;
     d <- attr date ;;
     delta <- lift (py_sub (VDateTime b) d) ;;
     n <- lift (get_days delta) ;;
     lift (py_max (VInt 0) n)).

Definition fiscal_elapsed_months : M world value :=
  except_show "tempus" "" "" VNone
    (n <- fiscal_month_number ;;
     lift (py_sub n (VInt 1))).

Definition fiscal_remaining_months : M world value :=
  except_show "tempus" "" "" VNone
    (n <- fiscal_month_number ;;
     lift (py_sub (VInt 12) n)).

(** [calendar_bounds()]: the pair, or [None] after a failure. *)
Definition calendar_bounds : M world (option (datetime * datetime)) :=
  except_show "tempus" "" "" None
    (a <- attr cy_start_date ;;
     b <- attr cy_end_date ;;
     ret (Some (a, b))).

Definition fiscal_bounfds : M world (option (datetime * datetime)) :=
  except_show "tempus" "" "" None
    (a <- attr fy_start_date ;;
     b <- attr fy_end_date ;;
     ret (Some (a, b))).

Definition is_fiscal_end_year : M world value :=
  except_show "tempus" "" "" VNone
    (d <- attr date ;;
     b <- attr fy_end_date ;;
     ret (VBool (py_eq d (VDateTime b)))).

Definition is_calendar_start_year : M world value :=
  except_show "tempus" "" "" VNone
    (d <- attr date ;;
     a <- attr cy_start_date ;;
     ret (VBool (py_eq d (VDateTime a)))).

Definition is_calendar_end_date : M world value :=
  except_show "tempus" "" "" VNone
    (d <- attr date ;;
     b <- attr cy_end_date ;;
     ret (VBool (py_eq d (VDateTime b)))).

End Methods.

End FiscalYear.

Local Open Scope list_scope.

(** ** Vocabulary of the specification *)

(** The month and day that [_ord2ymd] reads off the offset [n] of a day in
    its year. *)
Definition month_day (leapyear : bool) (n : Z) : Z * Z :=
  let month := Z.shiftr (n + 50) 5 in
  let preceding :=
    index _DAYS_BEFORE_MONTH month
    + (if (2 <? month) && leapyear then 1 else 0) in
  let '(month, preceding) :=
    if n <? preceding
    then (month - 1,
          preceding - (index _DAYS_IN_MONTH (month - 1)
                       + (if (month - 1 =? 2) && leapyear then 1 else 0)))
    else (month, preceding) in
  (month, n - preceding + 1).

(** [month_day] answers a month and a day of that month whose offset in the
    year is [n]. *)
Definition month_day_okb (leapyear : bool) (n : Z) : bool :=
  let '(m, d) := month_day leapyear n in
  (1 <=? m) && (m <=? 12) && (1 <=? d)
  && (d <=? index _DAYS_IN_MONTH m + (if (m =? 2) && leapyear then 1 else 0))
  && (index _DAYS_BEFORE_MONTH m + (if (2 <? m) && leapyear then 1 else 0) + d
      =? n + 1).

(** [m], run in the store [s], returns [a] and leaves the store as it was:
    in particular nothing is shown. *)
Definition quiet {S A} (m : M S A) (s : S) (a : A) : Prop :=
  m s = (Returned a, s).

(** The observance rule, in days: a Saturday moves back, a Sunday forward. *)
Definition shift (w : Z) : Z :=
  if w =? 5 then -1 else if w =? 6 then 1 else 0.

(** The observed date of an actual date [d]. *)
Definition observed_of (d : date) : date :=
  if weekday d =? 5 then fromordinal (toordinal d - 1)
  else if weekday d =? 6 then fromordinal (toordinal d + 1)
  else d.

(** The dates of month [m] of year [y] that fall on weekday [wd], as the list
    comprehension of the weekday finders collects them. *)
Definition month_matches (y m wd : Z) : list date :=
  filter (fun d => (month d =? m) && (weekday d =? wd))
         (map (Date y m) (range 1 (_days_in_month y m + 1))).

(** The keys of the holiday mapping, in the order [holidays()] adds them. *)
Definition holiday_names : list string :=
  ["Columbus Day"; "Veterans Day"; "Thanksgiving Day"; "Christmas Day";
   "New Year's Day"; "Birthday of Martin Luther King, Jr.";
   "Washington's Birthday"; "Memorial Day";
   "Juneteenth National Independence Day"; "Independence Day"; "Labor Day"].

(** The observed date of a payload lies in the window of [self]. *)
Definition within (self : FederalHoliday.t) (p : FederalHoliday.payload)
  : Prop :=
  exists obs,
    FederalHoliday.observed p = VDate obs
    /\ date_leb (FederalHoliday.fy_start_date self) obs = true
    /\ date_leb obs (FederalHoliday.fy_end_date self) = true.

(** Whatever [m] returns satisfies [Q]. *)
Definition yields {S A} (m : M S A) (Q : A -> Prop) : Prop :=
  forall s a s', m s = (Returned a, s') -> Q a.

(** The object [FederalHoliday(fy)] when the constructor returns. *)
Definition federal_holiday (fy : Z) : FederalHoliday.t :=
  FederalHoliday.Build fy (Date (fy - 1) 10 1) (Date fy 9 30).

(** The extra day of a leap year. *)
Definition leap_day (y : Z) : Z := if _is_leap y then 1 else 0.

(** [datetime(d.year, d.month, d.day)]: midnight of [d]. *)
Definition midnight (d : date) : datetime := DateTime d 0 0 0 0.

(** The fiscal year that contains [d], named for its end year. *)
Definition fiscal_year_of (d : date) : Z :=
  if 10 <=? month d then year d + 1 else year d.

(** The attributes of [FiscalYear(v)] after [v], normalised to the date [d],
    has been bound without error. *)
Definition bound (v : value) (d : date) : FiscalYear.t :=
  FiscalYear.Build
    (Some v) (Some (VDate d)) (Some (VDate d)) (Some (year d))
    (Some (fiscal_year_of d)) (Some (fiscal_year_of d - 1))
    (Some (fiscal_year_of d))
    (Some (midnight (Date (year d) 1 1)))
    (Some (midnight (Date (year d) 12 31)))
    (Some (midnight (Date (fiscal_year_of d - 1) 10 1)))
    (Some (midnight (Date (fiscal_year_of d) 9 30))).

(** [percent] of [c1] and of [c2] days out of [n] are floats [f1 <= f2] in
    the interval from 0 up to, and excluding, 100. *)
Definition percent_okb (n c1 c2 : Z) : bool :=
  match FiscalYear.percent (VInt c1) (VInt n),
        FiscalYear.percent (VInt c2) (VInt n) with
  | Returned (VFloat f1), Returned (VFloat f2) =>
      PrimFloat.leb 0%float f1 && PrimFloat.leb f1 f2
      && PrimFloat.ltb f2 100%float
  | _, _ => false
  end.

(** The record the dialog receives from a handler. *)
Definition dialog (e : exn) (module_ cause_ method_ : string) : Error :=
  MkError e None (Some cause_) (Some method_) (Some module_).

(** *** Vocabulary of the further properties *)

(** The two years of the fiscal window of [d] are years [datetime]
    represents. *)
Definition supported (d : date) : Prop :=
  MINYEAR <= fiscal_year_of d - 1 /\ fiscal_year_of d <= MAXYEAR.

(** The calendar date of a value that has one. *)
Definition date_of (v : value) : option date :=
  match v with
  | VDate d => Some d
  | VDateTime dt => Some (dt_date dt)
  | _ => None
  end.

(** The attributes of [o] after [_bind] has bound [v], a value whose date is
    [d], without error. *)
Definition rebound (o : FiscalYear.t) (v : value) (d : date) : FiscalYear.t :=
  FiscalYear.Build
    (FiscalYear.current_date o) (FiscalYear.today o) (Some v) (Some (year d))
    (Some (fiscal_year_of d)) (Some (fiscal_year_of d - 1))
    (Some (fiscal_year_of d))
    (Some (midnight (Date (year d) 1 1)))
    (Some (midnight (Date (year d) 12 31)))
    (Some (midnight (Date (fiscal_year_of d - 1) 10 1)))
    (Some (midnight (Date (fiscal_year_of d) 9 30))).

(** One when the time of day of [dt] is past midnight. *)
Definition past_midnight (dt : datetime) : Z :=
  if (day_seconds dt =? 0) && (microsecond dt =? 0) then 0 else 1.

(** The days of a month of [dim] days that fall on weekday [wd], when the
    first day of the month falls on weekday [c]. *)
Definition days_matching (c wd dim : Z) : list Z :=
  filter (fun k => (c + (k - 1)) mod 7 =? wd) (range 1 (dim + 1)).

(** The day of the month of the [n]-th weekday [wd], when the first day of
    the month falls on weekday [c]. *)
Definition nth_day (c wd n : Z) : Z := (wd - c) mod 7 + 1 + 7 * (n - 1).

(** The day of the month of the last weekday [wd] of a month of [dim] days. *)
Definition last_day (c wd dim : Z) : Z :=
  if nth_day c wd 5 <=? dim then nth_day c wd 5 else nth_day c wd 4.

(** Indexing [days_matching] agrees with [nth_day] and [last_day]. *)
Definition finder_okb (c wd dim : Z) : bool :=
  forallb (fun n => match list_get (days_matching c wd dim) (n - 1) with
                    | Returned k => k =? nth_day c wd n
                    | _ => false
                    end) (range 1 5)
  && match list_get (days_matching c wd dim) (-1) with
     | Returned k => k =? last_day c wd dim
     | _ => false
     end
  && match list_get (days_matching c wd dim) 4 with
     | Returned k => (k =? nth_day c wd 5) && (k <=? dim)
     | Raised IndexError => dim <? nth_day c wd 5
     | _ => false
     end
  && (Z.of_nat (List.length (days_matching c wd dim)) <=? 5).

(** The entry [_add_holiday] stores for the actual date [a]. *)
Definition entry (name : string) (a : date)
  : string * FederalHoliday.payload :=
  (name, FederalHoliday.Payload (VDate a) (VDate (observed_of a))).

(** The [n]-th weekday [wd] of month [m] of year [y]. *)
Definition nth_weekday (y m wd n : Z) : date :=
  Date y m (nth_day (weekday (Date y m 1)) wd n).

(** The last weekday [wd] of month [m] of year [y]. *)
Definition last_weekday (y m wd : Z) : date :=
  Date y m (last_day (weekday (Date y m 1)) wd (_days_in_month y m)).

(** The actual dates of the holidays of fiscal year [fy], in the order
    [holidays()] adds them. *)
Definition actual_dates (fy : Z) : list date :=
  [nth_weekday (fy - 1) 10 MONDAY 2; Date (fy - 1) 11 11;
   nth_weekday (fy - 1) 11 THURSDAY 4; Date (fy - 1) 12 25; Date fy 1 1;
   nth_weekday fy 1 MONDAY 3; nth_weekday fy 2 MONDAY 3;
   last_weekday fy 5 MONDAY; Date fy 6 19; Date fy 7 4;
   nth_weekday fy 9 MONDAY 1].

(** The mapping [holidays()] returns for fiscal year [fy]. *)
Definition holiday_table (fy : Z) : FederalHoliday.dict :=
  map (fun na => entry (fst na) (snd na))
      (combine holiday_names (actual_dates fy)).

(** The ordinal of a date value. *)
Definition ordinal_of (v : value) : Z :=
  match v with
  | VDate d => toordinal d
  | _ => 0
  end.

(** The dates of the holidays of fiscal year [fy], observed or actual, in
    the order of the mapping. *)
Definition holiday_dates (fy : Z) (use_observed : bool) : list date :=
  map (fun a => if use_observed then observed_of a else a) (actual_dates fy).

(** The ordinals of the days from [a] to [b], both included. *)
Definition days_between (a b : date) : list Z :=
  range (toordinal a) (toordinal b + 1).

(** The weekday of the day whose ordinal is [n]. *)
Definition ordinal_weekday (n : Z) : Z := (n + 6) mod 7.

(** How many elements of [l] satisfy [f]. *)
Definition tally {A} (f : A -> bool) (l : list A) : Z :=
  Z.of_nat (List.length (filter f l)).

(** The day whose ordinal is [n] is a Saturday or a Sunday. *)
Definition is_weekend_day (n : Z) : bool := 5 <=? ordinal_weekday n.

(** The day whose ordinal is [n] is a Monday to Friday and none of the
    holidays whose ordinals are [hs]. *)
Definition is_workday (hs : list Z) (n : Z) : bool :=
  (ordinal_weekday n <? 5) && negb (existsb (Z.eqb n) hs).

(** ** Proof automation *)

Ltac bools :=
  repeat match goal with
  | |- context [?a =? ?b] => destruct (Z.eqb_spec a b)
  | |- context [?a <=? ?b] => destruct (Z.leb_spec a b)
  | |- context [?a <? ?b] => destruct (Z.ltb_spec a b)
  end; cbn [andb orb negb].

Ltac month_cases m :=
  let H := fresh "Hm" in
  assert (H : m = 1 \/ m = 2 \/ m = 3 \/ m = 4 \/ m = 5 \/ m = 6 \/ m = 7
              \/ m = 8 \/ m = 9 \/ m = 10 \/ m = 11 \/ m = 12) by lia;
  repeat (destruct H as [H | H]; [subst m |]); [.. | subst m].

Ltac month_tables :=
  unfold _days_before_month, _days_in_month;
  repeat match goal with
  | |- context [index ?l ?k] =>
      let v := eval vm_compute in (index l k) in change (index l k) with v
  end;
  repeat match goal with |- context [_is_leap ?y] => destruct (_is_leap y) end;
  cbn.

Ltac table_values :=
  repeat match goal with
  | |- context [index ?l ?k] =>
      let v := eval vm_compute in (index l k) in change (index l k) with v
  end.

Ltac run_method :=
  cbn -[datetime_new midnight Z.add Z.sub Z.leb Z.ltb Z.eqb py_sub py_add
        py_cmp toordinal weekday].

Ltac unfold_monad :=
  unfold except_show, bind, throw_if, FiscalYear.assign, FiscalYear.attr,
    FiscalYear.call, lift, ret, raise.

(** ** The proleptic Gregorian calendar *)

Lemma range_In a b x : a <= x < b -> In x (range a b).
Proof.
  intros H. unfold range. apply in_map_iff.
  exists (Z.to_nat (x - a)). split; [lia|]. apply in_seq. lia.
Qed.

Lemma In_range a b x : In x (range a b) -> a <= x < b.
Proof.
  unfold range. intros H. apply in_map_iff in H. destruct H as (i & <- & H).
  apply in_seq in H. lia.
Qed.

Lemma month_day_ok (leapyear : bool) n :
  0 <= n < 365 + (if leapyear then 1 else 0) ->
  month_day_okb leapyear n = true.
Proof.
  intros H.
  assert (A : forallb (month_day_okb true) (range 0 366) = true) by (vm_compute; reflexivity).
  assert (B : forallb (month_day_okb false) (range 0 365) = true) by (vm_compute; reflexivity).
  rewrite forallb_forall in A, B.
  destruct leapyear; [apply A | apply B]; apply range_In; lia.
Qed.

Lemma days_before_year_succ y :
  _days_before_year (y + 1)
  = _days_before_year y + 365 + (if _is_leap y then 1 else 0).
Proof.
  unfold _days_before_year, _is_leap.
  replace (y + 1 - 1) with y by lia.
  bools; Z.div_mod_to_equations; lia.
Qed.

Lemma days_before_year_mono a b :
  a <= b -> _days_before_year a + 365 * (b - a) <= _days_before_year b.
Proof.
  unfold _days_before_year. intros. Z.div_mod_to_equations. lia.
Qed.

Lemma ord2ymd_cases n :
  exists Y r,
    _days_before_year Y + r + 1 = n /\
    0 <= r < 365 + (if _is_leap Y then 1 else 0) /\
    _ord2ymd n = (let '(m, d) := month_day (_is_leap Y) r in (Y, m, d)).
Proof.
  unfold _ord2ymd, _DI400Y, _DI100Y, _DI4Y. cbv zeta.
  set (N := n - 1).
  set (q400 := N / 146097). set (r400 := N mod 146097).
  set (q100 := r400 / 36524). set (r100 := r400 mod 36524).
  set (q4 := r100 / 1461). set (r4 := r100 mod 1461).
  set (q1 := r4 / 365). set (r1 := r4 mod 365).
  assert (E400 : N = 146097 * q400 + r400 /\ 0 <= r400 < 146097)
    by (subst q400 r400; split; [apply Z.div_mod; lia | apply Z.mod_pos_bound; lia]).
  assert (E100 : r400 = 36524 * q100 + r100 /\ 0 <= r100 < 36524)
    by (subst q100 r100; split; [apply Z.div_mod; lia | apply Z.mod_pos_bound; lia]).
  assert (E4 : r100 = 1461 * q4 + r4 /\ 0 <= r4 < 1461)
    by (subst q4 r4; split; [apply Z.div_mod; lia | apply Z.mod_pos_bound; lia]).
  assert (E1 : r4 = 365 * q1 + r1 /\ 0 <= r1 < 365)
    by (subst q1 r1; split; [apply Z.div_mod; lia | apply Z.mod_pos_bound; lia]).
  clearbody q400 r400 q100 r100 q4 r4 q1 r1.
  assert (0 <= q100 <= 4 /\ 0 <= q4 <= 24 /\ 0 <= q1 <= 4) as (B100 & B4 & B1) by lia.
  destruct ((q1 =? 4) || (q100 =? 4)) eqn:Sp.
  - exists (q400 * 400 + 1 + (q100 * 100 + q4 * 4 + q1) - 1), 365.
    assert (L : _is_leap (q400 * 400 + 1 + (q100 * 100 + q4 * 4 + q1) - 1) = true).
    { unfold _is_leap. apply orb_true_iff in Sp.
      destruct Sp as [Sp|Sp]; apply Z.eqb_eq in Sp;
        bools; try reflexivity; exfalso; Z.div_mod_to_equations; lia. }
    rewrite L. split; [|split; [lia|reflexivity]].
    unfold _days_before_year. apply orb_true_iff in Sp.
    destruct Sp as [Sp|Sp]; apply Z.eqb_eq in Sp; Z.div_mod_to_equations; lia.
  - apply orb_false_iff in Sp. destruct Sp as [S1 S100].
    apply Z.eqb_neq in S1, S100.
    exists (q400 * 400 + 1 + (q100 * 100 + q4 * 4 + q1)), r1.
    assert (L : _is_leap (q400 * 400 + 1 + (q100 * 100 + q4 * 4 + q1))
                = (q1 =? 3) && (negb (q4 =? 24) || (q100 =? 3))).
    { unfold _is_leap. bools; try reflexivity; exfalso; Z.div_mod_to_equations; lia. }
    rewrite L. split; [|split].
    + unfold _days_before_year. Z.div_mod_to_equations; lia.
    + bools; lia.
    + unfold month_day. cbv zeta.
      destruct (r1 <? _); reflexivity.
Qed.

Lemma valid_date_iff d :
  valid_date d <->
  MINYEAR <= year d <= MAXYEAR /\ 1 <= month d <= 12
  /\ 1 <= day d <= _days_in_month (year d) (month d).
Proof.
  unfold valid_date, valid_dateb.
  rewrite !andb_true_iff, !Z.leb_le. tauto.
Qed.

Lemma month_span y m :
  1 <= m <= 12 ->
  0 <= _days_before_month y m
  /\ 28 <= _days_in_month y m <= 31
  /\ _days_before_month y m + _days_in_month y m
     <= 365 + (if _is_leap y then 1 else 0).
Proof. intros H. month_cases m; month_tables; lia. Qed.

Lemma month_order y m1 m2 :
  1 <= m1 -> m1 < m2 -> m2 <= 12 ->
  _days_before_month y m1 + _days_in_month y m1 <= _days_before_month y m2.
Proof.
  intros H1 H2 H3. month_cases m1; month_cases m2; try lia; month_tables; lia.
Qed.

Lemma toordinal_bounds d : valid_date d -> 1 <= toordinal d <= _MAXORDINAL.
Proof.
  intros V. apply valid_date_iff in V. destruct V as (Y & Mo & D).
  unfold toordinal, _ymd2ord, MINYEAR, MAXYEAR, _MAXORDINAL in *.
  pose proof (month_span (year d) (month d) Mo) as (A & B & C).
  pose proof (days_before_year_succ (year d)) as S.
  pose proof (days_before_year_mono 1 (year d)) as L.
  pose proof (days_before_year_mono (year d + 1) 10000) as U.
  change (_days_before_year 1) with 0 in L.
  change (_days_before_year 10000) with 3652059 in U.
  lia.
Qed.

Lemma toordinal_fromordinal n :
  1 <= n <= _MAXORDINAL ->
  valid_date (fromordinal n) /\ toordinal (fromordinal n) = n.
Proof.
  intros Hn. unfold fromordinal.
  destruct (ord2ymd_cases n) as (Y & r & E & R & ->).
  pose proof (month_day_ok (_is_leap Y) r R) as K.
  unfold month_day_okb in K. destruct (month_day (_is_leap Y) r) as [m d].
  rewrite !andb_true_iff, !Z.leb_le, Z.eqb_eq in K.
  destruct K as ((((M1 & M2) & D1) & D2) & O).
  assert (YR : MINYEAR <= Y <= MAXYEAR).
  { unfold MINYEAR, MAXYEAR, _MAXORDINAL in *.
    pose proof (days_before_year_succ Y) as S.
    pose proof (days_before_year_mono (Y + 1) 1) as L.
    pose proof (days_before_year_mono 10000 Y) as U.
    change (_days_before_year 1) with 0 in L.
    change (_days_before_year 10000) with 3652059 in U.
    assert (0 <= (if _is_leap Y then 1 else 0) <= 1)
      by (destruct (_is_leap Y); lia).
    lia. }
  split.
  - apply valid_date_iff. cbn [year month day]. repeat split; try lia.
    unfold _days_in_month. destruct ((m =? 2) && _is_leap Y) eqn:F; [|lia].
    apply andb_true_iff in F. destruct F as [F _]. apply Z.eqb_eq in F.
    subst m. change (index _DAYS_IN_MONTH 2) with 28 in D2. lia.
  - unfold toordinal, _ymd2ord, _days_before_month. cbn [year month day]. lia.
Qed.

Lemma date_cmp_ordinal a b :
  valid_date a -> valid_date b ->
  date_cmp a b = (toordinal a ?= toordinal b).
Proof.
  intros Va Vb. apply valid_date_iff in Va, Vb.
  destruct a as [ya ma da], b as [yb mb db]. cbn [year month day] in *.
  destruct Va as (Ya & Ma & Da), Vb as (Yb & Mb & Db).
  unfold date_cmp, toordinal, _ymd2ord. cbn [year month day].
  pose proof (month_span ya ma Ma) as (A1 & A2 & A3).
  pose proof (month_span yb mb Mb) as (B1 & B2 & B3).
  pose proof (days_before_year_succ ya) as Sa.
  pose proof (days_before_year_succ yb) as Sb.
  destruct (Z.compare_spec ya yb) as [E | L | G].
  - subst yb. destruct (Z.compare_spec ma mb) as [E | L | G].
    + subst mb. symmetry. apply Z.add_compare_mono_l.
    + pose proof (month_order ya ma mb ltac:(lia) L ltac:(lia)).
      symmetry. apply Z.compare_lt_iff. lia.
    + pose proof (month_order ya mb ma ltac:(lia) G ltac:(lia)).
      symmetry. apply Z.compare_gt_iff. lia.
  - pose proof (days_before_year_mono (ya + 1) yb ltac:(lia)).
    symmetry. apply Z.compare_lt_iff. lia.
  - pose proof (days_before_year_mono (yb + 1) ya ltac:(lia)).
    symmetry. apply Z.compare_gt_iff. lia.
Qed.

Lemma date_cmp_eq a b : date_cmp a b = Eq -> a = b.
Proof.
  destruct a as [ya ma da], b as [yb mb db]. unfold date_cmp. cbn.
  destruct (Z.compare_spec ya yb); try discriminate.
  destruct (Z.compare_spec ma mb); try discriminate.
  intros C. apply Z.compare_eq in C. congruence.
Qed.

Lemma fromordinal_toordinal d :
  valid_date d -> fromordinal (toordinal d) = d.
Proof.
  intros V. pose proof (toordinal_bounds d V) as B.
  destruct (toordinal_fromordinal _ B) as (V' & E).
  apply date_cmp_eq. rewrite date_cmp_ordinal by assumption.
  rewrite E. apply Z.compare_refl.
Qed.

(** ** Run-time behaviour of guarded code *)

Section Quiet.
Context {S : Type} `{HasSink S}.

Lemma quiet_ret {A} (a : A) (s : S) : quiet (ret a) s a.
Proof. reflexivity. Qed.

Lemma quiet_lift {A} (a : A) (s : S) : quiet (lift (Returned a)) s a.
Proof. reflexivity. Qed.

Lemma quiet_bind {A B} (m : M S A) (k : A -> M S B) s a b :
  quiet m s a -> quiet (k a) s b -> quiet (bind m k) s b.
Proof. unfold quiet, bind. intros -> ->. reflexivity. Qed.

Lemma quiet_except {A} mo ca me (none : A) (body : M S A) s a :
  quiet body s a -> quiet (except_show mo ca me none body) s a.
Proof. unfold quiet, except_show. intros ->. reflexivity. Qed.

End Quiet.

Lemma weekday_range d : 0 <= weekday d < 7.
Proof. unfold weekday. apply Z.mod_pos_bound. lia. Qed.

Lemma observed_of_spec d :
  valid_date d ->
  valid_date (observed_of d)
  /\ toordinal (observed_of d) = toordinal d + shift (weekday d).
Proof.
  intros V. pose proof (toordinal_bounds d V) as B.
  unfold observed_of, shift, weekday, _MAXORDINAL in *.
  destruct (Z.eqb_spec ((toordinal d + 6) mod 7) 5) as [E5 | N5].
  - apply toordinal_fromordinal. unfold _MAXORDINAL.
    Z.div_mod_to_equations. lia.
  - destruct (Z.eqb_spec ((toordinal d + 6) mod 7) 6) as [E6 | N6].
    + apply toordinal_fromordinal. unfold _MAXORDINAL.
      Z.div_mod_to_equations. lia.
    + split; [assumption | lia].
Qed.

Lemma one_day_eq : one_day = Returned (VTimedelta (Timedelta 1 0 0)).
Proof. reflexivity. Qed.

Lemma sub_one_day d :
  1 < toordinal d <= _MAXORDINAL ->
  py_sub (VDate d) (VTimedelta (Timedelta 1 0 0))
  = Returned (VDate (fromordinal (toordinal d - 1))).
Proof.
  intros B. unfold _MAXORDINAL in B.
  change (py_sub (VDate d) (VTimedelta (Timedelta 1 0 0)))
    with (obind (date_add d (Timedelta (-1) 0 0))
                (fun r => Returned (VDate r))).
  unfold date_add, _MAXORDINAL. cbn [days].
  replace (toordinal d + -1) with (toordinal d - 1) by lia.
  destruct (Z.ltb_spec 0 (toordinal d - 1)); [| lia].
  destruct (Z.leb_spec (toordinal d - 1) 3652059); [| lia].
  reflexivity.
Qed.

Lemma add_one_day d :
  0 <= toordinal d < _MAXORDINAL ->
  py_add (VDate d) (VTimedelta (Timedelta 1 0 0))
  = Returned (VDate (fromordinal (toordinal d + 1))).
Proof.
  intros B. unfold _MAXORDINAL in B.
  unfold py_add, date_add, _MAXORDINAL. cbn [days].
  destruct (Z.ltb_spec 0 (toordinal d + 1)); [| lia].
  destruct (Z.leb_spec (toordinal d + 1) 3652059); [| lia].
  reflexivity.
Qed.

Lemma observed_date_quiet self d s :
  valid_date d ->
  quiet (FederalHoliday._observed_date self (VDate d)) s
        (VDate (observed_of d)).
Proof.
  intros V. pose proof (toordinal_bounds d V) as B.
  apply quiet_except.
  unfold quiet, bind, lift, ret, observed_of, get_weekday.
  rewrite one_day_eq.
  unfold weekday, _MAXORDINAL in *.
  destruct (Z.eqb_spec ((toordinal d + 6) mod 7) 5) as [E5 | N5].
  - rewrite sub_one_day; [reflexivity |].
    unfold _MAXORDINAL. Z.div_mod_to_equations. lia.
  - destruct (Z.eqb_spec ((toordinal d + 6) mod 7) 6) as [E6 | N6];
      [| reflexivity].
    rewrite add_one_day; [reflexivity |].
    unfold _MAXORDINAL. Z.div_mod_to_equations. lia.
Qed.

Lemma day_before y m d :
  valid_date (Date y m d) -> 1 < d ->
  fromordinal (toordinal (Date y m d) - 1) = Date y m (d - 1).
Proof.
  intros V D.
  replace (toordinal (Date y m d) - 1) with (toordinal (Date y m (d - 1)))
    by (unfold toordinal, _ymd2ord; cbn [year month day]; lia).
  apply fromordinal_toordinal.
  apply valid_date_iff in V. apply valid_date_iff. cbn [year month day] in *.
  lia.
Qed.

Lemma day_after y m d :
  valid_date (Date y m d) -> d < _days_in_month y m ->
  fromordinal (toordinal (Date y m d) + 1) = Date y m (d + 1).
Proof.
  intros V D.
  replace (toordinal (Date y m d) + 1) with (toordinal (Date y m (d + 1)))
    by (unfold toordinal, _ymd2ord; cbn [year month day]; lia).
  apply fromordinal_toordinal.
  apply valid_date_iff in V. apply valid_date_iff. cbn [year month day] in *.
  lia.
Qed.

(** C5. For every valid actual date [d], [_observed_date] returns a date and
    shows no dialog: the day whose ordinal is one less (a Friday) when [d] is a
    Saturday, the day whose ordinal is one more (a Monday) when [d] is a
    Sunday, and [d] itself otherwise. For July 4 these are July 3 and
    July 5 of the same year. *)
Theorem observed_date_weekend_rule self d s :
  valid_date d ->
  exists obs,
    FederalHoliday._observed_date self (VDate d) s = (Returned (VDate obs), s)
    /\ valid_date obs
    /\ (weekday d = 5 -> toordinal obs = toordinal d - 1 /\ weekday obs = 4)
    /\ (weekday d = 6 -> toordinal obs = toordinal d + 1 /\ weekday obs = 0)
    /\ (weekday d <> 5 -> weekday d <> 6 -> obs = d)
    /\ (month d = 7 -> day d = 4 -> weekday d = 5 -> obs = Date (year d) 7 3)
    /\ (month d = 7 -> day d = 4 -> weekday d = 6 -> obs = Date (year d) 7 5).
Proof.
  intros V. exists (observed_of d).
  destruct (observed_of_spec d V) as (Vo & O).
  split; [apply observed_date_quiet; assumption |].
  split; [assumption |].
  split; [| split; [| split; [| split]]].
  - intros W. rewrite W in O. change (shift 5) with (-1) in O.
    split; [lia |]. unfold weekday in *. rewrite O.
    Z.div_mod_to_equations. lia.
  - intros W. rewrite W in O. change (shift 6) with 1 in O.
    split; [lia |]. unfold weekday in *. rewrite O.
    Z.div_mod_to_equations. lia.
  - intros N5 N6. unfold observed_of.
    apply Z.eqb_neq in N5, N6. rewrite N5, N6. reflexivity.
  - intros Mo Da W. unfold observed_of. rewrite W. cbn.
    destruct d as [y m dd]. cbn [year month day] in *. subst m dd.
    apply day_before; [assumption | lia].
  - intros Mo Da W. unfold observed_of. rewrite W. cbn.
    destruct d as [y m dd]. cbn [year month day] in *. subst m dd.
    apply day_after; [assumption |]. month_tables; lia.
Qed.

Lemma observed_date_weekend_rule_witness :
  let d := Date 2026 7 4 in
  exists obs,
    FederalHoliday._observed_date (federal_holiday 2026) (VDate d) []
    = (Returned (VDate obs), [])
    /\ valid_date obs
    /\ (weekday d = 5 -> toordinal obs = toordinal d - 1 /\ weekday obs = 4)
    /\ (weekday d = 6 -> toordinal obs = toordinal d + 1 /\ weekday obs = 0)
    /\ (weekday d <> 5 -> weekday d <> 6 -> obs = d)
    /\ (month d = 7 -> day d = 4 -> weekday d = 5 -> obs = Date (year d) 7 3)
    /\ (month d = 7 -> day d = 4 -> weekday d = 6 -> obs = Date (year d) 7 5).
Proof.
  apply (observed_date_weekend_rule (federal_holiday 2026) (Date 2026 7 4) []).
  reflexivity.
Defined.

(** ** Month iteration *)

Lemma date_new_valid y m d :
  valid_date (Date y m d) -> date_new y m d = Returned (Date y m d).
Proof.
  intros V. apply valid_date_iff in V. cbn [year month day] in V.
  unfold date_new.
  destruct (Z.leb_spec MINYEAR y); [| lia].
  destruct (Z.leb_spec y MAXYEAR); [| lia].
  destruct (Z.leb_spec 1 m); [| lia].
  destruct (Z.leb_spec m 12); [| lia].
  destruct (Z.leb_spec 1 d); [| lia].
  destruct (Z.leb_spec d (_days_in_month y m)); [| lia].
  reflexivity.
Qed.

Lemma date_new_bad_year y m d :
  y < MINYEAR \/ MAXYEAR < y -> date_new y m d = Raised ValueError.
Proof.
  intros H. unfold date_new.
  destruct (Z.leb_spec MINYEAR y); [| reflexivity].
  destruct (Z.leb_spec y MAXYEAR); [lia | reflexivity].
Qed.

Lemma monthlen_days_in_month y m :
  1 <= m <= 12 -> _monthlen y m = _days_in_month y m.
Proof.
  intros H. unfold _monthlen, _days_in_month.
  change (isleap y) with (_is_leap y).
  month_cases m; table_values; cbn; destruct (_is_leap y); reflexivity.
Qed.

Lemma dates_of_app l1 : forall l2 r1 r2,
  dates_of l1 = Returned r1 -> dates_of l2 = Returned r2 ->
  dates_of (l1 ++ l2) = Returned (r1 ++ r2).
Proof.
  induction l1 as [| [[y m] d] l1 IH]; intros l2 r1 r2 H1 H2; cbn in *.
  - injection H1 as <-. exact H2.
  - destruct (date_new y m d) as [x | e |]; cbn in *; try discriminate.
    destruct (dates_of l1) as [xs | e |] eqn:E; cbn in *; try discriminate.
    injection H1 as <-. rewrite (IH l2 xs r2 eq_refl H2). reflexivity.
Qed.

Lemma dates_of_month y m l :
  MINYEAR <= y <= MAXYEAR -> 1 <= m <= 12 ->
  (forall d, In d l -> 1 <= d <= _days_in_month y m) ->
  dates_of (map (fun d => (y, m, d)) l) = Returned (map (Date y m) l).
Proof.
  intros Y Mo. induction l as [| d l IH]; intros H; cbn; [reflexivity |].
  rewrite date_new_valid.
  - cbn. rewrite IH; [reflexivity |]. intros x I. apply H. now right.
  - apply valid_date_iff. cbn [year month day].
    pose proof (H d (or_introl eq_refl)). lia.
Qed.

Lemma monthrange_eq y m :
  MINYEAR <= y <= MAXYEAR -> 1 <= m <= 12 ->
  monthrange y m = Returned (weekday (Date y m 1), _days_in_month y m).
Proof.
  intros Y Mo. unfold monthrange, cal_weekday.
  destruct (Z.leb_spec 1 m); [| lia]. destruct (Z.leb_spec m 12); [| lia].
  destruct (Z.leb_spec MINYEAR y); [| lia].
  destruct (Z.leb_spec y MAXYEAR); [| lia]. cbn [andb negb].
  rewrite date_new_valid.
  - cbn. rewrite monthlen_days_in_month by assumption. reflexivity.
  - apply valid_date_iff. cbn [year month day].
    pose proof (month_span y m Mo). lia.
Qed.

Lemma filter_none {A} (f : A -> bool) l :
  (forall x, In x l -> f x = false) -> filter f l = [].
Proof.
  induction l as [| a l IH]; intros H; cbn; [reflexivity |].
  rewrite (H a (or_introl eq_refl)). apply IH. intros x I. apply H. now right.
Qed.

Lemma filter_map_comm {A B} (f : A -> B) (p : B -> bool) l :
  filter p (map f l) = map f (filter (fun x => p (f x)) l).
Proof.
  induction l as [| a l IH]; cbn; [reflexivity |].
  destruct (p (f a)); cbn; now rewrite IH.
Qed.

Lemma weekday_in_month y m k :
  weekday (Date y m k) = (weekday (Date y m 1) + (k - 1)) mod 7.
Proof.
  unfold weekday, toordinal, _ymd2ord. cbn [year month day].
  rewrite Zplus_mod_idemp_l. f_equal. lia.
Qed.

Lemma weekday_count c wd dim :
  0 <= c < 7 -> 0 <= wd < 7 -> 28 <= dim <= 31 ->
  4 <= Z.of_nat (List.length (filter (fun k => (c + (k - 1)) mod 7 =? wd)
                                      (range 1 (dim + 1)))).
Proof.
  intros Hc Hw Hd.
  assert (C : c = 0 \/ c = 1 \/ c = 2 \/ c = 3 \/ c = 4 \/ c = 5 \/ c = 6)
    by lia.
  assert (W : wd = 0 \/ wd = 1 \/ wd = 2 \/ wd = 3 \/ wd = 4 \/ wd = 5
              \/ wd = 6) by lia.
  assert (D : dim = 28 \/ dim = 29 \/ dim = 30 \/ dim = 31) by lia.
  clear Hc Hw Hd.
  decompose [or] C; decompose [or] W; decompose [or] D; subst c wd dim;
    vm_compute; discriminate.
Qed.

Lemma matches_eq y m wd :
  MINYEAR <= y <= MAXYEAR -> 1 <= m <= 12 ->
  2 <= m \/ MINYEAR < y -> m <= 11 \/ y < MAXYEAR ->
  FederalHoliday.matches y m wd = Returned (month_matches y m wd).
Proof.
  intros Y Mo P N. unfold FederalHoliday.matches, itermonthdates, itermonthdays3.
  rewrite monthrange_eq by assumption. cbn [obind].
  pose proof (weekday_range (Date y m 1)) as W.
  set (day1 := weekday (Date y m 1)) in *.
  pose proof (month_span y m Mo) as (_ & Dm & _).
  assert (B : 0 <= (day1 - 0) mod 7 < 7) by (apply Z.mod_pos_bound; lia).
  assert (A : 0 <= (0 - day1 - _days_in_month y m) mod 7 < 7)
    by (apply Z.mod_pos_bound; lia).
  unfold _prevmonth, _nextmonth, MINYEAR, MAXYEAR in *.
  set (py := if m =? 1 then y - 1 else y).
  set (pm := if m =? 1 then 12 else m - 1).
  set (ny := if m =? 12 then y + 1 else y).
  set (nm := if m =? 12 then 1 else m + 1).
  assert (Hp : 1 <= py <= 9999 /\ 1 <= pm <= 12 /\ pm <> m)
    by (subst py pm; destruct (Z.eqb_spec m 1); lia).
  assert (Hn : 1 <= ny <= 9999 /\ 1 <= nm <= 12 /\ nm <> m)
    by (subst ny nm; destruct (Z.eqb_spec m 12); lia).
  destruct Hp as (Hpy & Hpm & Hpn), Hn as (Hny & Hnm & Hnn).
  replace (if m =? 1 then (y - 1, 12) else (y, m - 1)) with (py, pm)
    by (subst py pm; destruct (m =? 1); reflexivity).
  replace (if m =? 12 then (y + 1, 1) else (y, m + 1)) with (ny, nm)
    by (subst ny nm; destruct (m =? 12); reflexivity).
  cbn [obind].
  rewrite (monthlen_days_in_month py pm Hpm).
  pose proof (month_span py pm Hpm) as (_ & Dp & _).
  pose proof (month_span ny nm Hnm) as (_ & Dn & _).
  erewrite dates_of_app;
    [ | apply dates_of_month; [assumption | assumption |]
      | apply dates_of_app;
        [ apply dates_of_month; [unfold MINYEAR, MAXYEAR; lia | assumption |]
        | apply dates_of_month; [assumption | assumption |] ] ].
  - cbn [obind]. unfold month_matches. rewrite !filter_app.
    rewrite (filter_none _ (map (Date py pm) _)),
            (filter_none _ (map (Date ny nm) _)).
    + rewrite app_nil_r. reflexivity.
    + intros x I. apply in_map_iff in I. destruct I as (k & <- & _).
      cbn [month]. destruct (Z.eqb_spec nm m); [lia | reflexivity].
    + intros x I. apply in_map_iff in I. destruct I as (k & <- & _).
      cbn [month]. destruct (Z.eqb_spec pm m); [lia | reflexivity].
  - intros d I. apply In_range in I. lia.
  - intros d I. apply In_range in I. lia.
  - intros d I. apply In_range in I. lia.
Qed.

Lemma month_matches_In y m wd d :
  MINYEAR <= y <= MAXYEAR -> 1 <= m <= 12 ->
  In d (month_matches y m wd) ->
  valid_date d /\ year d = y /\ month d = m /\ weekday d = wd.
Proof.
  intros Y Mo I. unfold month_matches in I. apply filter_In in I.
  destruct I as (I & F). apply in_map_iff in I. destruct I as (k & <- & I).
  apply In_range in I. cbn [year month day] in *.
  apply andb_true_iff in F. destruct F as (_ & F). apply Z.eqb_eq in F.
  repeat split; try assumption.
  apply valid_date_iff. cbn [year month day]. lia.
Qed.

Lemma month_matches_length y m wd :
  1 <= m <= 12 -> 0 <= wd < 7 ->
  4 <= Z.of_nat (List.length (month_matches y m wd)).
Proof.
  intros Mo W. unfold month_matches.
  rewrite filter_map_comm, length_map.
  pose proof (month_span y m Mo) as (_ & Dm & _).
  pose proof (weekday_range (Date y m 1)) as C.
  erewrite filter_ext; [apply (weekday_count _ wd _ C W Dm) |].
  intros k. cbn [month]. rewrite Z.eqb_refl. cbn [andb].
  rewrite weekday_in_month. reflexivity.
Qed.

Lemma list_get_In {A} (l : list A) i :
  - Z.of_nat (List.length l) <= i < Z.of_nat (List.length l) ->
  exists a, list_get l i = Returned a /\ In a l.
Proof.
  intros H. unfold list_get.
  set (j := if i <? 0 then i + Z.of_nat (List.length l) else i).
  assert (J : 0 <= j < Z.of_nat (List.length l))
    by (subst j; destruct (Z.ltb_spec i 0); lia).
  destruct (Z.ltb_spec j 0); [lia |].
  destruct (nth_error l (Z.to_nat j)) as [a |] eqn:E.
  - exists a. split; [reflexivity |]. eapply nth_error_In. exact E.
  - apply nth_error_None in E. lia.
Qed.

(** ** FederalHoliday *)

Lemma leap_day_range y : 0 <= leap_day y <= 1.
Proof. unfold leap_day. destruct (_is_leap y); lia. Qed.

Lemma toordinal_late y m d :
  2 < m -> 
  toordinal (Date y m d)
  = _days_before_year y + index _DAYS_BEFORE_MONTH m + leap_day y + d.
Proof.
  intros H. unfold toordinal, _ymd2ord, _days_before_month, leap_day.
  cbn [year month day]. destruct (Z.ltb_spec 2 m); [| lia]. cbn [andb]. lia.
Qed.

Lemma toordinal_early y m d :
  m <= 2 -> 
  toordinal (Date y m d)
  = _days_before_year y + index _DAYS_BEFORE_MONTH m + d.
Proof.
  intros H. unfold toordinal, _ymd2ord, _days_before_month.
  cbn [year month day]. destruct (Z.ltb_spec 2 m); [lia |]. cbn [andb]. lia.
Qed.

Lemma next_year_ordinal y :
  _days_before_year (y + 1) = _days_before_year y + 365 + leap_day y.
Proof. apply days_before_year_succ. Qed.

Lemma valid_fixed y m d :
  MINYEAR <= y <= MAXYEAR -> 1 <= m <= 12 -> 1 <= d <= 28 ->
  valid_date (Date y m d).
Proof.
  intros Y Mo D. apply valid_date_iff. cbn [year month day].
  pose proof (month_span y m Mo). lia.
Qed.

Lemma valid_window_start fy :
  2 <= fy <= 9999 -> valid_date (Date (fy - 1) 10 1).
Proof. intros H. apply valid_fixed; unfold MINYEAR, MAXYEAR; lia. Qed.

Lemma valid_window_end fy : 2 <= fy <= 9999 -> valid_date (Date fy 9 30).
Proof.
  intros H. apply valid_date_iff. cbn [year month day].
  unfold MINYEAR, MAXYEAR. month_tables; lia.
Qed.

Lemma init_returns fy s :
  2 <= fy <= 9999 ->
  FederalHoliday.__init__ fy s = (Returned (federal_holiday fy), s).
Proof.
  intros H. unfold FederalHoliday.__init__, bind, lift, ret.
  rewrite (date_new_valid _ _ _ (valid_window_start fy H)).
  rewrite (date_new_valid _ _ _ (valid_window_end fy H)). reflexivity.
Qed.

Lemma init_raises fy s :
  fy < 2 \/ 9999 < fy ->
  FederalHoliday.__init__ fy s = (Raised ValueError, s).
Proof.
  intros H. unfold FederalHoliday.__init__, bind, lift, ret.
  destruct (Z.eq_dec fy 10000) as [-> | N].
  - reflexivity.
  - rewrite date_new_bad_year by (unfold MINYEAR, MAXYEAR; lia). reflexivity.
Qed.

Lemma init_inv fy s fh s' :
  FederalHoliday.__init__ fy s = (Returned fh, s') ->
  2 <= fy <= 9999 /\ fh = federal_holiday fy /\ s' = s.
Proof.
  intros H. destruct (Z.ltb_spec fy 2); [| destruct (Z.ltb_spec 9999 fy)].
  - rewrite init_raises in H by lia. discriminate.
  - rewrite init_raises in H by lia. discriminate.
  - rewrite init_returns in H by lia. injection H as <- <-.
    repeat split; lia.
Qed.

Lemma nth_weekday_quiet self y m wd n s :
  MINYEAR <= y <= MAXYEAR -> 1 <= m <= 12 ->
  2 <= m \/ MINYEAR < y -> m <= 11 \/ y < MAXYEAR ->
  0 <= wd < 7 -> 1 <= n <= 4 ->
  exists a,
    quiet (FederalHoliday._nth_weekday_of_month self y m wd n) s (VDate a)
    /\ valid_date a /\ year a = y /\ month a = m /\ weekday a = wd.
Proof.
  intros Y Mo P N W Hn.
  pose proof (month_matches_length y m wd Mo W) as L.
  destruct (list_get_In (month_matches y m wd) (n - 1)) as (a & G & I);
    [lia |].
  exists a. split; [| apply (month_matches_In y m wd a Y Mo I)].
  apply quiet_except. unfold quiet, bind, lift, ret.
  rewrite matches_eq, G by assumption. reflexivity.
Qed.

Lemma last_weekday_quiet self y m wd s :
  MINYEAR <= y <= MAXYEAR -> 1 <= m <= 12 ->
  2 <= m \/ MINYEAR < y -> m <= 11 \/ y < MAXYEAR ->
  0 <= wd < 7 ->
  exists a,
    quiet (FederalHoliday._last_weekday_of_month self y m wd) s (VDate a)
    /\ valid_date a /\ year a = y /\ month a = m /\ weekday a = wd.
Proof.
  intros Y Mo P N W.
  pose proof (month_matches_length y m wd Mo W) as L.
  destruct (list_get_In (month_matches y m wd) (-1)) as (a & G & I);
    [lia |].
  exists a. split; [| apply (month_matches_In y m wd a Y Mo I)].
  apply quiet_except. unfold quiet, bind, lift, ret.
  rewrite matches_eq, G by assumption. reflexivity.
Qed.

Lemma date_value_quiet y m d s :
  valid_date (Date y m d) ->
  quiet (FederalHoliday.date_value y m d) s (VDate (Date y m d)).
Proof.
  intros V. unfold quiet, FederalHoliday.date_value, bind, lift, ret.
  rewrite date_new_valid by assumption. reflexivity.
Qed.

Lemma date_leb_ordinal a b :
  valid_date a -> valid_date b ->
  date_leb a b = (toordinal a <=? toordinal b).
Proof.
  intros Va Vb. unfold date_leb, Z.leb.
  rewrite date_cmp_ordinal by assumption. reflexivity.
Qed.

Lemma py_le_dates a b :
  py_le (VDate a) (VDate b) = Returned (date_leb a b).
Proof. reflexivity. Qed.

Lemma add_holiday_quiet self hols name a s :
  valid_date a ->
  date_leb (FederalHoliday.fy_start_date self) (observed_of a) = true ->
  date_leb (observed_of a) (FederalHoliday.fy_end_date self) = true ->
  quiet (FederalHoliday._add_holiday self hols name (VDate a)) s
        (FederalHoliday.dict_set hols name
           (FederalHoliday.Payload (VDate a) (VDate (observed_of a)))).
Proof.
  intros V Lo Hi. apply quiet_except.
  eapply quiet_bind; [apply observed_date_quiet; assumption |].
  unfold quiet, bind, lift, ret. rewrite !py_le_dates, Lo, Hi. reflexivity.
Qed.

(** Both ends of the window of fiscal year [fy], as ordinals. *)
Lemma window_ordinals fy :
  toordinal (Date (fy - 1) 10 1)
  = _days_before_year (fy - 1) + 274 + leap_day (fy - 1)
  /\ toordinal (Date fy 9 30)
     = _days_before_year (fy - 1) + 638 + leap_day (fy - 1) + leap_day fy.
Proof.
  rewrite !toordinal_late by lia. table_values.
  pose proof (next_year_ordinal (fy - 1)) as N.
  replace (fy - 1 + 1) with fy in N by lia. lia.
Qed.

Lemma in_window_ordinal fy a :
  2 <= fy <= 9999 -> valid_date a ->
  toordinal (Date (fy - 1) 10 1) <= toordinal (observed_of a)
                                 <= toordinal (Date fy 9 30) ->
  date_leb (FederalHoliday.fy_start_date (federal_holiday fy)) (observed_of a)
  = true
  /\ date_leb (observed_of a) (FederalHoliday.fy_end_date (federal_holiday fy))
     = true.
Proof.
  intros F V O. destruct (observed_of_spec a V) as (Vo & _).
  cbn [federal_holiday FederalHoliday.fy_start_date
       FederalHoliday.fy_end_date].
  rewrite !date_leb_ordinal;
    auto using valid_window_start, valid_window_end.
  rewrite !Z.leb_le. lia.
Qed.

(** A holiday that falls on a working day of a month of the fiscal year. *)
Lemma weekday_holiday_in_window fy a :
  2 <= fy <= 9999 -> valid_date a ->
  weekday a = MONDAY \/ weekday a = THURSDAY ->
  (year a = fy - 1 /\ 10 <= month a) \/ (year a = fy /\ month a <= 9) ->
  toordinal (Date (fy - 1) 10 1) <= toordinal (observed_of a)
                                 <= toordinal (Date fy 9 30).
Proof.
  intros F V W P. destruct (observed_of_spec a V) as (_ & ->).
  replace (shift (weekday a)) with 0
    by (destruct W as [-> | ->]; reflexivity).
  destruct (window_ordinals fy) as (-> & ->).
  apply valid_date_iff in V. destruct a as [y m d].
  cbn [year month day] in *.
  pose proof (leap_day_range (fy - 1)). pose proof (leap_day_range fy).
  pose proof (next_year_ordinal (fy - 1)) as N.
  replace (fy - 1 + 1) with fy in N by lia.
  pose proof (month_span y m ltac:(lia)) as (_ & _ & S).
  fold (leap_day y) in S.
  destruct P as [(-> & Mo) | (-> & Mo)].
  - rewrite toordinal_late by lia.
    assert (273 <= index _DAYS_BEFORE_MONTH m)
      by (month_cases m; try lia; table_values; lia).
    unfold toordinal, _ymd2ord, _days_before_month in *.
    cbn [year month day] in *.
    destruct (Z.ltb_spec 2 m); [| lia]. cbn [andb] in S.
    fold (leap_day (fy - 1)) in S. lia.
  - assert (_days_before_month fy m + d <= 273 + leap_day fy).
    { assert (Le : _days_before_month fy m + _days_in_month fy m
                   <= 273 + leap_day fy)
        by (unfold leap_day; month_cases m; try lia; month_tables; lia).
      lia. }
    assert (0 <= _days_before_month fy m) by (apply month_span; lia).
    unfold toordinal, _ymd2ord. cbn [year month day]. lia.
Qed.

(** A holiday on a fixed day strictly inside the window stays inside after
    the weekend shift. *)
Lemma fixed_holiday_in_window fy a :
  valid_date a ->
  toordinal (Date (fy - 1) 10 1) < toordinal a < toordinal (Date fy 9 30) ->
  toordinal (Date (fy - 1) 10 1) <= toordinal (observed_of a)
                                 <= toordinal (Date fy 9 30).
Proof.
  intros V O. destruct (observed_of_spec a V) as (_ & ->).
  assert (-1 <= shift (weekday a) <= 1)
    by (unfold shift; destruct (_ =? 5); [lia |]; destruct (_ =? 6); lia).
  lia.
Qed.

(** Adding one holiday whose actual date is a working-day holiday of a month
    of the fiscal year. *)
Lemma add_weekday_holiday fy hols name a s :
  2 <= fy <= 9999 -> valid_date a ->
  weekday a = MONDAY \/ weekday a = THURSDAY ->
  (year a = fy - 1 /\ 10 <= month a) \/ (year a = fy /\ month a <= 9) ->
  quiet (FederalHoliday._add_holiday (federal_holiday fy) hols name (VDate a))
        s
        (FederalHoliday.dict_set hols name
           (FederalHoliday.Payload (VDate a) (VDate (observed_of a)))).
Proof.
  intros F V W P.
  destruct (in_window_ordinal fy a F V
              (weekday_holiday_in_window fy a F V W P)) as (Lo & Hi).
  apply add_holiday_quiet; assumption.
Qed.

(** Adding one holiday that falls on a fixed day of the year. *)
Lemma add_fixed_holiday fy hols name y m d s :
  2 <= fy <= 9999 -> valid_date (Date y m d) ->
  toordinal (Date (fy - 1) 10 1) < toordinal (Date y m d)
                                 < toordinal (Date fy 9 30) ->
  quiet (FederalHoliday.date_value y m d) s (VDate (Date y m d))
  /\ quiet (FederalHoliday._add_holiday (federal_holiday fy) hols name
              (VDate (Date y m d))) s
           (FederalHoliday.dict_set hols name
              (FederalHoliday.Payload (VDate (Date y m d))
                                      (VDate (observed_of (Date y m d))))).
Proof.
  intros F V O. split; [apply date_value_quiet; assumption |].
  destruct (in_window_ordinal fy _ F V
              (fixed_holiday_in_window fy _ V O)) as (Lo & Hi).
  apply add_holiday_quiet; assumption.
Qed.

Ltac fixed_day fy :=
  destruct (window_ordinals fy) as (-> & ->);
  first [rewrite toordinal_late by lia | rewrite toordinal_early by lia];
  table_values;
  pose proof (leap_day_range (fy - 1)); pose proof (leap_day_range fy);
  pose proof (next_year_ordinal (fy - 1)) as N;
  replace (fy - 1 + 1) with fy in N by lia; lia.

Lemma holidays_returns fy s :
  2 <= fy <= 9999 ->
  exists hols,
    quiet (FederalHoliday.holidays (federal_holiday fy)) s (Some hols)
    /\ FederalHoliday.keys hols = holiday_names.
Proof.
  intros F.
  set (self := federal_holiday fy).
  assert (Ys : MINYEAR <= fy - 1 <= MAXYEAR) by (unfold MINYEAR, MAXYEAR; lia).
  assert (Ye : MINYEAR <= fy <= MAXYEAR) by (unfold MINYEAR, MAXYEAR; lia).
  assert (Em : MINYEAR < fy) by (unfold MINYEAR; lia).
  assert (Sm : fy - 1 < MAXYEAR) by (unfold MAXYEAR; lia).
  destruct (nth_weekday_quiet self (fy - 1) 10 MONDAY 2 s)
    as (a1 & R1 & V1 & Y1 & M1 & W1); try (unfold MONDAY; lia); auto.
  destruct (nth_weekday_quiet self (fy - 1) 11 THURSDAY 4 s)
    as (a3 & R3 & V3 & Y3 & M3 & W3); try (unfold THURSDAY; lia); auto.
  destruct (nth_weekday_quiet self fy 1 MONDAY 3 s)
    as (a6 & R6 & V6 & Y6 & M6 & W6); try (unfold MONDAY; lia); auto.
  destruct (nth_weekday_quiet self fy 2 MONDAY 3 s)
    as (a7 & R7 & V7 & Y7 & M7 & W7); try (unfold MONDAY; lia); auto.
  destruct (last_weekday_quiet self fy 5 MONDAY s)
    as (a8 & R8 & V8 & Y8 & M8 & W8); try (unfold MONDAY; lia); auto.
  destruct (nth_weekday_quiet self fy 9 MONDAY 1 s)
    as (a11 & R11 & V11 & Y11 & M11 & W11); try (unfold MONDAY; lia); auto.
  destruct (add_fixed_holiday fy [] "x" (fy - 1) 11 11 s) as (D2 & _);
    [assumption | apply valid_fixed; lia | fixed_day fy |].
  destruct (add_fixed_holiday fy [] "x" (fy - 1) 12 25 s) as (D4 & _);
    [assumption | apply valid_fixed; lia | fixed_day fy |].
  destruct (add_fixed_holiday fy [] "x" fy 1 1 s) as (D5 & _);
    [assumption | apply valid_fixed; lia | fixed_day fy |].
  destruct (add_fixed_holiday fy [] "x" fy 6 19 s) as (D9 & _);
    [assumption | apply valid_fixed; lia | fixed_day fy |].
  destruct (add_fixed_holiday fy [] "x" fy 7 4 s) as (D10 & _);
    [assumption | apply valid_fixed; lia | fixed_day fy |].
  eexists. split.
  - apply quiet_except. cbv zeta.
    change (year (FederalHoliday.fy_start_date self)) with (fy - 1).
    change (FederalHoliday.fiscal_year self) with fy.
    eapply quiet_bind; [exact R1 |].
    eapply quiet_bind;
      [apply add_weekday_holiday; auto; left; split; lia |].
    eapply quiet_bind; [exact D2 |].
    eapply quiet_bind;
      [apply add_fixed_holiday;
       [assumption | apply valid_fixed; lia | fixed_day fy] |].
    eapply quiet_bind; [exact R3 |].
    eapply quiet_bind;
      [apply add_weekday_holiday; auto; left; split; lia |].
    eapply quiet_bind; [exact D4 |].
    eapply quiet_bind;
      [apply add_fixed_holiday;
       [assumption | apply valid_fixed; lia | fixed_day fy] |].
    eapply quiet_bind; [exact D5 |].
    eapply quiet_bind;
      [apply add_fixed_holiday;
       [assumption | apply valid_fixed; lia | fixed_day fy] |].
    eapply quiet_bind; [exact R6 |].
    eapply quiet_bind;
      [apply add_weekday_holiday; auto; right; split; lia |].
    eapply quiet_bind; [exact R7 |].
    eapply quiet_bind;
      [apply add_weekday_holiday; auto; right; split; lia |].
    eapply quiet_bind; [exact R8 |].
    eapply quiet_bind;
      [apply add_weekday_holiday; auto; right; split; lia |].
    eapply quiet_bind; [exact D9 |].
    eapply quiet_bind;
      [apply add_fixed_holiday;
       [assumption | apply valid_fixed; lia | fixed_day fy] |].
    eapply quiet_bind; [exact D10 |].
    eapply quiet_bind;
      [apply add_fixed_holiday;
       [assumption | apply valid_fixed; lia | fixed_day fy] |].
    eapply quiet_bind; [exact R11 |].
    eapply quiet_bind;
      [apply add_weekday_holiday; auto; right; split; lia |].
    apply quiet_ret.
  - reflexivity.
Qed.

(** ** FiscalYear *)

Lemma datetime_new_valid y m d :
  valid_date (Date y m d) -> datetime_new y m d = Returned (midnight (Date y m d)).
Proof. intros V. unfold datetime_new. now rewrite date_new_valid. Qed.

Lemma datetime_new_bad_year y m d :
  y < MINYEAR \/ MAXYEAR < y -> datetime_new y m d = Raised ValueError.
Proof. intros H. unfold datetime_new. now rewrite date_new_bad_year. Qed.

Lemma valid_dec31 y : MINYEAR <= y <= MAXYEAR -> valid_date (Date y 12 31).
Proof.
  intros H. apply valid_date_iff. cbn [year month day]. month_tables; lia.
Qed.

Lemma valid_sep30 y : MINYEAR <= y <= MAXYEAR -> valid_date (Date y 9 30).
Proof.
  intros H. apply valid_date_iff. cbn [year month day]. month_tables; lia.
Qed.

Lemma snoc_neq {A} (l : list A) (x : A) : l ++ [x] <> l.
Proof.
  intros E. apply (f_equal (@List.length A)) in E.
  rewrite length_app in E. cbn in E. lia.
Qed.



Lemma bind_reports_outside_supported_years now v d s :
  _to_date now v = VDate d -> valid_date d ->
  fiscal_year_of d - 1 < MINYEAR \/ MAXYEAR < fiscal_year_of d ->
  exists o,
    FiscalYear.new now v s = (Returned o, s ++ [dialog ValueError "tempus" "" ""])
    /\ FiscalYear.fy_end_date o = None
    /\ FiscalYear.cy_start_date o = None.
Proof.
  intros T V. apply valid_date_iff in V. destruct V as (Y & Mo & D).
  unfold FiscalYear.new, FiscalYear.__init__, FiscalYear._bind, fiscal_year_of.
  unfold_monad. cbn [FiscalYear.current_date FiscalYear.set_current_date
                     FiscalYear.self FiscalYear.today FiscalYear.set_today].
  rewrite T. run_method. unfold MINYEAR, MAXYEAR in *.
  destruct (Z.leb_spec 10 (month d)) as [Late | Early]; run_method; intros O.
  - rewrite datetime_new_valid
      by (apply valid_fixed; unfold MINYEAR, MAXYEAR; lia).
    rewrite datetime_new_bad_year by (unfold MAXYEAR; lia).
    run_method. eexists. repeat split; reflexivity.
  - rewrite datetime_new_bad_year by (unfold MINYEAR; lia).
    run_method. eexists. repeat split; reflexivity.
Qed.

(** After construction the bound date is a plain [date], if it is set at
    all: [__init__] passes its argument through [_to_date]. *)
Lemma new_date_plain now v s o s' :
  FiscalYear.new now v s = (Returned o, s') ->
  FiscalYear.date o = None \/ exists d, FiscalYear.date o = Some (VDate d).
Proof.
  unfold FiscalYear.new, FiscalYear.__init__, FiscalYear._bind.
  unfold_monad. cbn [FiscalYear.current_date FiscalYear.set_current_date
                     FiscalYear.self FiscalYear.today FiscalYear.set_today].
  destruct (_to_date now v) eqn:T;
    try (destruct v; cbn in T; discriminate T).
  - run_method. intros H. inversion H. left. reflexivity.
  - run_method.
    repeat match goal with
           | |- context [datetime_new ?a ?b ?c] =>
               destruct (datetime_new a b c); run_method
           | |- context [10 <=? ?m] => destruct (10 <=? m); run_method
           end;
      intros H; inversion H; right; eexists; reflexivity.
Qed.

(** Guarded methods. *)

Lemma except_show_catches {S A} `{HasSink S} mo ca me (none : A)
    (body : M S A) s e s' :
  body s = (Raised e, s') ->
  except_show mo ca me none body s
  = (Returned none, show_dialog (dialog e mo ca me) s').
Proof. unfold except_show. intros ->. reflexivity. Qed.

Lemma except_show_never_raises {S A} `{HasSink S} mo ca me (none : A)
    (body : M S A) s e :
  fst (except_show mo ca me none body s) <> Raised e.
Proof.
  unfold except_show. destruct (body s) as [[a | x |] s']; cbn; discriminate.
Qed.

(** [fiscal_day_of_year] adds an integer to a [timedelta], or subtracts a
    [datetime] from something that is not one: it has no successful path. *)
Lemma fiscal_day_of_year_never_a_number w :
  fst (FiscalYear.fiscal_day_of_year w) = Returned VNone.
Proof.
  unfold FiscalYear.fiscal_day_of_year. unfold_monad.
  destruct (FiscalYear.date (FiscalYear.self w)) as [d |]; [| reflexivity].
  destruct (FiscalYear.fy_start_date (FiscalYear.self w)) as [a |];
    [| reflexivity].
  destruct d; try reflexivity.
  cbn [py_sub]. unfold datetime_sub, timedelta_new.
  destruct (Z.abs _ >? 999999999); reflexivity.
Qed.

Lemma fiscal_elapsed_days_never_a_number w :
  fst (FiscalYear.fiscal_elapsed_days w) = Returned VNone.
Proof.
  unfold FiscalYear.fiscal_elapsed_days. unfold_monad.
  destruct (FiscalYear.date (FiscalYear.self w)) as [d |]; [| reflexivity].
  destruct (FiscalYear.fy_start_date (FiscalYear.self w)) as [a |];
    [| reflexivity].
  destruct d; try reflexivity.
  cbn [py_sub]. unfold datetime_sub, timedelta_new.
  destruct (Z.abs _ >? 999999999); reflexivity.
Qed.

Lemma percent_of_none total : FiscalYear.percent VNone total = Raised TypeError.
Proof. destruct total; reflexivity. Qed.

Lemma fiscal_percent_elapsed_never_a_number w :
  fst (FiscalYear.fiscal_percent_elapsed w) = Returned VNone.
Proof.
  unfold FiscalYear.fiscal_percent_elapsed, except_show, bind.
  pose proof (fiscal_elapsed_days_never_a_number w) as E.
  destruct (FiscalYear.fiscal_elapsed_days w) as [r w1]. cbn in E. subst r.
  unfold FiscalYear.fiscal_days_in_year. unfold_monad.
  destruct (FiscalYear.fy_end_date (FiscalYear.self w1)) as [b |];
    [| reflexivity].
  destruct (FiscalYear.fy_start_date (FiscalYear.self w1)) as [a |];
    [| reflexivity].
  cbn [py_sub]. unfold datetime_sub, timedelta_new.
  destruct (Z.abs _ >? 999999999); reflexivity.
Qed.

(** [calendar_day_of_year] of a constructed object subtracts a [datetime]
    from a [date]. *)
Lemma calendar_day_of_year_after_new now v s o s' s'' :
  FiscalYear.new now v s = (Returned o, s') ->
  fst (FiscalYear.calendar_day_of_year (FiscalYear.World o s''))
  = Returned VNone.
Proof.
  intros N. apply new_date_plain in N.
  unfold FiscalYear.calendar_day_of_year. unfold_monad.
  cbn [FiscalYear.self].
  destruct N as [-> | (d & ->)]; [reflexivity |]. run_method.
  destruct (FiscalYear.cy_start_date o); reflexivity.
Qed.

(** [is_fiscal_start_year] of a constructed object compares a [date] with a
    [datetime]. *)
Lemma is_fiscal_start_year_after_new now v s o s' s'' :
  FiscalYear.new now v s = (Returned o, s') ->
  fst (FiscalYear.is_fiscal_start_year (FiscalYear.World o s''))
  <> Returned (VBool true).
Proof.
  intros N. apply new_date_plain in N.
  unfold FiscalYear.is_fiscal_start_year. unfold_monad.
  cbn [FiscalYear.self].
  destruct N as [-> | (d & ->)]; [discriminate |]. run_method.
  destruct (FiscalYear.fy_start_date o); discriminate.
Qed.

Lemma timedelta_new_normal d s us :
  Z.abs d <= 999999999 -> 0 <= s < 86400 -> 0 <= us < 1000000 ->
  timedelta_new d s us = Returned (Timedelta d s us).
Proof.
  intros D S U. unfold timedelta_new.
  rewrite (Z.div_small us), (Z.mod_small us), Z.add_0_r by lia.
  rewrite (Z.div_small s), (Z.mod_small s), Z.add_0_r by lia.
  destruct (Z.gtb_spec (Z.abs d) 999999999); [lia | reflexivity].
Qed.

(** With a [datetime] bound directly through [_bind], both operands are
    datetimes and the documented day index comes out. *)
Lemma calendar_day_of_year_of_datetime dt s :
  valid_datetime dt -> MINYEAR < year (dt_date dt) < MAXYEAR ->
  let w := snd (FiscalYear._bind (VDateTime dt) (FiscalYear.World FiscalYear.fresh s)) in
  fst (FiscalYear.calendar_day_of_year w)
  = Returned (VInt (toordinal (dt_date dt)
                    - toordinal (Date (year (dt_date dt)) 1 1) + 1)).
Proof.
  intros V Yr. apply andb_true_iff in V. destruct V as (Vd & Vt).
  pose proof (toordinal_bounds _ Vd) as B.
  apply valid_date_iff in Vd. destruct Vd as (Y & Mo & D).
  assert (V1 : valid_date (Date (year (dt_date dt)) 1 1))
    by (apply valid_fixed; lia).
  pose proof (toordinal_bounds _ V1) as B1.
  unfold valid_timeb in Vt. rewrite !andb_true_iff, !Z.leb_le in Vt.
  unfold FiscalYear._bind, FiscalYear.calendar_day_of_year. unfold_monad.
  run_method.
  rewrite (datetime_new_valid _ _ _ V1).
  rewrite (datetime_new_valid (year (dt_date dt)) 12 31)
    by (apply valid_dec31; lia).
  unfold MINYEAR, MAXYEAR, _MAXORDINAL in *.
  assert (Sub : py_sub (VDateTime dt)
                  (VDateTime (midnight (Date (year (dt_date dt)) 1 1)))
                = Returned (VTimedelta
                    (Timedelta (toordinal (dt_date dt)
                                - toordinal (Date (year (dt_date dt)) 1 1))
                               (day_seconds dt) (microsecond dt)))).
  { unfold py_sub, datetime_sub.
    replace (day_seconds dt - day_seconds (midnight _)) with (day_seconds dt)
      by (unfold day_seconds, midnight; cbn; lia).
    replace (microsecond dt - microsecond (midnight _)) with (microsecond dt)
      by (unfold midnight; cbn; lia).
    cbn [dt_date midnight].
    rewrite timedelta_new_normal; [reflexivity | lia | | lia].
    unfold day_seconds. lia. }
  destruct (Z.leb_spec 10 (month (dt_date dt))); run_method.
  - rewrite datetime_new_valid
      by (apply valid_fixed; unfold MINYEAR, MAXYEAR; lia).
    rewrite datetime_new_valid
      by (apply valid_sep30; unfold MINYEAR, MAXYEAR; lia).
    run_method. rewrite Sub. reflexivity.
  - rewrite datetime_new_valid
      by (apply valid_fixed; unfold MINYEAR, MAXYEAR; lia).
    rewrite datetime_new_valid
      by (apply valid_sep30; unfold MINYEAR, MAXYEAR; lia).
    run_method. rewrite Sub. reflexivity.
Qed.

(** ** Partial correctness of guarded code *)

Section Yields.
Context {S : Type} `{HasSink S}.

Lemma yields_ret {A} (a : A) (Q : A -> Prop) : Q a -> yields (ret (S := S) a) Q.
Proof. intros q s a' s' E. unfold ret in E. inversion E. subst. exact q. Qed.

Lemma yields_any {A} (m : M S A) : yields m (fun _ => True).
Proof. intros s a s' _. exact I. Qed.

Lemma yields_bind {A B} (m : M S A) (k : A -> M S B) P Q :
  yields m P -> (forall a, P a -> yields (k a) Q) -> yields (bind m k) Q.
Proof.
  intros Hm Hk s b s' E. unfold bind in E.
  destruct (m s) as [[a | e |] s1] eqn:Em; try discriminate.
  exact (Hk a (Hm s a s1 Em) s1 b s' E).
Qed.

Lemma yields_except {A} mo ca me (none : A) (body : M S A) Q :
  yields body Q -> Q none -> yields (except_show mo ca me none body) Q.
Proof.
  intros Hb Hn s a s' E. unfold except_show in E.
  destruct (body s) as [[x | e |] s1] eqn:Eb; inversion E; subst.
  - exact (Hb s a s' Eb).
  - exact Hn.
Qed.

End Yields.

Lemma py_le_date_true a v :
  py_le (VDate a) v = Returned true ->
  exists o, v = VDate o /\ date_leb a o = true.
Proof.
  destruct v; cbn; try discriminate.
  intros E. inversion E. eexists. split; reflexivity.
Qed.

Lemma py_le_true_date v b :
  py_le v (VDate b) = Returned true ->
  exists o, v = VDate o /\ date_leb o b = true.
Proof.
  destruct v; cbn; try discriminate.
  intros E. inversion E. eexists. split; reflexivity.
Qed.

Lemma dict_set_Forall (P : string * FederalHoliday.payload -> Prop) hols name p :
  Forall P hols -> P (name, p) ->
  (forall k q, P (k, q) -> k = name -> P (k, p)) ->
  Forall P (FederalHoliday.dict_set hols name p).
Proof.
  intros F Pn R. induction F as [| [k q] l Hx Hl IH]; cbn.
  - constructor; [assumption | constructor].
  - destruct (String.eqb_spec k name) as [-> | N].
    + constructor; assumption.
    + constructor; assumption.
Qed.

(** [_add_holiday] keeps every entry of the dictionary inside the window,
    whatever it is asked to add. *)
Lemma add_holiday_within self hols name a :
  Forall (fun kv => within self (snd kv)) hols ->
  yields (FederalHoliday._add_holiday self hols name a)
         (Forall (fun kv => within self (snd kv))).
Proof.
  intros F. apply yields_except; [| assumption].
  eapply yields_bind; [apply yields_any |]. intros obs _.
  intros s h s' E. unfold bind, lift, ret in E.
  destruct (py_le (VDate (FederalHoliday.fy_start_date self)) obs)
    as [lo | e |] eqn:Lo; try discriminate.
  destruct lo.
  - destruct (py_le obs (VDate (FederalHoliday.fy_end_date self)))
      as [hi | e |] eqn:Hi; try discriminate.
    destruct hi; inversion E; subst; [| assumption].
    apply py_le_date_true in Lo. destruct Lo as (o & -> & Lo).
    apply py_le_true_date in Hi. destruct Hi as (o' & Eo & Hi).
    inversion Eo; subst o'.
    assert (W : within self (FederalHoliday.Payload a (VDate o)))
      by (exists o; repeat split; assumption).
    apply dict_set_Forall; [assumption | exact W | intros; exact W].
  - inversion E; subst. assumption.
Qed.

Lemma holidays_within self :
  yields (FederalHoliday.holidays self)
         (fun r => forall hols, r = Some hols ->
                                Forall (fun kv => within self (snd kv)) hols).
Proof.
  apply yields_except; [| discriminate]. cbv zeta.
  assert (F0 : Forall (fun kv : string * FederalHoliday.payload =>
                         within self (snd kv)) []) by constructor.
  revert F0. generalize (@nil (string * FederalHoliday.payload)).
  intros h0 F0.
  repeat (eapply yields_bind; [apply yields_any | intros ? _];
          eapply yields_bind; [apply add_holiday_within; eassumption |];
          clear F0; intros ? F0).
  apply yields_ret. intros hols E. inversion E; subst. assumption.
Qed.

(** What [_add_holiday] does with an observed date outside the window. *)
Lemma add_holiday_omits self hols name a obs s :
  FederalHoliday._observed_date self a s = (Returned (VDate obs), s) ->
  date_leb (FederalHoliday.fy_start_date self) obs
  && date_leb obs (FederalHoliday.fy_end_date self) = false ->
  FederalHoliday._add_holiday self hols name a s = (Returned hols, s).
Proof.
  intros O W. unfold FederalHoliday._add_holiday, except_show, bind, lift, ret.
  rewrite O, !py_le_dates.
  destruct (date_leb _ obs); [| reflexivity]. cbn in W. rewrite W. reflexivity.
Qed.

(** C6. For every fiscal year for which a [FederalHoliday] exists,
    [holidays()] returns a mapping, shows no dialog, and every entry of the
    mapping has its observed date within [fy_start_date, fy_end_date], both
    ends included. A holiday whose observed date is outside that window is
    left out by [_add_holiday]: the dictionary comes back unchanged and no
    error is shown. *)
Theorem holidays_observed_within_window fy fh s s' :
  FederalHoliday.__init__ fy s = (Returned fh, s') ->
  (exists hols,
      FederalHoliday.holidays fh s' = (Returned (Some hols), s')
      /\ forall name p, In (name, p) hols -> within fh p)
  /\ (forall hols name actual obs s0,
        FederalHoliday._observed_date fh actual s0
        = (Returned (VDate obs), s0) ->
        date_leb (FederalHoliday.fy_start_date fh) obs
        && date_leb obs (FederalHoliday.fy_end_date fh) = false ->
        FederalHoliday._add_holiday fh hols name actual s0
        = (Returned hols, s0)).
Proof.
  intros I. apply init_inv in I. destruct I as (F & -> & ->). split.
  - destruct (holidays_returns fy s F) as (hols & R & _).
    exists hols. split; [exact R |]. intros name p In.
    pose proof (holidays_within _ _ _ _ R hols eq_refl) as W.
    rewrite Forall_forall in W. exact (W (name, p) In).
  - intros hols name actual obs s0. apply add_holiday_omits.
Qed.

Lemma holidays_observed_within_window_witness :
  (exists hols,
      FederalHoliday.holidays (federal_holiday 2025) []
      = (Returned (Some hols), [])
      /\ forall name p, In (name, p) hols -> within (federal_holiday 2025) p)
  /\ (forall hols name actual obs s0,
        FederalHoliday._observed_date (federal_holiday 2025) actual s0
        = (Returned (VDate obs), s0) ->
        date_leb (FederalHoliday.fy_start_date (federal_holiday 2025)) obs
        && date_leb obs (FederalHoliday.fy_end_date (federal_holiday 2025))
           = false ->
        FederalHoliday._add_holiday (federal_holiday 2025) hols name actual s0
        = (Returned hols, s0)).
Proof.
  apply (holidays_observed_within_window 2025 (federal_holiday 2025) [] []).
  reflexivity.
Defined.

(** A date just outside the window: 1 October 2022 opens fiscal year 2023 and
    is a Saturday, so its observed date is the last day of fiscal year 2022
    and [_add_holiday] leaves the dictionary alone. *)
Example add_holiday_drops_shifted_out :
  FederalHoliday._add_holiday (federal_holiday 2023) [] "Opening Day"
    (VDate (Date 2022 10 1)) []
  = (Returned [], []).
Proof. reflexivity. Qed.

(** C10. For every fiscal year for which a [FederalHoliday] exists,
    [holidays()] returns a mapping with exactly eleven entries, one under each
    of the eleven holiday names: the window test of [_add_holiday] never drops
    one of them. *)
Theorem holidays_has_eleven_entries fy fh s s' :
  FederalHoliday.__init__ fy s = (Returned fh, s') ->
  exists hols,
    FederalHoliday.holidays fh s' = (Returned (Some hols), s')
    /\ List.length hols = 11%nat
    /\ FederalHoliday.keys hols = holiday_names
    /\ NoDup (FederalHoliday.keys hols).
Proof.
  intros I. apply init_inv in I. destruct I as (F & -> & ->).
  destruct (holidays_returns fy s F) as (hols & R & K).
  exists hols. split; [exact R |].
  assert (L : List.length (FederalHoliday.keys hols) = 11%nat)
    by (rewrite K; reflexivity).
  unfold FederalHoliday.keys in L. rewrite length_map in L.
  split; [exact L |]. split; [exact K |]. rewrite K.
  repeat (constructor; [cbn; intuition discriminate |]). constructor.
Qed.

Lemma holidays_has_eleven_entries_witness :
  exists hols,
    FederalHoliday.holidays (federal_holiday 2025) []
    = (Returned (Some hols), [])
    /\ List.length hols = 11%nat
    /\ FederalHoliday.keys hols = holiday_names
    /\ NoDup (FederalHoliday.keys hols).
Proof.
  apply (holidays_has_eleven_entries 2025 (federal_holiday 2025) [] []).
  reflexivity.
Defined.

(** ** The day-by-day loops *)

(** One turn of either loop from a valid [cur <= e]: the next day, or
    [OverflowError] when [cur] is the last representable day. *)
Lemma next_day cur :
  valid_date cur ->
  (toordinal cur < _MAXORDINAL
   /\ exists nxt,
        obind one_day (py_add (VDate cur)) = Returned (VDate nxt)
        /\ valid_date nxt /\ toordinal nxt = toordinal cur + 1)
  \/ (toordinal cur = _MAXORDINAL
      /\ obind one_day (py_add (VDate cur)) = Raised OverflowError).
Proof.
  intros V. pose proof (toordinal_bounds cur V) as B.
  rewrite one_day_eq. cbn [obind].
  destruct (Z.eq_dec (toordinal cur) _MAXORDINAL) as [E | N].
  - right. split; [assumption |]. unfold py_add, date_add. cbn [days].
    rewrite E. reflexivity.
  - left. split; [lia |]. exists (fromordinal (toordinal cur + 1)).
    rewrite add_one_day by lia. split; [reflexivity |].
    apply toordinal_fromordinal. lia.
Qed.

Lemma py_le_valid_dates a b :
  valid_date a -> valid_date b ->
  py_le (VDate a) (VDate b) = Returned (toordinal a <=? toordinal b).
Proof.
  intros Va Vb. rewrite py_le_dates, date_leb_ordinal by assumption.
  reflexivity.
Qed.

(** The budget [span s e] is enough: the weekend loop ends by returning or by
    raising, never by exhausting its budget. *)
Lemma weekends_loop_ends fuel : forall count cur e w,
  valid_date cur -> valid_date e ->
  toordinal cur <= toordinal e + 1 ->
  toordinal e - toordinal cur + 2 <= Z.of_nat fuel ->
  fst (FiscalYear.weekends_loop fuel count (VDate cur) (VDate e) w)
  <> Diverged.
Proof.
  induction fuel as [| fuel IH]; intros count cur e w Vc Ve I F; [lia |].
  cbn [FiscalYear.weekends_loop]. unfold bind, lift, ret.
  rewrite py_le_valid_dates by assumption.
  destruct (Z.leb_spec (toordinal cur) (toordinal e)) as [Le | Gt];
    [| discriminate].
  cbn [get_weekday].
  destruct (next_day cur Vc) as [(Lt & nxt & N & Vn & On) | (Eq & N)].
  - rewrite one_day_eq in *. cbn [obind] in N. rewrite N.
    apply IH; try assumption; lia.
  - rewrite one_day_eq in *. cbn [obind] in N. rewrite N. discriminate.
Qed.

Lemma workdays_loop_ends fuel : forall hset count cur e w,
  valid_date cur -> valid_date e ->
  toordinal cur <= toordinal e + 1 ->
  toordinal e - toordinal cur + 2 <= Z.of_nat fuel ->
  fst (FiscalYear.workdays_loop fuel hset count (VDate cur) (VDate e) w)
  <> Diverged.
Proof.
  induction fuel as [| fuel IH]; intros hset count cur e w Vc Ve I F; [lia |].
  cbn [FiscalYear.workdays_loop]. unfold bind, lift, ret.
  rewrite py_le_valid_dates by assumption.
  destruct (Z.leb_spec (toordinal cur) (toordinal e)) as [Le | Gt];
    [| discriminate].
  cbn [get_weekday].
  destruct (next_day cur Vc) as [(Lt & nxt & N & Vn & On) | (Eq & N)].
  - rewrite one_day_eq in *. cbn [obind] in N. rewrite N.
    apply IH; try assumption; lia.
  - rewrite one_day_eq in *. cbn [obind] in N. rewrite N. discriminate.
Qed.

(** [count_weekends] always comes back to its caller with a value or
    [None]. *)
Lemma count_weekends_returns now start end_ s e w :
  _to_date now start = VDate s -> _to_date now end_ = VDate e ->
  valid_date s -> valid_date e ->
  exists v, fst (FiscalYear.count_weekends now start end_ w) = Returned v.
Proof.
  intros Ts Te Vs Ve.
  unfold FiscalYear.count_weekends, except_show, bind, lift, ret. cbv zeta.
  rewrite Ts, Te. unfold py_gt, py_cmp, obind.
  rewrite date_cmp_ordinal by assumption.
  destruct (Z.compare_spec (toordinal s) (toordinal e)) as [E | L | G].
  - pose proof (weekends_loop_ends (FiscalYear.span (VDate s) (VDate e)) 0 s e w
                  Vs Ve ltac:(lia) ltac:(unfold FiscalYear.span; lia)) as D.
    destruct (FiscalYear.weekends_loop _ 0 (VDate s) (VDate e) w)
      as [[v | x |] w']; cbn in D |- *; [eexists; reflexivity.. | congruence].
  - pose proof (weekends_loop_ends (FiscalYear.span (VDate s) (VDate e)) 0 s e w
                  Vs Ve ltac:(lia) ltac:(unfold FiscalYear.span; lia)) as D.
    destruct (FiscalYear.weekends_loop _ 0 (VDate s) (VDate e) w)
      as [[v | x |] w']; cbn in D |- *; [eexists; reflexivity.. | congruence].
  - eexists. reflexivity.
Qed.

(** Scenarios of the specification, run on the model. *)

Example count_weekends_first_week_of_fy2026 now :
  let o := bound (VDate (Date 2025 10 1)) (Date 2025 10 1) in
  FiscalYear.count_weekends now (VDate (Date 2025 10 1)) (VDate (Date 2025 10 7))
    (FiscalYear.World o [])
  = (Returned (VInt 2), FiscalYear.World o []).
Proof. vm_compute. reflexivity. Qed.

Example count_workdays_first_quarter_of_fy2026 now :
  let o := bound (VDate (Date 2025 10 1)) (Date 2025 10 1) in
  FiscalYear.count_workdays now (VDate (Date 2025 10 1))
    (VDate (Date 2025 12 31)) true (FiscalYear.World o [])
  = (Returned (VInt 62), FiscalYear.World o []).
Proof. vm_compute. reflexivity. Qed.

Example holidays_of_fy2025 :
  exists hols,
    FederalHoliday.holidays (federal_holiday 2025) [] = (Returned (Some hols), [])
    /\ In ("New Year's Day",
           FederalHoliday.Payload (VDate (Date 2025 1 1)) (VDate (Date 2025 1 1)))
          hols
    /\ In ("Juneteenth National Independence Day",
           FederalHoliday.Payload (VDate (Date 2025 6 19)) (VDate (Date 2025 6 19)))
          hols
    /\ In ("Independence Day",
           FederalHoliday.Payload (VDate (Date 2025 7 4)) (VDate (Date 2025 7 4)))
          hols.
Proof.
  eexists. split; [vm_compute; reflexivity |]. cbn. intuition.
Qed.

(** C2. [FiscalYear(date(2025, 10, 1)).fiscal_day_of_year()]: the date is
    bound without error, and the method, instead of the day index 1, returns
    [None] after showing a [TypeError]: it subtracts the [datetime]
    [fy_start_date] from the [date] that is bound. *)
Theorem fiscal_day_of_year_on_october_first now :
  let d := Date 2025 10 1 in
  let o := bound (VDate d) d in
  FiscalYear.new now (VDate d) [] = (Returned o, [])
  /\ FiscalYear.fiscal_day_of_year (FiscalYear.World o [])
     = (Returned VNone, FiscalYear.World o [dialog TypeError "tempus" "" ""]).
Proof. split; vm_compute; reflexivity. Qed.

(** C3. [FiscalYear(date(2025, 10, 1))]: the fiscal year is 2026, it begins
    in 2025 and ends in 2026, the bound date is October 1 and [fy_start_date]
    is midnight of October 1, and yet [is_fiscal_start_year()] returns
    [False]: a [date] never equals a [datetime]. *)
Theorem is_fiscal_start_year_on_october_first now :
  let d := Date 2025 10 1 in
  let o := bound (VDate d) d in
  FiscalYear.new now (VDate d) [] = (Returned o, [])
  /\ FiscalYear.fiscal_year o = Some 2026
  /\ FiscalYear.beginning_fiscal_year o = Some 2025
  /\ FiscalYear.ending_fiscal_year o = Some 2026
  /\ FiscalYear.date o = Some (VDate d)
  /\ FiscalYear.fy_start_date o = Some (midnight d)
  /\ FiscalYear.is_fiscal_start_year (FiscalYear.World o [])
     = (Returned (VBool false), FiscalYear.World o []).
Proof. repeat (split; [vm_compute; reflexivity |]). vm_compute. reflexivity. Qed.

(** C4. [FiscalYear(date(2025, 1, 1)).calendar_day_of_year()]: the date is
    bound without error, [cy_start_date] is midnight of January 1, and the
    method, instead of 1, returns [None] after showing a [TypeError]. *)
Theorem calendar_day_of_year_on_january_first now :
  let d := Date 2025 1 1 in
  let o := bound (VDate d) d in
  FiscalYear.new now (VDate d) [] = (Returned o, [])
  /\ FiscalYear.cy_start_date o = Some (midnight d)
  /\ FiscalYear.calendar_day_of_year (FiscalYear.World o [])
     = (Returned VNone, FiscalYear.World o [dialog TypeError "tempus" "" ""]).
Proof. repeat (split; [vm_compute; reflexivity |]). vm_compute. reflexivity. Qed.

(** C7. Whenever [start], normalised to a date, is later than [end],
    normalised to a date, each of [count_weekends], [count_holidays] and
    [count_workdays] returns 0 at once: nothing is shown and the object is not
    consulted. *)
Theorem counts_return_zero_when_start_after_end now w start end_ s e
    (use_observed : bool) :
  _to_date now start = VDate s -> _to_date now end_ = VDate e ->
  date_ltb e s = true ->
  FiscalYear.count_weekends now start end_ w = (Returned (VInt 0), w)
  /\ FiscalYear.count_holidays now start end_ use_observed w
     = (Returned (VInt 0), w)
  /\ FiscalYear.count_workdays now start end_ use_observed w
     = (Returned (VInt 0), w).
Proof.
  intros Ts Te L.
  assert (G : py_gt (VDate s) (VDate e) = Returned true).
  { unfold py_gt, py_cmp, obind. unfold date_ltb in L.
    destruct s as [ys ms ds], e as [ye me de]. unfold date_cmp in *.
    cbn [year month day] in *.
    rewrite (Z.compare_antisym ye ys), (Z.compare_antisym me ms),
      (Z.compare_antisym de ds).
    destruct (ye ?= ys); cbn in *; try discriminate; try reflexivity.
    destruct (me ?= ms); cbn in *; try discriminate; try reflexivity.
    destruct (de ?= ds); cbn in *; try discriminate; reflexivity. }
  unfold FiscalYear.count_weekends, FiscalYear.count_holidays,
    FiscalYear.count_workdays, except_show, bind, lift, ret.
  cbv zeta. rewrite Ts, Te, G. repeat split; reflexivity.
Qed.

Lemma counts_return_zero_when_start_after_end_witness :
  FiscalYear.count_weekends (Date 2026 11 4) (VDate (Date 2025 10 7))
    (VDateTime (DateTime (Date 2025 10 1) 9 30 0 0))
    (FiscalYear.World FiscalYear.fresh [])
  = (Returned (VInt 0), FiscalYear.World FiscalYear.fresh [])
  /\ FiscalYear.count_holidays (Date 2026 11 4) (VDate (Date 2025 10 7))
       (VDateTime (DateTime (Date 2025 10 1) 9 30 0 0)) true
       (FiscalYear.World FiscalYear.fresh [])
     = (Returned (VInt 0), FiscalYear.World FiscalYear.fresh [])
  /\ FiscalYear.count_workdays (Date 2026 11 4) (VDate (Date 2025 10 7))
       (VDateTime (DateTime (Date 2025 10 1) 9 30 0 0)) true
       (FiscalYear.World FiscalYear.fresh [])
     = (Returned (VInt 0), FiscalYear.World FiscalYear.fresh []).
Proof.
  apply (counts_return_zero_when_start_after_end (Date 2026 11 4)
           (FiscalYear.World FiscalYear.fresh [])
           (VDate (Date 2025 10 7))
           (VDateTime (DateTime (Date 2025 10 1) 9 30 0 0))
           (Date 2025 10 7) (Date 2025 10 1) true);
    vm_compute; reflexivity.
Defined.


Lemma percent_ok_all n :
  n = 365 \/ n = 366 ->
  forallb (fun c2 => forallb (fun c1 => percent_okb n c1 c2) (range 0 (c2 + 1)))
          (range 0 n) = true.
Proof. intros [-> | ->]; vm_compute; reflexivity. Qed.



(** C9. Two public operations have no handler and let the exception out to
    the caller, with nothing shown: [FederalHoliday(0)] raises [ValueError],
    and [to_dict()] raises [AttributeError] on the object that
    [FiscalYear(date(9999, 10, 1))] returns. *)
Theorem unguarded_operations_let_exceptions_escape now :
  FederalHoliday.__init__ 0 [] = (Raised ValueError, [])
  /\ exists o s,
       FiscalYear.new now (VDate (Date 9999 10 1)) [] = (Returned o, s)
       /\ FiscalYear.to_dict (FiscalYear.World o s)
          = (Raised AttributeError, FiscalYear.World o s).
Proof.
  split; [vm_compute; reflexivity |]. do 2 eexists.
  split; vm_compute; reflexivity.
Qed.

(** ** Further properties of FiscalYear *)

(** ** More of FiscalYear *)

(** What the constructor leaves behind, by cases on the window. *)
Lemma new_cases now v d s :
  _to_date now v = VDate d -> valid_date d ->
  (supported d /\ FiscalYear.new now v s = (Returned (bound v d), s))
  \/ (~ supported d
      /\ exists o,
           FiscalYear.new now v s
           = (Returned o, s ++ [dialog ValueError "tempus" "" ""])
           /\ FiscalYear.date o = Some (VDate d)
           /\ FiscalYear.fiscal_year o = Some (fiscal_year_of d)).
Proof.
  intros T V. apply valid_date_iff in V. destruct V as (Y & Mo & D).
  unfold supported, bound.
  unfold FiscalYear.new, FiscalYear.__init__, FiscalYear._bind, fiscal_year_of.
  unfold_monad. cbn [FiscalYear.current_date FiscalYear.set_current_date
                     FiscalYear.self FiscalYear.today FiscalYear.set_today].
  rewrite T. run_method.
  assert (V1 : valid_date (Date (year d) 1 1)) by (apply valid_fixed; lia).
  assert (V2 : valid_date (Date (year d) 12 31)) by (apply valid_dec31; lia).
  assert (V3 : valid_date (Date (year d) 10 1)) by (apply valid_fixed; lia).
  assert (V4 : valid_date (Date (year d) 9 30)) by (apply valid_sep30; lia).
  rewrite (datetime_new_valid _ _ _ V1), (datetime_new_valid _ _ _ V2).
  unfold MINYEAR, MAXYEAR in *.
  destruct (Z.leb_spec 10 (month d)) as [Late | Early]; run_method.
  - rewrite (datetime_new_valid _ _ _ V3).
    destruct (Z.leb_spec (year d + 1) 9999) as [In | Out].
    + rewrite datetime_new_valid
        by (apply valid_sep30; unfold MINYEAR, MAXYEAR; lia).
      run_method. replace (year d + 1 - 1) with (year d) by lia.
      left. split; [lia | reflexivity].
    + rewrite datetime_new_bad_year by (unfold MAXYEAR; lia).
      run_method. right. split; [lia |]. eexists. repeat split; reflexivity.
  - destruct (Z.leb_spec 1 (year d - 1)) as [In | Out].
    + rewrite datetime_new_valid
        by (apply valid_fixed; unfold MINYEAR, MAXYEAR; lia).
      rewrite (datetime_new_valid _ _ _ V4).
      run_method. left. split; [lia | reflexivity].
    + rewrite datetime_new_bad_year by (unfold MINYEAR; lia).
      run_method. right. split; [lia |]. eexists. repeat split; reflexivity.
Qed.

(** A constructor that showed nothing has bound its date in full. *)
Lemma new_silent now v d s o :
  _to_date now v = VDate d -> valid_date d ->
  FiscalYear.new now v s = (Returned o, s) ->
  o = bound v d /\ supported d.
Proof.
  intros T V N.
  destruct (new_cases now v d s T V) as [(S & E) | (_ & o' & E & _)];
    rewrite E in N; inversion N.
  - split; [reflexivity | assumption].
  - exfalso. eapply snoc_neq. eassumption.
Qed.


Lemma supported_years d :
  valid_date d -> supported d ->
  MINYEAR <= fiscal_year_of d - 1 <= MAXYEAR
  /\ MINYEAR <= fiscal_year_of d <= MAXYEAR.
Proof.
  intros V S. apply valid_date_iff in V. unfold supported, fiscal_year_of in *.
  unfold MINYEAR, MAXYEAR in *. destruct (10 <=? month d); lia.
Qed.


Ltac year_bounds := unfold MINYEAR, MAXYEAR in *; lia.

Ltac valid_days :=
  first [ apply valid_fixed; year_bounds | apply valid_dec31; year_bounds
        | apply valid_sep30; year_bounds ].

Lemma sub_midnights a b :
  valid_date a -> valid_date b ->
  py_sub (VDateTime (midnight a)) (VDateTime (midnight b))
  = Returned (VTimedelta (Timedelta (toordinal a - toordinal b) 0 0)).
Proof.
  intros Va Vb. apply toordinal_bounds in Va, Vb. unfold _MAXORDINAL in *.
  cbn [py_sub midnight]. unfold datetime_sub. cbn.
  rewrite timedelta_new_normal by lia. reflexivity.
Qed.

Lemma year_ordinals y :
  toordinal (Date y 1 1) = _days_before_year y + 1
  /\ toordinal (Date y 12 31) = _days_before_year y + 365 + leap_day y.
Proof.
  unfold toordinal, _ymd2ord, leap_day. cbn [year month day].
  split; month_tables; lia.
Qed.

(** X2. On an object built without a dialog from the reference date [d],
    [calendar_days_in_year()] returns 366 when [d.year] is a leap year and
    365 otherwise, and [fiscal_days_in_year()] returns 366 exactly when the
    fiscal year of [d], the year its window ends in, is a leap year; neither
    shows a dialog. *)
Theorem days_in_year_count_the_leap_day now v d s o :
  _to_date now v = VDate d -> valid_date d ->
  FiscalYear.new now v s = (Returned o, s) ->
  let w := FiscalYear.World o s in
  FiscalYear.calendar_days_in_year w
  = (Returned (VInt (if _is_leap (year d) then 366 else 365)), w)
  /\ FiscalYear.fiscal_days_in_year w
     = (Returned (VInt (if _is_leap (fiscal_year_of d) then 366 else 365)), w).
Proof.
  intros T V N w. destruct (new_silent now v d s o T V N) as (-> & S).
  destruct (supported_years d V S) as (B & E).
  pose proof V as V'. apply valid_date_iff in V'. destruct V' as (Y & Mo & D).
  subst w. unfold FiscalYear.calendar_days_in_year, FiscalYear.fiscal_days_in_year.
  unfold_monad. run_method.
  rewrite (sub_midnights (Date (year d) 12 31) (Date (year d) 1 1))
    by valid_days.
  rewrite (sub_midnights (Date (fiscal_year_of d) 9 30)
                         (Date (fiscal_year_of d - 1) 10 1))
    by valid_days.
  run_method.
  destruct (year_ordinals (year d)) as (-> & ->).
  destruct (window_ordinals (fiscal_year_of d)) as (-> & ->).
  unfold leap_day. cbn [py_add as_int].
  split; do 3 f_equal;
    repeat match goal with |- context [_is_leap ?y] => destruct (_is_leap y) end;
    lia.
Qed.

Lemma new_fields now v d s o s' :
  _to_date now v = VDate d -> valid_date d ->
  FiscalYear.new now v s = (Returned o, s') ->
  FiscalYear.date o = Some (VDate d)
  /\ FiscalYear.fiscal_year o = Some (fiscal_year_of d).
Proof.
  intros T V N.
  destruct (new_cases now v d s T V) as [(_ & E) | (_ & o' & E & F)];
    rewrite E in N; inversion N; subst; auto.
Qed.

Lemma fiscal_month_cycle m :
  1 <= m <= 12 ->
  1 <= (m - 10) mod 12 + 1 <= 12
  /\ m = ((m - 10) mod 12 + 1 + 8) mod 12 + 1
  /\ ((m - 10) mod 12 + 1 <= 3 <-> 10 <= m).
Proof. intros H. month_cases m; cbn; lia. Qed.

(** X3. On an object built from the reference date [d], whether or not its
    window could be bound, [fiscal_month_number()] returns a number [k] of
    1..12 that counts October as 1 ([d.month = (k + 8) mod 12 + 1]), and
    [k <= 3] holds exactly when the fiscal year is [d.year + 1].
    [fiscal_elapsed_months()] returns [k - 1], [fiscal_remaining_months()]
    returns [12 - k], [calendar_elapsed_months()] returns [d.month - 1] and
    [calendar_remaining_months()] returns [12 - d.month]; none of them shows
    a dialog. *)
Theorem month_counts_split_the_year now v d s o s' s'' :
  _to_date now v = VDate d -> valid_date d ->
  FiscalYear.new now v s = (Returned o, s') ->
  let w := FiscalYear.World o s'' in
  exists k,
    FiscalYear.fiscal_month_number w = (Returned (VInt k), w)
    /\ 1 <= k <= 12
    /\ month d = (k + 8) mod 12 + 1
    /\ (k <= 3 <-> FiscalYear.fiscal_year o = Some (year d + 1))
    /\ FiscalYear.fiscal_elapsed_months w = (Returned (VInt (k - 1)), w)
    /\ FiscalYear.fiscal_remaining_months w = (Returned (VInt (12 - k)), w)
    /\ FiscalYear.calendar_elapsed_months w
       = (Returned (VInt (month d - 1)), w)
    /\ FiscalYear.calendar_remaining_months w
       = (Returned (VInt (12 - month d)), w).
Proof.
  intros T V N w. destruct (new_fields now v d s o s' T V N) as (Hd & Hf).
  apply valid_date_iff in V. destruct V as (_ & Mo & _).
  exists ((month d - 10) mod 12 + 1).
  assert (Fm : FiscalYear.fiscal_month_number w
               = (Returned (VInt ((month d - 10) mod 12 + 1)), w)).
  { unfold FiscalYear.fiscal_month_number. unfold_monad. subst w.
    cbn [FiscalYear.self]. rewrite Hd. reflexivity. }
  split; [exact Fm |].
  destruct (fiscal_month_cycle (month d) Mo) as (K1 & K2 & K3).
  split; [exact K1 |]. split; [exact K2 |].
  split.
  { rewrite Hf, K3. unfold fiscal_year_of.
    destruct (Z.leb_spec 10 (month d)); split; intros I;
      try (inversion I; lia); try reflexivity; lia. }
  split.
  { unfold FiscalYear.fiscal_elapsed_months. unfold except_show, bind.
    rewrite Fm. reflexivity. }
  split.
  { unfold FiscalYear.fiscal_remaining_months. unfold except_show, bind.
    rewrite Fm. reflexivity. }
  split.
  - unfold FiscalYear.calendar_elapsed_months. unfold_monad. subst w.
    cbn [FiscalYear.self]. rewrite Hd. cbn [get_month].
    unfold py_max, py_gt. cbn [py_cmp as_int obind].
    destruct (Z.compare_spec (month d - 1) 0); try reflexivity; try lia.
    do 3 f_equal. lia.
  - unfold FiscalYear.calendar_remaining_months. unfold_monad. subst w.
    cbn [FiscalYear.self]. rewrite Hd. reflexivity.
Qed.

(** X4. On every object the constructor returns, whatever its argument,
    [calendar_elapsed_days()], [calendar_remaining_days()],
    [fiscal_days_remaining()] and [calendar_percent_elapsed()] return [None]:
    the bound date is a plain [date], or is not set, while the boundaries are
    [datetime]s, and the two do not subtract. *)
Theorem day_counts_of_a_constructed_object_are_none now v s o s' s'' :
  FiscalYear.new now v s = (Returned o, s') ->
  let w := FiscalYear.World o s'' in
  fst (FiscalYear.calendar_elapsed_days w) = Returned VNone
  /\ fst (FiscalYear.calendar_remaining_days w) = Returned VNone
  /\ fst (FiscalYear.fiscal_days_remaining w) = Returned VNone
  /\ fst (FiscalYear.calendar_percent_elapsed w) = Returned VNone.
Proof.
  intros N w. apply new_date_plain in N.
  assert (E : forall s0,
             fst (FiscalYear.calendar_elapsed_days (FiscalYear.World o s0))
             = Returned VNone).
  { intros s0. unfold FiscalYear.calendar_elapsed_days. unfold_monad.
    cbn [FiscalYear.self].
    destruct N as [-> | (d & ->)]; [reflexivity |]. run_method.
    destruct (FiscalYear.cy_start_date o); reflexivity. }
  split; [apply E |]. split; [| split].
  - unfold FiscalYear.calendar_remaining_days. unfold_monad. subst w.
    cbn [FiscalYear.self].
    destruct (FiscalYear.cy_end_date o); [| reflexivity]. run_method.
    destruct N as [-> | (x & ->)]; reflexivity.
  - unfold FiscalYear.fiscal_days_remaining. unfold_monad. subst w.
    cbn [FiscalYear.self].
    destruct (FiscalYear.fy_end_date o); [| reflexivity]. run_method.
    destruct N as [-> | (x & ->)]; reflexivity.
  - unfold FiscalYear.calendar_percent_elapsed, except_show, bind.
    pose proof (E s'') as E0. fold w in E0.
    destruct (FiscalYear.calendar_elapsed_days w) as [r w1]. cbn in E0.
    subst r.
    unfold FiscalYear.calendar_days_in_year. unfold_monad.
    destruct (FiscalYear.cy_end_date (FiscalYear.self w1)) as [b |];
      [| reflexivity].
    destruct (FiscalYear.cy_start_date (FiscalYear.self w1)) as [a |];
      [| reflexivity].
    cbn [py_sub]. unfold datetime_sub, timedelta_new.
    destruct (Z.abs _ >? 999999999); reflexivity.
Qed.

Lemma day_counts_of_a_constructed_object_are_none_witness :
  let w := FiscalYear.World (bound (VDate (Date 2026 3 14)) (Date 2026 3 14)) [] in
  fst (FiscalYear.calendar_elapsed_days w) = Returned VNone
  /\ fst (FiscalYear.calendar_remaining_days w) = Returned VNone
  /\ fst (FiscalYear.fiscal_days_remaining w) = Returned VNone
  /\ fst (FiscalYear.calendar_percent_elapsed w) = Returned VNone.
Proof.
  apply (day_counts_of_a_constructed_object_are_none
           (Date 2026 11 4) (VDate (Date 2026 3 14)) [] _ [] []).
  vm_compute. reflexivity.
Defined.

(** X5. On every object the constructor returns, [is_fiscal_end_year()],
    [is_calendar_start_year()] and [is_calendar_end_date()] never return
    [True], not even on September 30, January 1 or December 31: a [date] is
    never equal to a [datetime]. *)
Theorem boundary_tests_of_a_constructed_object_never_hold now v s o s' s'' :
  FiscalYear.new now v s = (Returned o, s') ->
  let w := FiscalYear.World o s'' in
  fst (FiscalYear.is_fiscal_end_year w) <> Returned (VBool true)
  /\ fst (FiscalYear.is_calendar_start_year w) <> Returned (VBool true)
  /\ fst (FiscalYear.is_calendar_end_date w) <> Returned (VBool true).
Proof.
  intros N w. apply new_date_plain in N. subst w.
  unfold FiscalYear.is_fiscal_end_year, FiscalYear.is_calendar_start_year,
    FiscalYear.is_calendar_end_date.
  unfold_monad. cbn [FiscalYear.self].
  destruct N as [-> | (d & ->)]; [repeat split; discriminate |]. run_method.
  destruct (FiscalYear.fy_end_date o), (FiscalYear.cy_start_date o),
    (FiscalYear.cy_end_date o); repeat split; discriminate.
Qed.

Lemma boundary_tests_of_a_constructed_object_never_hold_witness :
  let w := FiscalYear.World (bound (VDate (Date 2026 9 30)) (Date 2026 9 30)) [] in
  fst (FiscalYear.is_fiscal_end_year w) <> Returned (VBool true)
  /\ fst (FiscalYear.is_calendar_start_year w) <> Returned (VBool true)
  /\ fst (FiscalYear.is_calendar_end_date w) <> Returned (VBool true).
Proof.
  apply (boundary_tests_of_a_constructed_object_never_hold
           (Date 2026 11 4) (VDate (Date 2026 9 30)) [] _ [] []).
  vm_compute. reflexivity.
Defined.

Lemma bind_rebinds o s v d :
  date_of v = Some d -> valid_date d -> supported d ->
  FiscalYear._bind v (FiscalYear.World o s)
  = (Returned tt, FiscalYear.World (rebound o v d) s).
Proof.
  intros T V S. destruct (supported_years d V S) as (B & E).
  pose proof V as V'. apply valid_date_iff in V'. destruct V' as (Y & Mo & D).
  assert (G : get_year v = Returned (year d) /\ get_month v = Returned (month d)
              /\ truthy v = true).
  { destruct v; try discriminate T; cbn in T; inversion T;
      repeat split; reflexivity. }
  destruct G as (Gy & Gm & Tr).
  unfold FiscalYear._bind, rebound. unfold_monad. rewrite Tr. run_method.
  rewrite Gy. run_method. rewrite Gm. run_method.
  rewrite (datetime_new_valid (year d) 1 1) by valid_days.
  rewrite (datetime_new_valid (year d) 12 31) by valid_days.
  unfold fiscal_year_of in *.
  destruct (Z.leb_spec 10 (month d)); run_method.
  - rewrite (datetime_new_valid (year d) 10 1) by valid_days.
    rewrite (datetime_new_valid (year d + 1) 9 30) by valid_days.
    run_method. replace (year d + 1 - 1) with (year d) by lia. reflexivity.
  - rewrite (datetime_new_valid (year d - 1) 10 1) by valid_days.
    rewrite (datetime_new_valid (year d) 9 30) by valid_days.
    reflexivity.
Qed.

Lemma sub_from_datetime dt a :
  valid_datetime dt -> valid_date a ->
  py_sub (VDateTime dt) (VDateTime (midnight a))
  = Returned (VTimedelta (Timedelta (toordinal (dt_date dt) - toordinal a)
                                    (day_seconds dt) (microsecond dt))).
Proof.
  intros V Va. apply andb_true_iff in V. destruct V as (Vd & Vt).
  apply toordinal_bounds in Vd, Va.
  unfold valid_timeb in Vt. rewrite !andb_true_iff, !Z.leb_le in Vt.
  unfold py_sub, datetime_sub.
  replace (day_seconds dt - day_seconds (midnight _)) with (day_seconds dt)
    by (unfold day_seconds, midnight; cbn; lia).
  replace (microsecond dt - microsecond (midnight _)) with (microsecond dt)
    by (unfold midnight; cbn; lia).
  cbn [dt_date midnight]. unfold _MAXORDINAL in *.
  rewrite timedelta_new_normal; [reflexivity | lia | | lia].
  unfold day_seconds. lia.
Qed.

Lemma sub_datetime_from a dt :
  valid_date a -> valid_datetime dt ->
  exists sec us,
    py_sub (VDateTime (midnight a)) (VDateTime dt)
    = Returned (VTimedelta (Timedelta (toordinal a - toordinal (dt_date dt)
                                       - past_midnight dt) sec us)).
Proof.
  intros Va V. apply andb_true_iff in V. destruct V as (Vd & Vt).
  apply toordinal_bounds in Vd, Va.
  unfold valid_timeb in Vt. rewrite !andb_true_iff, !Z.leb_le in Vt.
  unfold py_sub, datetime_sub, timedelta_new, past_midnight.
  cbn [dt_date midnight]. unfold _MAXORDINAL in *.
  replace (day_seconds (midnight a)) with 0 by reflexivity.
  replace (microsecond (midnight a)) with 0 by reflexivity.
  assert (Sec : 0 <= day_seconds dt < 86400) by (unfold day_seconds; lia).
  set (sd := day_seconds dt) in *. set (us := microsecond dt) in *.
  assert (Dd : (0 - sd + (0 - us) / 1000000) / 86400
               = - (if (sd =? 0) && (us =? 0) then 0 else 1)).
  { destruct (Z.eqb_spec sd 0), (Z.eqb_spec us 0); cbn [andb];
      try subst sd0; nia || (Z.div_mod_to_equations; lia). }
  rewrite Dd.
  destruct (Z.gtb_spec (Z.abs (toordinal a - toordinal (dt_date dt)
              + - (if (sd =? 0) && (us =? 0) then 0 else 1))) 999999999).
  - destruct ((sd =? 0) && (us =? 0)); lia.
  - do 2 eexists. cbn [obind]. do 3 f_equal; lia.
Qed.

Lemma max_zero n : py_max (VInt 0) (VInt n) = Returned (VInt (Z.max 0 n)).
Proof.
  unfold py_max, py_gt. cbn [py_cmp as_int obind].
  destruct (Z.compare_spec n 0); do 2 f_equal; lia.
Qed.

Lemma percent_in_range n c :
  n = 365 \/ n = 366 -> 0 <= c < n ->
  exists f,
    FiscalYear.percent (VInt c) (VInt n) = Returned (VFloat f)
    /\ PrimFloat.leb 0%float f = true /\ PrimFloat.ltb f 100%float = true.
Proof.
  intros N C. pose proof (percent_ok_all n N) as A.
  rewrite forallb_forall in A. specialize (A c (range_In 0 n c ltac:(lia))).
  rewrite forallb_forall in A.
  specialize (A c (range_In 0 (c + 1) c ltac:(lia))).
  unfold percent_okb in A.
  destruct (FiscalYear.percent (VInt c) (VInt n)) as [[| | | f | | |] | |];
    try discriminate.
  rewrite !andb_true_iff in A. destruct A as ((A1 & A2) & A3).
  exists f. repeat split; assumption.
Qed.

Lemma ordinal_in_year d :
  valid_date d ->
  toordinal (Date (year d) 1 1) <= toordinal d
                                <= toordinal (Date (year d) 12 31).
Proof.
  intros V. apply valid_date_iff in V. destruct V as (Y & Mo & D).
  destruct (year_ordinals (year d)) as (-> & ->).
  pose proof (month_span (year d) (month d) Mo).
  unfold toordinal, _ymd2ord, leap_day. lia.
Qed.

(** X6. When [_bind] is handed a valid [datetime] [dt] whose fiscal window lies
    in the supported years, on any object, nothing is shown and the calendar
    day counts work: [calendar_elapsed_days()] returns the number [e] of days
    from January 1 to the day of [dt], [calendar_day_of_year()] returns
    [e + 1], [calendar_remaining_days()] returns the number of days to
    December 31, less one when the time of day of [dt] is past midnight and
    never below zero, [calendar_days_in_year()] returns 365 plus the leap
    day, and [calendar_percent_elapsed()] returns a float from 0 up to, and
    excluding, 100. At midnight elapsed + remaining + 1 is the length of the
    year; in general it is that or one less. *)
Theorem day_counts_after_binding_a_datetime o s dt :
  valid_datetime dt -> supported (dt_date dt) ->
  let d := dt_date dt in
  let w := snd (FiscalYear._bind (VDateTime dt) (FiscalYear.World o s)) in
  exists e r n f,
    FiscalYear.dialogs w = s
    /\ FiscalYear.calendar_elapsed_days w = (Returned (VInt e), w)
    /\ FiscalYear.calendar_day_of_year w = (Returned (VInt (e + 1)), w)
    /\ FiscalYear.calendar_remaining_days w = (Returned (VInt r), w)
    /\ FiscalYear.calendar_days_in_year w = (Returned (VInt n), w)
    /\ FiscalYear.calendar_percent_elapsed w = (Returned (VFloat f), w)
    /\ e = toordinal d - toordinal (Date (year d) 1 1)
    /\ r = Z.max 0 (toordinal (Date (year d) 12 31) - toordinal d
                    - past_midnight dt)
    /\ n = 365 + leap_day (year d)
    /\ 0 <= e < n
    /\ (past_midnight dt = 0 -> e + r + 1 = n)
    /\ n - 1 <= e + r + 1 <= n
    /\ PrimFloat.leb 0%float f = true /\ PrimFloat.ltb f 100%float = true.
Proof.
  intros V S d w. pose proof V as V'. apply andb_true_iff in V'.
  destruct V' as (Vd & _). fold d in Vd, S.
  destruct (supported_years d Vd S) as (B & E).
  pose proof (ordinal_in_year d Vd) as In.
  pose proof Vd as V'. apply valid_date_iff in V'. destruct V' as (Y & Mo & D).
  assert (W : w = FiscalYear.World (rebound o (VDateTime dt) d) s).
  { subst w. rewrite (bind_rebinds o s (VDateTime dt) d eq_refl Vd S).
    reflexivity. }
  assert (V1 : valid_date (Date (year d) 1 1)) by valid_days.
  assert (V2 : valid_date (Date (year d) 12 31)) by valid_days.
  destruct (sub_datetime_from (Date (year d) 12 31) dt V2 V)
    as (sec & us & Sub).
  fold d in Sub.
  pose proof (sub_from_datetime dt (Date (year d) 1 1) V V1) as Sub'.
  fold d in Sub'.
  assert (P : 0 <= past_midnight dt <= 1)
    by (unfold past_midnight; destruct (_ && _); lia).
  destruct (year_ordinals (year d)) as (O1 & O2).
  assert (L : 365 + leap_day (year d) = 365 \/ 365 + leap_day (year d) = 366)
    by (unfold leap_day; destruct (_is_leap (year d)); lia).
  destruct (percent_in_range (365 + leap_day (year d))
              (toordinal d - toordinal (Date (year d) 1 1)) L ltac:(lia))
    as (f & Pf & F0 & F1).
  assert (El : FiscalYear.calendar_elapsed_days w
               = (Returned (VInt (toordinal d - toordinal (Date (year d) 1 1))),
                  w)).
  { rewrite W. unfold FiscalYear.calendar_elapsed_days. unfold_monad.
    run_method. rewrite Sub'. run_method. rewrite max_zero.
    do 3 f_equal. lia. }
  assert (Dy : FiscalYear.calendar_days_in_year w
               = (Returned (VInt (365 + leap_day (year d))), w)).
  { rewrite W. unfold FiscalYear.calendar_days_in_year. unfold_monad.
    run_method. rewrite (sub_midnights _ _ V2 V1). run_method.
    cbn [py_add as_int]. do 3 f_equal. lia. }
  exists (toordinal d - toordinal (Date (year d) 1 1)),
         (Z.max 0 (toordinal (Date (year d) 12 31) - toordinal d
                   - past_midnight dt)),
         (365 + leap_day (year d)), f.
  split; [rewrite W; reflexivity |].
  split; [exact El |].
  split.
  { rewrite W. unfold FiscalYear.calendar_day_of_year. unfold_monad.
    run_method. rewrite Sub'. reflexivity. }
  split.
  { rewrite W. unfold FiscalYear.calendar_remaining_days. unfold_monad.
    run_method. rewrite Sub. run_method. rewrite max_zero. reflexivity. }
  split; [exact Dy |].
  split.
  { unfold FiscalYear.calendar_percent_elapsed, except_show, bind.
    rewrite El, Dy. unfold lift. rewrite Pf. reflexivity. }
  repeat split; try assumption; try reflexivity; lia.
Qed.

Lemma day_counts_after_binding_a_datetime_witness :
  let dt := DateTime (Date 2026 12 31) 9 30 0 0 in
  let d := dt_date dt in
  let w := snd (FiscalYear._bind (VDateTime dt)
                  (FiscalYear.World FiscalYear.fresh [])) in
  exists e r n f,
    FiscalYear.dialogs w = []
    /\ FiscalYear.calendar_elapsed_days w = (Returned (VInt e), w)
    /\ FiscalYear.calendar_day_of_year w = (Returned (VInt (e + 1)), w)
    /\ FiscalYear.calendar_remaining_days w = (Returned (VInt r), w)
    /\ FiscalYear.calendar_days_in_year w = (Returned (VInt n), w)
    /\ FiscalYear.calendar_percent_elapsed w = (Returned (VFloat f), w)
    /\ e = toordinal d - toordinal (Date (year d) 1 1)
    /\ r = Z.max 0 (toordinal (Date (year d) 12 31) - toordinal d
                    - past_midnight dt)
    /\ n = 365 + leap_day (year d)
    /\ 0 <= e < n
    /\ (past_midnight dt = 0 -> e + r + 1 = n)
    /\ n - 1 <= e + r + 1 <= n
    /\ PrimFloat.leb 0%float f = true /\ PrimFloat.ltb f 100%float = true.
Proof.
  apply (day_counts_after_binding_a_datetime FiscalYear.fresh []
           (DateTime (Date 2026 12 31) 9 30 0 0)).
  - vm_compute. reflexivity.
  - unfold supported. vm_compute. split; discriminate.
Defined.

Lemma eq_midnight dt a :
  py_eq (VDateTime dt) (VDateTime (midnight a)) = true <->
  dt_date dt = a /\ day_seconds dt = 0 /\ microsecond dt = 0.
Proof.
  cbn [py_eq]. unfold datetime_cmp.
  replace (day_seconds (midnight a)) with 0 by reflexivity.
  replace (microsecond (midnight a)) with 0 by reflexivity.
  cbn [dt_date midnight].
  destruct (date_cmp (dt_date dt) a) eqn:C.
  - apply date_cmp_eq in C.
    destruct (Z.compare_spec (day_seconds dt) 0);
      [destruct (Z.compare_spec (microsecond dt) 0) | |];
      split; intros; try discriminate; try tauto; lia.
  - split; [discriminate |]. intros (<- & _). revert C.
    unfold date_cmp. rewrite !Z.compare_refl. discriminate.
  - split; [discriminate |]. intros (<- & _). revert C.
    unfold date_cmp. rewrite !Z.compare_refl. discriminate.
Qed.

Lemma past_midnight_zero dt :
  valid_datetime dt ->
  (past_midnight dt = 0 <-> day_seconds dt = 0 /\ microsecond dt = 0).
Proof.
  intros _. unfold past_midnight.
  destruct (Z.eqb_spec (day_seconds dt) 0), (Z.eqb_spec (microsecond dt) 0);
    cbn [andb]; split; intros; try tauto; try lia; discriminate.
Qed.

(** X7. When [_bind] is handed a valid [datetime] [dt] of a supported year, the
    four boundary tests return booleans and show nothing:
    [is_fiscal_start_year()] is [True] exactly at midnight of October 1,
    [is_fiscal_end_year()] at midnight of September 30,
    [is_calendar_start_year()] at midnight of January 1 and
    [is_calendar_end_date()] at midnight of December 31; a later time of the
    same day gives [False]. *)
Theorem boundary_tests_after_binding_a_datetime o s dt :
  valid_datetime dt -> supported (dt_date dt) ->
  let d := dt_date dt in
  let w := snd (FiscalYear._bind (VDateTime dt) (FiscalYear.World o s)) in
  exists b1 b2 b3 b4,
    FiscalYear.is_fiscal_start_year w = (Returned (VBool b1), w)
    /\ FiscalYear.is_fiscal_end_year w = (Returned (VBool b2), w)
    /\ FiscalYear.is_calendar_start_year w = (Returned (VBool b3), w)
    /\ FiscalYear.is_calendar_end_date w = (Returned (VBool b4), w)
    /\ (b1 = true <-> month d = 10 /\ day d = 1 /\ past_midnight dt = 0)
    /\ (b2 = true <-> month d = 9 /\ day d = 30 /\ past_midnight dt = 0)
    /\ (b3 = true <-> month d = 1 /\ day d = 1 /\ past_midnight dt = 0)
    /\ (b4 = true <-> month d = 12 /\ day d = 31 /\ past_midnight dt = 0).
Proof.
  intros V S d w. pose proof V as V'. apply andb_true_iff in V'.
  destruct V' as (Vd & _). fold d in Vd, S.
  assert (W : w = FiscalYear.World (rebound o (VDateTime dt) d) s).
  { subst w. rewrite (bind_rebinds o s (VDateTime dt) d eq_refl Vd S).
    reflexivity. }
  pose proof (past_midnight_zero dt V) as P.
  do 4 eexists. rewrite W.
  do 4 (split; [reflexivity |]).
  rewrite !eq_midnight, P. fold d. unfold fiscal_year_of.
  destruct d as [y m k]. cbn [year month day].
  repeat apply conj; intros (E1 & E2);
    first [ inversion E1; repeat split;
            solve [assumption | reflexivity | tauto]
          | destruct E2 as (E2 & E3); subst m k; cbn;
            split; [f_equal; lia | exact E3] ].
Qed.

Lemma boundary_tests_after_binding_a_datetime_witness :
  let dt := midnight (Date 2026 10 1) in
  let d := dt_date dt in
  let w := snd (FiscalYear._bind (VDateTime dt)
                  (FiscalYear.World FiscalYear.fresh [])) in
  exists b1 b2 b3 b4,
    FiscalYear.is_fiscal_start_year w = (Returned (VBool b1), w)
    /\ FiscalYear.is_fiscal_end_year w = (Returned (VBool b2), w)
    /\ FiscalYear.is_calendar_start_year w = (Returned (VBool b3), w)
    /\ FiscalYear.is_calendar_end_date w = (Returned (VBool b4), w)
    /\ (b1 = true <-> month d = 10 /\ day d = 1 /\ past_midnight dt = 0)
    /\ (b2 = true <-> month d = 9 /\ day d = 30 /\ past_midnight dt = 0)
    /\ (b3 = true <-> month d = 1 /\ day d = 1 /\ past_midnight dt = 0)
    /\ (b4 = true <-> month d = 12 /\ day d = 31 /\ past_midnight dt = 0).
Proof.
  apply (boundary_tests_after_binding_a_datetime FiscalYear.fresh []
           (midnight (Date 2026 10 1))).
  - vm_compute. reflexivity.
  - unfold supported. vm_compute. split; discriminate.
Defined.

(** X8. Whenever [to_dict()] returns, it leaves the object and the sink as they
    were, its keys are the nine attribute names in their order, and
    [calendar_bounds()] and [fiscal_bounfds()] return, with nothing shown,
    the very values stored under [cy_start_date], [cy_end_date],
    [fy_start_date] and [fy_end_date]. *)
Theorem to_dict_agrees_with_the_bounds w l w' :
  FiscalYear.to_dict w = (Returned l, w') ->
  w' = w
  /\ map fst l
     = ["date"; "calendar_year"; "fiscal_year"; "beginning_fiscal_year";
        "ending_fiscal_year"; "cy_start_date"; "cy_end_date"; "fy_start_date";
        "fy_end_date"]
  /\ exists cs ce fs fe,
       FiscalYear.calendar_bounds w = (Returned (Some (cs, ce)), w)
       /\ FiscalYear.fiscal_bounfds w = (Returned (Some (fs, fe)), w)
       /\ In ("cy_start_date", VDateTime cs) l
       /\ In ("cy_end_date", VDateTime ce) l
       /\ In ("fy_start_date", VDateTime fs) l
       /\ In ("fy_end_date", VDateTime fe) l.
Proof.
  destruct w as [o s].
  unfold FiscalYear.to_dict, FiscalYear.calendar_bounds,
    FiscalYear.fiscal_bounfds.
  unfold_monad. cbn [FiscalYear.self].
  destruct (FiscalYear.date o); [| cbn; discriminate]; cbn.
  destruct (FiscalYear.calendar_year o); [| cbn; discriminate]; cbn.
  destruct (FiscalYear.fiscal_year o); [| cbn; discriminate]; cbn.
  destruct (FiscalYear.beginning_fiscal_year o); [| cbn; discriminate]; cbn.
  destruct (FiscalYear.ending_fiscal_year o); [| cbn; discriminate]; cbn.
  destruct (FiscalYear.cy_start_date o) as [cs |]; [| cbn; discriminate]; cbn.
  destruct (FiscalYear.cy_end_date o) as [ce |]; [| cbn; discriminate]; cbn.
  destruct (FiscalYear.fy_start_date o) as [fs |]; [| cbn; discriminate]; cbn.
  destruct (FiscalYear.fy_end_date o) as [fe |]; [| cbn; discriminate]; cbn.
  intros H. inversion H. split; [reflexivity |]. split; [reflexivity |].
  exists cs, ce, fs, fe. cbn [In]. do 2 (split; [reflexivity |]).
  repeat split; tauto.
Qed.

Lemma to_dict_agrees_with_the_bounds_witness :
  let w := FiscalYear.World (bound VNone (Date 2026 11 4)) [] in
  exists l,
    FiscalYear.to_dict w = (Returned l, w)
    /\ exists cs ce fs fe,
         FiscalYear.calendar_bounds w = (Returned (Some (cs, ce)), w)
         /\ FiscalYear.fiscal_bounfds w = (Returned (Some (fs, fe)), w)
         /\ In ("cy_start_date", VDateTime cs) l
         /\ In ("cy_end_date", VDateTime ce) l
         /\ In ("fy_start_date", VDateTime fs) l
         /\ In ("fy_end_date", VDateTime fe) l.
Proof.
  eexists. split; [vm_compute; reflexivity |].
  apply (to_dict_agrees_with_the_bounds
           (FiscalYear.World (bound VNone (Date 2026 11 4)) []) _ _ eq_refl).
Defined.

(** X9. [_bind(d)] on a value that is neither a [date] nor a [datetime] returns
    normally after one dialog. A falsy value ([None], [0], [False], a zero
    [timedelta]) is refused by the guard with [ValueError] and leaves every
    attribute as it was; a truthy one is first stored in [self.date] and then
    fails with [AttributeError] on [d.year], leaving the other attributes as
    they were. *)
Theorem bind_refuses_what_is_not_a_date v w :
  date_of v = None ->
  FiscalYear._bind v w
  = (Returned tt,
     FiscalYear.World
       (if truthy v then FiscalYear.set_date v (FiscalYear.self w)
        else FiscalYear.self w)
       (FiscalYear.dialogs w
        ++ [dialog (if truthy v then AttributeError else ValueError)
                   "tempus" "" ""])).
Proof.
  intros N. unfold FiscalYear._bind. unfold_monad.
  destruct (truthy v) eqn:T; cbn [negb]; [| reflexivity].
  destruct v; try discriminate N; reflexivity.
Qed.

Lemma bind_refuses_what_is_not_a_date_witness :
  FiscalYear._bind (VInt 2026) (FiscalYear.World FiscalYear.fresh [])
  = (Returned tt,
     FiscalYear.World (FiscalYear.set_date (VInt 2026) FiscalYear.fresh)
                      [dialog AttributeError "tempus" "" ""]).
Proof.
  apply (bind_refuses_what_is_not_a_date (VInt 2026)
           (FiscalYear.World FiscalYear.fresh []) eq_refl).
Defined.

(** X10. [FiscalYear(v)] for a [v] that is not [None], a [date] or a [datetime]
    returns an object on which only [current_date] (= [v]) and [today]
    (= [None], what [_to_date] made of [v]) are set, after one [ValueError]
    dialog from [_bind]; [to_dict()] on that object raises
    [AttributeError]. *)
Theorem constructor_given_no_date_binds_nothing now v s :
  v <> VNone -> date_of v = None ->
  let o := FiscalYear.set_today VNone
             (FiscalYear.set_current_date v FiscalYear.fresh) in
  FiscalYear.new now v s = (Returned o, s ++ [dialog ValueError "tempus" "" ""])
  /\ FiscalYear.date o = None
  /\ forall s',
       FiscalYear.to_dict (FiscalYear.World o s')
       = (Raised AttributeError, FiscalYear.World o s').
Proof.
  intros NN N o. split; [| split; [reflexivity | reflexivity]].
  unfold FiscalYear.new, FiscalYear.__init__.
  unfold_monad. cbn [FiscalYear.current_date FiscalYear.set_current_date
                     FiscalYear.self FiscalYear.today FiscalYear.set_today].
  assert (T : _to_date now v = VNone)
    by (destruct v; try discriminate N; try reflexivity; congruence).
  rewrite T. reflexivity.
Qed.

Lemma constructor_given_no_date_binds_nothing_witness :
  let o := FiscalYear.set_today VNone
             (FiscalYear.set_current_date (VInt 20261104) FiscalYear.fresh) in
  FiscalYear.new (Date 2026 11 4) (VInt 20261104) []
  = (Returned o, [] ++ [dialog ValueError "tempus" "" ""])
  /\ FiscalYear.date o = None
  /\ forall s',
       FiscalYear.to_dict (FiscalYear.World o s')
       = (Raised AttributeError, FiscalYear.World o s').
Proof.
  apply (constructor_given_no_date_binds_nothing (Date 2026 11 4)
           (VInt 20261104) []); [discriminate | reflexivity].
Defined.

(** X11. When [_bind] is handed a valid date whose fiscal window leaves the
    supported years (October to December of year 9999, or January to
    September of year 1), on any object, one [ValueError] dialog is shown;
    [date], [calendar_year] and [fiscal_year] are those of the new date,
    while [fy_end_date], [cy_start_date] and [cy_end_date] keep whatever the
    object held before. *)
Theorem failed_bind_keeps_the_old_bounds o s v d :
  date_of v = Some d -> valid_date d -> ~ supported d ->
  let w := snd (FiscalYear._bind v (FiscalYear.World o s)) in
  FiscalYear.dialogs w = s ++ [dialog ValueError "tempus" "" ""]
  /\ FiscalYear.date (FiscalYear.self w) = Some v
  /\ FiscalYear.calendar_year (FiscalYear.self w) = Some (year d)
  /\ FiscalYear.fiscal_year (FiscalYear.self w) = Some (fiscal_year_of d)
  /\ FiscalYear.fy_end_date (FiscalYear.self w) = FiscalYear.fy_end_date o
  /\ FiscalYear.cy_start_date (FiscalYear.self w) = FiscalYear.cy_start_date o
  /\ FiscalYear.cy_end_date (FiscalYear.self w) = FiscalYear.cy_end_date o.
Proof.
  intros T V S w.
  pose proof V as V'. apply valid_date_iff in V'. destruct V' as (Y & Mo & D).
  assert (G : get_year v = Returned (year d) /\ get_month v = Returned (month d)
              /\ truthy v = true).
  { destruct v; try discriminate T; cbn in T; inversion T;
      repeat split; reflexivity. }
  destruct G as (Gy & Gm & Tr).
  subst w. unfold FiscalYear._bind. unfold_monad. rewrite Tr. run_method.
  rewrite Gy. run_method. rewrite Gm. run_method.
  unfold supported, fiscal_year_of, MINYEAR, MAXYEAR in *.
  destruct (Z.leb_spec 10 (month d)); run_method.
  - rewrite (datetime_new_valid (year d) 10 1) by valid_days.
    rewrite datetime_new_bad_year by (unfold MAXYEAR; lia).
    repeat split; reflexivity.
  - rewrite datetime_new_bad_year by (unfold MINYEAR; lia).
    repeat split; reflexivity.
Qed.

Lemma failed_bind_keeps_the_old_bounds_witness :
  let o := bound (VDate (Date 2026 3 14)) (Date 2026 3 14) in
  let v := VDate (Date 9999 12 31) in
  let w := snd (FiscalYear._bind v (FiscalYear.World o [])) in
  FiscalYear.dialogs w = [] ++ [dialog ValueError "tempus" "" ""]
  /\ FiscalYear.date (FiscalYear.self w) = Some v
  /\ FiscalYear.calendar_year (FiscalYear.self w) = Some 9999
  /\ FiscalYear.fiscal_year (FiscalYear.self w) = Some 10000
  /\ FiscalYear.fy_end_date (FiscalYear.self w) = FiscalYear.fy_end_date o
  /\ FiscalYear.cy_start_date (FiscalYear.self w) = FiscalYear.cy_start_date o
  /\ FiscalYear.cy_end_date (FiscalYear.self w) = FiscalYear.cy_end_date o.
Proof.
  apply (failed_bind_keeps_the_old_bounds
           (bound (VDate (Date 2026 3 14)) (Date 2026 3 14)) []
           (VDate (Date 9999 12 31)) (Date 9999 12 31) eq_refl).
  - vm_compute. reflexivity.
  - unfold supported. vm_compute. intros (_ & H). apply H. reflexivity.
Defined.

(** X12. In every state of the object, [fiscal_day_of_year()],
    [fiscal_elapsed_days()] and [fiscal_percent_elapsed()] return [None], and
    [fiscal_day_of_year()] shows a dialog: the expression reads an attribute
    that is not set, or subtracts a [datetime] from a [date], or adds an
    integer to, or compares an integer with, a [timedelta]. *)
Theorem fiscal_day_counts_have_no_successful_path w :
  fst (FiscalYear.fiscal_day_of_year w) = Returned VNone
  /\ fst (FiscalYear.fiscal_elapsed_days w) = Returned VNone
  /\ fst (FiscalYear.fiscal_percent_elapsed w) = Returned VNone
  /\ FiscalYear.dialogs (snd (FiscalYear.fiscal_day_of_year w))
     <> FiscalYear.dialogs w.
Proof.
  split; [apply fiscal_day_of_year_never_a_number |].
  split; [apply fiscal_elapsed_days_never_a_number |].
  split; [apply fiscal_percent_elapsed_never_a_number |].
  unfold FiscalYear.fiscal_day_of_year. unfold_monad.
  destruct (FiscalYear.date (FiscalYear.self w)) as [d |];
    [| apply snoc_neq].
  destruct (FiscalYear.fy_start_date (FiscalYear.self w)) as [a |];
    [| apply snoc_neq].
  destruct d; try apply snoc_neq.
  cbn [py_sub]. unfold datetime_sub, timedelta_new.
  destruct (Z.abs _ >? 999999999); apply snoc_neq.
Qed.


Lemma days_in_year_count_the_leap_day_witness :
  let d := Date 2027 10 1 in
  let w := FiscalYear.World (bound (VDate d) d) [] in
  FiscalYear.calendar_days_in_year w
  = (Returned (VInt (if _is_leap (year d) then 366 else 365)), w)
  /\ FiscalYear.fiscal_days_in_year w
     = (Returned (VInt (if _is_leap (fiscal_year_of d) then 366 else 365)), w).
Proof.
  apply (days_in_year_count_the_leap_day (Date 2026 11 4)
           (VDate (Date 2027 10 1)) (Date 2027 10 1) []
           (bound (VDate (Date 2027 10 1)) (Date 2027 10 1)));
    vm_compute; reflexivity.
Defined.

Lemma month_counts_split_the_year_witness :
  let d := Date 2026 11 4 in
  let o := bound VNone d in
  let w := FiscalYear.World o [] in
  exists k,
    FiscalYear.fiscal_month_number w = (Returned (VInt k), w)
    /\ 1 <= k <= 12
    /\ month d = (k + 8) mod 12 + 1
    /\ (k <= 3 <-> FiscalYear.fiscal_year o = Some (year d + 1))
    /\ FiscalYear.fiscal_elapsed_months w = (Returned (VInt (k - 1)), w)
    /\ FiscalYear.fiscal_remaining_months w = (Returned (VInt (12 - k)), w)
    /\ FiscalYear.calendar_elapsed_months w
       = (Returned (VInt (month d - 1)), w)
    /\ FiscalYear.calendar_remaining_months w
       = (Returned (VInt (12 - month d)), w).
Proof.
  apply (month_counts_split_the_year (Date 2026 11 4) VNone (Date 2026 11 4)
           [] (bound VNone (Date 2026 11 4)) [] []); vm_compute; reflexivity.
Defined.

(** ** Further properties of FederalHoliday *)

Lemma finder_ok c wd dim :
  0 <= c < 7 -> 0 <= wd < 7 -> 28 <= dim <= 31 ->
  finder_okb c wd dim = true.
Proof.
  intros C W D.
  assert (A : forallb (fun c => forallb (fun wd => forallb (finder_okb c wd)
                        (range 28 32)) (range 0 7)) (range 0 7) = true)
    by (vm_compute; reflexivity).
  rewrite forallb_forall in A. specialize (A c (range_In 0 7 c C)).
  rewrite forallb_forall in A. specialize (A wd (range_In 0 7 wd W)).
  rewrite forallb_forall in A. apply A. apply range_In. lia.
Qed.

Lemma month_matches_days y m wd :
  month_matches y m wd
  = map (Date y m)
        (days_matching (weekday (Date y m 1)) wd (_days_in_month y m)).
Proof.
  unfold month_matches, days_matching. rewrite filter_map_comm. f_equal.
  apply filter_ext. intros k. cbn [month]. rewrite Z.eqb_refl. cbn [andb].
  rewrite weekday_in_month. reflexivity.
Qed.

Lemma list_get_map {A B} (f : A -> B) l i :
  list_get (map f l) i = obind (list_get l i) (fun a => Returned (f a)).
Proof.
  unfold list_get. rewrite length_map.
  destruct (_ <? 0); [reflexivity |].
  rewrite nth_error_map. destruct (nth_error l _); reflexivity.
Qed.

Lemma list_get_beyond {A} (l : list A) i :
  Z.of_nat (List.length l) <= i -> list_get l i = Raised IndexError.
Proof.
  intros H. unfold list_get.
  destruct (Z.ltb_spec i 0); [lia |]. destruct (Z.ltb_spec i 0); [lia |].
  destruct (nth_error l (Z.to_nat i)) eqn:E; [| reflexivity].
  assert (N : nth_error l (Z.to_nat i) <> None) by congruence.
  apply nth_error_Some in N. lia.
Qed.

Section Finders.

Variables (self : FederalHoliday.t) (y m wd : Z).
Hypothesis Y : MINYEAR <= y <= MAXYEAR.
Hypothesis Mo : 1 <= m <= 12.
Hypothesis P : 2 <= m \/ MINYEAR < y.
Hypothesis N : m <= 11 \/ y < MAXYEAR.
Hypothesis W : 0 <= wd < 7.

Lemma finder_facts :
  finder_okb (weekday (Date y m 1)) wd (_days_in_month y m) = true.
Proof.
  apply finder_ok; [apply weekday_range | assumption |].
  apply month_span. assumption.
Qed.

Lemma nth_weekday_runs n s :
  FederalHoliday._nth_weekday_of_month self y m wd n s
  = except_show "tempus" "" "" VNone
      (lift (obind (list_get (days_matching (weekday (Date y m 1)) wd
                                            (_days_in_month y m)) (n - 1))
                   (fun k => Returned (VDate (Date y m k))))) s.
Proof.
  unfold FederalHoliday._nth_weekday_of_month, except_show, bind, lift, ret.
  rewrite matches_eq by assumption. rewrite month_matches_days, list_get_map.
  destruct (list_get _ (n - 1)); reflexivity.
Qed.

Lemma last_weekday_runs s :
  FederalHoliday._last_weekday_of_month self y m wd s
  = except_show "tempus" "" "" VNone
      (lift (obind (list_get (days_matching (weekday (Date y m 1)) wd
                                            (_days_in_month y m)) (-1))
                   (fun k => Returned (VDate (Date y m k))))) s.
Proof.
  unfold FederalHoliday._last_weekday_of_month, except_show, bind, lift, ret.
  rewrite matches_eq by assumption. rewrite month_matches_days, list_get_map.
  destruct (list_get _ (-1)); reflexivity.
Qed.

Lemma nth_day_weekday n k :
  k = nth_day (weekday (Date y m 1)) wd n -> weekday (Date y m k) = wd.
Proof.
  intros ->. rewrite weekday_in_month. unfold nth_day.
  pose proof (weekday_range (Date y m 1)) as C.
  Z.div_mod_to_equations. lia.
Qed.

Lemma nth_weekday_value n s :
  1 <= n <= 4 ->
  FederalHoliday._nth_weekday_of_month self y m wd n s
  = (Returned (VDate (Date y m (nth_day (weekday (Date y m 1)) wd n))), s).
Proof.
  intros Hn. rewrite nth_weekday_runs.
  pose proof finder_facts as F. unfold finder_okb in F.
  rewrite !andb_true_iff in F. destruct F as (((F & _) & _) & _).
  rewrite forallb_forall in F. specialize (F n (range_In 1 5 n ltac:(lia))).
  unfold except_show, lift.
  destruct (list_get _ (n - 1)); try discriminate.
  apply Z.eqb_eq in F. subst. reflexivity.
Qed.

Lemma last_weekday_value s :
  FederalHoliday._last_weekday_of_month self y m wd s
  = (Returned (VDate (Date y m (last_day (weekday (Date y m 1)) wd
                                         (_days_in_month y m)))), s).
Proof.
  rewrite last_weekday_runs.
  pose proof finder_facts as F. unfold finder_okb in F.
  rewrite !andb_true_iff in F. destruct F as (((_ & F) & _) & _).
  unfold except_show, lift.
  destruct (list_get _ (-1)); try discriminate.
  apply Z.eqb_eq in F. subst. reflexivity.
Qed.

End Finders.

Lemma nth_day_bounds c wd n :
  7 * n - 6 <= nth_day c wd n <= 7 * n.
Proof. unfold nth_day. pose proof (Z.mod_pos_bound (wd - c) 7). lia. Qed.

(** X13. For a month whose calendar weeks stay within the supported years and
    [n] in 1..4, [_nth_weekday_of_month(year, month, weekday, n)] returns,
    with nothing shown, a valid date of that month that falls on [weekday]
    and whose day lies in [7n - 6 .. 7n]: the [n]-th such weekday. Its day is
    [(weekday - w1) mod 7 + 1 + 7 (n - 1)], where [w1] is the weekday of the
    first of the month. *)
Theorem nth_weekday_is_the_nth_occurrence self y m wd n s :
  MINYEAR <= y <= MAXYEAR -> 1 <= m <= 12 ->
  2 <= m \/ MINYEAR < y -> m <= 11 \/ y < MAXYEAR ->
  0 <= wd < 7 -> 1 <= n <= 4 ->
  exists k,
    FederalHoliday._nth_weekday_of_month self y m wd n s
    = (Returned (VDate (Date y m k)), s)
    /\ valid_date (Date y m k)
    /\ weekday (Date y m k) = wd
    /\ 7 * n - 6 <= k <= 7 * n
    /\ k = nth_day (weekday (Date y m 1)) wd n.
Proof.
  intros Y Mo P N W Hn. exists (nth_day (weekday (Date y m 1)) wd n).
  pose proof (nth_day_bounds (weekday (Date y m 1)) wd n) as B.
  split; [apply nth_weekday_value; assumption |].
  split; [apply valid_fixed; [assumption | assumption | lia] |].
  split; [apply nth_day_weekday with (n := n); auto |].
  split; [exact B | reflexivity].
Qed.

Lemma nth_weekday_is_the_nth_occurrence_witness :
  exists k,
    FederalHoliday._nth_weekday_of_month (federal_holiday 2027) 2026 11
      THURSDAY 4 []
    = (Returned (VDate (Date 2026 11 k)), [])
    /\ valid_date (Date 2026 11 k)
    /\ weekday (Date 2026 11 k) = THURSDAY
    /\ 7 * 4 - 6 <= k <= 7 * 4
    /\ k = nth_day (weekday (Date 2026 11 1)) THURSDAY 4.
Proof.
  apply (nth_weekday_is_the_nth_occurrence (federal_holiday 2027) 2026 11
           THURSDAY 4 []); unfold MINYEAR, MAXYEAR, THURSDAY; lia.
Defined.

(** X14. For such a month [_last_weekday_of_month(year, month, weekday)] returns,
    with nothing shown, a valid date of that month that falls on [weekday]
    within the last seven days of the month; [_nth_weekday_of_month] with
    [n = 0], which indexes the list at [-1], returns the same date. *)
Theorem last_weekday_is_in_the_last_week self y m wd s :
  MINYEAR <= y <= MAXYEAR -> 1 <= m <= 12 ->
  2 <= m \/ MINYEAR < y -> m <= 11 \/ y < MAXYEAR ->
  0 <= wd < 7 ->
  exists k,
    FederalHoliday._last_weekday_of_month self y m wd s
    = (Returned (VDate (Date y m k)), s)
    /\ FederalHoliday._nth_weekday_of_month self y m wd 0 s
       = (Returned (VDate (Date y m k)), s)
    /\ valid_date (Date y m k)
    /\ weekday (Date y m k) = wd
    /\ _days_in_month y m - 6 <= k <= _days_in_month y m.
Proof.
  intros Y Mo P N W.
  pose proof (last_weekday_value self y m wd Y Mo P N W s) as L.
  set (c := weekday (Date y m 1)) in *. set (dim := _days_in_month y m) in *.
  assert (D : 28 <= dim <= 31) by (apply month_span; assumption).
  pose proof (nth_day_bounds c wd 5) as B5.
  pose proof (nth_day_bounds c wd 4) as B4.
  assert (K : dim - 6 <= last_day c wd dim <= dim
              /\ exists n, last_day c wd dim = nth_day c wd n).
  { unfold last_day. destruct (Z.leb_spec (nth_day c wd 5) dim).
    - split; [lia | exists 5; reflexivity].
    - split; [| exists 4; reflexivity].
      unfold nth_day in *. lia. }
  destruct K as (K & n & Kn).
  exists (last_day c wd dim). split; [exact L |].
  split; [exact L |].
  split; [apply valid_date_iff; cbn [year month day]; fold dim; lia |].
  split; [apply nth_day_weekday with (n := n); auto | exact K].
Qed.

Lemma last_weekday_is_in_the_last_week_witness :
  exists k,
    FederalHoliday._last_weekday_of_month (federal_holiday 2026) 2026 5
      MONDAY []
    = (Returned (VDate (Date 2026 5 k)), [])
    /\ FederalHoliday._nth_weekday_of_month (federal_holiday 2026) 2026 5
         MONDAY 0 []
       = (Returned (VDate (Date 2026 5 k)), [])
    /\ valid_date (Date 2026 5 k)
    /\ weekday (Date 2026 5 k) = MONDAY
    /\ _days_in_month 2026 5 - 6 <= k <= _days_in_month 2026 5.
Proof.
  apply (last_weekday_is_in_the_last_week (federal_holiday 2026) 2026 5
           MONDAY []); unfold MINYEAR, MAXYEAR, MONDAY; lia.
Defined.

(** X15. For [n >= 5] [_nth_weekday_of_month] returns a date only when [n = 5]
    and the month has a fifth such weekday; otherwise the index is out of
    range: the method shows one [IndexError] dialog and returns [None]. *)
Theorem nth_weekday_beyond_the_month self y m wd n s :
  MINYEAR <= y <= MAXYEAR -> 1 <= m <= 12 ->
  2 <= m \/ MINYEAR < y -> m <= 11 \/ y < MAXYEAR ->
  0 <= wd < 7 -> 5 <= n ->
  let k := nth_day (weekday (Date y m 1)) wd 5 in
  FederalHoliday._nth_weekday_of_month self y m wd n s
  = if (n =? 5) && (k <=? _days_in_month y m)
    then (Returned (VDate (Date y m k)), s)
    else (Returned VNone, s ++ [dialog IndexError "tempus" "" ""]).
Proof.
  intros Y Mo P N W Hn k. rewrite nth_weekday_runs by assumption.
  assert (F : finder_okb (weekday (Date y m 1)) wd (_days_in_month y m) = true)
    by (apply finder_facts; assumption).
  unfold finder_okb in F.
  rewrite !andb_true_iff in F. destruct F as (((_ & _) & F5) & FL).
  apply Z.leb_le in FL. fold k in F5. unfold except_show, lift.
  destruct (Z.eqb_spec n 5) as [-> | Ne]; cbn [andb].
  - change (5 - 1) with 4.
    destruct (list_get _ 4) as [j | [] |]; try discriminate.
    + apply andb_true_iff in F5. destruct F5 as (E & L).
      apply Z.eqb_eq in E. subst j. rewrite L. reflexivity.
    + apply Z.ltb_lt in F5. destruct (Z.leb_spec k (_days_in_month y m));
        [lia | reflexivity].
  - rewrite list_get_beyond by lia. reflexivity.
Qed.

Lemma nth_weekday_beyond_the_month_witness :
  FederalHoliday._nth_weekday_of_month (federal_holiday 2026) 2026 2
    MONDAY 5 []
  = (Returned VNone, [dialog IndexError "tempus" "" ""]).
Proof.
  apply (nth_weekday_beyond_the_month (federal_holiday 2026) 2026 2 MONDAY 5
           []); unfold MINYEAR, MAXYEAR, MONDAY; lia.
Defined.

Lemma nth_weekday_facts y m wd n :
  MINYEAR <= y <= MAXYEAR -> 1 <= m <= 12 -> 0 <= wd < 7 -> 1 <= n <= 4 ->
  valid_date (nth_weekday y m wd n)
  /\ weekday (nth_weekday y m wd n) = wd
  /\ 7 * n - 6 <= day (nth_weekday y m wd n) <= 7 * n.
Proof.
  intros Y Mo W Hn. unfold nth_weekday. cbn [day].
  pose proof (nth_day_bounds (weekday (Date y m 1)) wd n) as B.
  split; [apply valid_fixed; [assumption | assumption | lia] |].
  split; [apply nth_day_weekday with (n := n); auto | exact B].
Qed.

Lemma last_weekday_facts y m wd :
  MINYEAR <= y <= MAXYEAR -> 1 <= m <= 12 -> 0 <= wd < 7 ->
  valid_date (last_weekday y m wd)
  /\ weekday (last_weekday y m wd) = wd
  /\ _days_in_month y m - 6 <= day (last_weekday y m wd) <= _days_in_month y m.
Proof.
  intros Y Mo W. unfold last_weekday. cbn [day].
  set (c := weekday (Date y m 1)) in *. set (dim := _days_in_month y m) in *.
  assert (D : 28 <= dim <= 31) by (apply month_span; assumption).
  pose proof (nth_day_bounds c wd 5) as B5.
  pose proof (nth_day_bounds c wd 4) as B4.
  assert (K : dim - 6 <= last_day c wd dim <= dim
              /\ exists n, last_day c wd dim = nth_day c wd n).
  { unfold last_day. destruct (Z.leb_spec (nth_day c wd 5) dim).
    - split; [lia | exists 5; reflexivity].
    - split; [| exists 4; reflexivity].
      unfold nth_day in *. lia. }
  destruct K as (K & n & Kn).
  split; [apply valid_date_iff; cbn [year month day]; fold dim; lia |].
  split; [apply nth_day_weekday with (n := n); auto | exact K].
Qed.

Lemma holidays_table fy s :
  2 <= fy <= 9999 ->
  FederalHoliday.holidays (federal_holiday fy) s
  = (Returned (Some (holiday_table fy)), s).
Proof.
  intros F.
  set (self := federal_holiday fy).
  assert (Ys : MINYEAR <= fy - 1 <= MAXYEAR) by (unfold MINYEAR, MAXYEAR; lia).
  assert (Ye : MINYEAR <= fy <= MAXYEAR) by (unfold MINYEAR, MAXYEAR; lia).
  assert (Em : MINYEAR < fy) by (unfold MINYEAR; lia).
  assert (Sm : fy - 1 < MAXYEAR) by (unfold MAXYEAR; lia).
  assert (Wm : 0 <= MONDAY < 7) by (unfold MONDAY; lia).
  assert (Wt : 0 <= THURSDAY < 7) by (unfold THURSDAY; lia).
  destruct (nth_weekday_facts (fy - 1) 10 MONDAY 2) as (V1 & W1 & _);
    try lia; auto.
  destruct (nth_weekday_facts (fy - 1) 11 THURSDAY 4) as (V3 & W3 & _);
    try lia; auto.
  destruct (nth_weekday_facts fy 1 MONDAY 3) as (V6 & W6 & _); try lia; auto.
  destruct (nth_weekday_facts fy 2 MONDAY 3) as (V7 & W7 & _); try lia; auto.
  destruct (last_weekday_facts fy 5 MONDAY) as (V8 & W8 & _); try lia; auto.
  destruct (nth_weekday_facts fy 9 MONDAY 1) as (V11 & W11 & _);
    try lia; auto.
  assert (R : forall y m wd n,
             MINYEAR <= y <= MAXYEAR -> 1 <= m <= 12 ->
             2 <= m \/ MINYEAR < y -> m <= 11 \/ y < MAXYEAR ->
             0 <= wd < 7 -> 1 <= n <= 4 ->
             quiet (FederalHoliday._nth_weekday_of_month self y m wd n) s
                   (VDate (nth_weekday y m wd n))).
  { intros. apply nth_weekday_value; assumption. }
  assert (D : forall y m d,
             valid_date (Date y m d) ->
             toordinal (Date (fy - 1) 10 1) < toordinal (Date y m d)
                                            < toordinal (Date fy 9 30) ->
             quiet (FederalHoliday.date_value y m d) s (VDate (Date y m d))).
  { intros. apply date_value_quiet. assumption. }
  change (quiet (FederalHoliday.holidays self) s (Some (holiday_table fy))).
  apply quiet_except. cbv zeta.
  change (year (FederalHoliday.fy_start_date self)) with (fy - 1).
  change (FederalHoliday.fiscal_year self) with fy.
  eapply quiet_bind; [apply R; auto; lia |].
  eapply quiet_bind;
    [apply add_weekday_holiday; auto; left; split; cbn; lia |].
  eapply quiet_bind; [apply D; [apply valid_fixed; lia | fixed_day fy] |].
  eapply quiet_bind;
    [apply add_fixed_holiday;
     [assumption | apply valid_fixed; lia | fixed_day fy] |].
  eapply quiet_bind; [apply R; auto; lia |].
  eapply quiet_bind;
    [apply add_weekday_holiday; auto; left; split; cbn; lia |].
  eapply quiet_bind; [apply D; [apply valid_fixed; lia | fixed_day fy] |].
  eapply quiet_bind;
    [apply add_fixed_holiday;
     [assumption | apply valid_fixed; lia | fixed_day fy] |].
  eapply quiet_bind; [apply D; [apply valid_fixed; lia | fixed_day fy] |].
  eapply quiet_bind;
    [apply add_fixed_holiday;
     [assumption | apply valid_fixed; lia | fixed_day fy] |].
  eapply quiet_bind; [apply R; auto; lia |].
  eapply quiet_bind;
    [apply add_weekday_holiday; auto; right; split; cbn; lia |].
  eapply quiet_bind; [apply R; auto; lia |].
  eapply quiet_bind;
    [apply add_weekday_holiday; auto; right; split; cbn; lia |].
  eapply quiet_bind; [apply last_weekday_value; auto; lia |].
  eapply quiet_bind;
    [apply add_weekday_holiday; auto; right; split; cbn; lia |].
  eapply quiet_bind; [apply D; [apply valid_fixed; lia | fixed_day fy] |].
  eapply quiet_bind;
    [apply add_fixed_holiday;
     [assumption | apply valid_fixed; lia | fixed_day fy] |].
  eapply quiet_bind; [apply D; [apply valid_fixed; lia | fixed_day fy] |].
  eapply quiet_bind;
    [apply add_fixed_holiday;
     [assumption | apply valid_fixed; lia | fixed_day fy] |].
  eapply quiet_bind; [apply R; auto; lia |].
  eapply quiet_bind;
    [apply add_weekday_holiday; auto; right; split; cbn; lia |].
  apply quiet_ret.
Qed.

Lemma actual_dates_facts fy :
  2 <= fy <= 9999 ->
  exists c t k w m l,
    actual_dates fy
    = [Date (fy - 1) 10 c; Date (fy - 1) 11 11; Date (fy - 1) 11 t;
       Date (fy - 1) 12 25; Date fy 1 1; Date fy 1 k; Date fy 2 w;
       Date fy 5 m; Date fy 6 19; Date fy 7 4; Date fy 9 l]
    /\ (8 <= c <= 14 /\ weekday (Date (fy - 1) 10 c) = MONDAY)
    /\ (22 <= t <= 28 /\ weekday (Date (fy - 1) 11 t) = THURSDAY)
    /\ (15 <= k <= 21 /\ weekday (Date fy 1 k) = MONDAY)
    /\ (15 <= w <= 21 /\ weekday (Date fy 2 w) = MONDAY)
    /\ (25 <= m <= 31 /\ weekday (Date fy 5 m) = MONDAY)
    /\ (1 <= l <= 7 /\ weekday (Date fy 9 l) = MONDAY).
Proof.
  intros F.
  assert (Ys : MINYEAR <= fy - 1 <= MAXYEAR) by (unfold MINYEAR, MAXYEAR; lia).
  assert (Ye : MINYEAR <= fy <= MAXYEAR) by (unfold MINYEAR, MAXYEAR; lia).
  assert (Wm : 0 <= MONDAY < 7) by (unfold MONDAY; lia).
  assert (Wt : 0 <= THURSDAY < 7) by (unfold THURSDAY; lia).
  destruct (nth_weekday_facts (fy - 1) 10 MONDAY 2) as (_ & W1 & B1);
    try lia; auto.
  destruct (nth_weekday_facts (fy - 1) 11 THURSDAY 4) as (_ & W3 & B3);
    try lia; auto.
  destruct (nth_weekday_facts fy 1 MONDAY 3) as (_ & W6 & B6); try lia; auto.
  destruct (nth_weekday_facts fy 2 MONDAY 3) as (_ & W7 & B7); try lia; auto.
  destruct (last_weekday_facts fy 5 MONDAY) as (_ & W8 & B8); try lia; auto.
  destruct (nth_weekday_facts fy 9 MONDAY 1) as (_ & W11 & B11);
    try lia; auto.
  change (_days_in_month fy 5) with 31 in B8.
  unfold nth_weekday, last_weekday in *. cbn [day] in *.
  do 6 eexists. split; [reflexivity |].
  repeat split; first [assumption | lia].
Qed.

(** X16. For every fiscal year [fy] the constructor accepts, [holidays()] returns,
    with nothing shown, eleven entries in this order, each holding the actual
    date and its observed date: Columbus Day, a Monday of October 8..14 of
    [fy - 1]; Veterans Day, November 11; Thanksgiving Day, a Thursday of
    November 22..28; Christmas Day, December 25; New Year's Day, January 1 of
    [fy]; the Birthday of Martin Luther King, Jr., a Monday of January
    15..21; Washington's Birthday, a Monday of February 15..21; Memorial Day,
    a Monday of May 25..31; Juneteenth, June 19; Independence Day, July 4;
    Labor Day, a Monday of September 1..7. *)
Theorem holidays_is_the_federal_calendar fy fh s s' :
  FederalHoliday.__init__ fy s = (Returned fh, s') ->
  exists c t k w m l,
    FederalHoliday.holidays fh s'
    = (Returned
         (Some (map (fun na => entry (fst na) (snd na))
                  (combine holiday_names
                     [Date (fy - 1) 10 c; Date (fy - 1) 11 11;
                      Date (fy - 1) 11 t; Date (fy - 1) 12 25; Date fy 1 1;
                      Date fy 1 k; Date fy 2 w; Date fy 5 m; Date fy 6 19;
                      Date fy 7 4; Date fy 9 l]))), s')
    /\ (8 <= c <= 14 /\ weekday (Date (fy - 1) 10 c) = MONDAY)
    /\ (22 <= t <= 28 /\ weekday (Date (fy - 1) 11 t) = THURSDAY)
    /\ (15 <= k <= 21 /\ weekday (Date fy 1 k) = MONDAY)
    /\ (15 <= w <= 21 /\ weekday (Date fy 2 w) = MONDAY)
    /\ (25 <= m <= 31 /\ weekday (Date fy 5 m) = MONDAY)
    /\ (1 <= l <= 7 /\ weekday (Date fy 9 l) = MONDAY).
Proof.
  intros I. apply init_inv in I. destruct I as (F & -> & ->).
  destruct (actual_dates_facts fy F) as (c & t & k & w & m & l & E & R).
  exists c, t, k, w, m, l. split; [| exact R].
  rewrite <- E. apply holidays_table. assumption.
Qed.

Lemma holidays_is_the_federal_calendar_witness :
  exists c t k w m l,
    FederalHoliday.holidays (federal_holiday 2027) []
    = (Returned
         (Some (map (fun na => entry (fst na) (snd na))
                  (combine holiday_names
                     [Date (2027 - 1) 10 c; Date (2027 - 1) 11 11;
                      Date (2027 - 1) 11 t; Date (2027 - 1) 12 25;
                      Date 2027 1 1; Date 2027 1 k; Date 2027 2 w;
                      Date 2027 5 m; Date 2027 6 19; Date 2027 7 4;
                      Date 2027 9 l]))), [])
    /\ (8 <= c <= 14 /\ weekday (Date (2027 - 1) 10 c) = MONDAY)
    /\ (22 <= t <= 28 /\ weekday (Date (2027 - 1) 11 t) = THURSDAY)
    /\ (15 <= k <= 21 /\ weekday (Date 2027 1 k) = MONDAY)
    /\ (15 <= w <= 21 /\ weekday (Date 2027 2 w) = MONDAY)
    /\ (25 <= m <= 31 /\ weekday (Date 2027 5 m) = MONDAY)
    /\ (1 <= l <= 7 /\ weekday (Date 2027 9 l) = MONDAY).
Proof.
  apply (holidays_is_the_federal_calendar 2027 (federal_holiday 2027) [] []).
  vm_compute. reflexivity.
Defined.

Lemma observed_working a :
  valid_date a ->
  valid_date (observed_of a)
  /\ weekday (observed_of a) < 5
  /\ toordinal (observed_of a) = toordinal a + shift (weekday a)
  /\ (weekday a < 5 -> observed_of a = a).
Proof.
  intros V. destruct (observed_of_spec a V) as (Vo & O).
  split; [exact Vo |]. split; [| split; [exact O |]].
  - pose proof (weekday_range a) as R. unfold weekday in *. rewrite O.
    unfold shift.
    destruct (Z.eqb_spec ((toordinal a + 6) mod 7) 5);
      [| destruct (Z.eqb_spec ((toordinal a + 6) mod 7) 6)];
      Z.div_mod_to_equations; lia.
  - intros L. unfold observed_of.
    destruct (Z.eqb_spec (weekday a) 5); [lia |].
    destruct (Z.eqb_spec (weekday a) 6); [lia | reflexivity].
Qed.

Lemma actual_dates_valid fy :
  2 <= fy <= 9999 -> Forall valid_date (actual_dates fy).
Proof.
  intros F.
  assert (Ys : MINYEAR <= fy - 1 <= MAXYEAR) by (unfold MINYEAR, MAXYEAR; lia).
  assert (Ye : MINYEAR <= fy <= MAXYEAR) by (unfold MINYEAR, MAXYEAR; lia).
  assert (Wm : 0 <= MONDAY < 7) by (unfold MONDAY; lia).
  assert (Wt : 0 <= THURSDAY < 7) by (unfold THURSDAY; lia).
  unfold actual_dates.
  repeat (apply Forall_cons; [first
    [ apply valid_fixed; lia
    | apply nth_weekday_facts; auto; lia
    | apply last_weekday_facts; auto; lia ] |]).
  apply Forall_nil.
Qed.

Lemma table_entries fy name p :
  In (name, p) (holiday_table fy) ->
  exists a, In a (actual_dates fy)
            /\ p = FederalHoliday.Payload (VDate a) (VDate (observed_of a)).
Proof.
  unfold holiday_table. intros I. apply in_map_iff in I.
  destruct I as ((n & a) & E & I). apply in_combine_r in I.
  exists a. split; [exact I |]. unfold entry in E. cbn in E. congruence.
Qed.

Lemma holidays_inv fy fh s s' hols z :
  FederalHoliday.__init__ fy s = (Returned fh, s') ->
  FederalHoliday.holidays fh z = (Returned (Some hols), z) ->
  2 <= fy <= 9999 /\ fh = federal_holiday fy /\ hols = holiday_table fy.
Proof.
  intros I H. apply init_inv in I. destruct I as (F & -> & ->).
  rewrite (holidays_table fy z F) in H. inversion H. auto.
Qed.

(** X17. Every entry of the mapping [holidays()] returns holds a valid actual date
    and a valid observed date that falls on a Monday to Friday; the observed
    date is the actual date moved by the weekend rule (one day back from a
    Saturday, one day forward from a Sunday) and equals the actual date when
    that is a working day. *)
Theorem observed_holidays_are_working_days fy fh s s' hols name p :
  FederalHoliday.__init__ fy s = (Returned fh, s') ->
  FederalHoliday.holidays fh s' = (Returned (Some hols), s') ->
  In (name, p) hols ->
  exists a o,
    p = FederalHoliday.Payload (VDate a) (VDate o)
    /\ valid_date a /\ valid_date o
    /\ weekday o < 5
    /\ toordinal o = toordinal a + shift (weekday a)
    /\ (weekday a < 5 -> o = a).
Proof.
  intros I H In.
  destruct (holidays_inv fy fh s s' hols s' I H) as (F & _ & ->).
  destruct (table_entries fy name p In) as (a & Ia & ->).
  pose proof (actual_dates_valid fy F) as V. rewrite Forall_forall in V.
  specialize (V a Ia). destruct (observed_working a V) as (Vo & W & O & K).
  exists a, (observed_of a). repeat split; assumption.
Qed.

Lemma observed_holidays_are_working_days_witness :
  exists a o,
    FederalHoliday.Payload (VDate (Date 2026 7 4)) (VDate (Date 2026 7 3))
    = FederalHoliday.Payload (VDate a) (VDate o)
    /\ valid_date a /\ valid_date o
    /\ weekday o < 5
    /\ toordinal o = toordinal a + shift (weekday a)
    /\ (weekday a < 5 -> o = a).
Proof.
  apply (observed_holidays_are_working_days 2026 (federal_holiday 2026) [] []
           (holiday_table 2026) "Independence Day").
  - vm_compute. reflexivity.
  - vm_compute. reflexivity.
  - vm_compute. tauto.
Defined.

Lemma shift_range w : -1 <= shift w <= 1.
Proof.
  unfold shift. destruct (w =? 5); [lia |]. destruct (w =? 6); lia.
Qed.

Lemma weekday_shift a wd :
  weekday a = wd -> wd < 5 -> shift (weekday a) = 0.
Proof.
  intros -> L. unfold shift.
  destruct (Z.eqb_spec wd 5); [lia |]. destruct (Z.eqb_spec wd 6); [lia |].
  reflexivity.
Qed.

Lemma holiday_dates_valid fy b :
  2 <= fy <= 9999 -> Forall valid_date (holiday_dates fy b).
Proof.
  intros F. unfold holiday_dates. apply Forall_map.
  eapply Forall_impl; [| apply actual_dates_valid; assumption].
  intros a V. destruct b; [apply observed_working |]; assumption.
Qed.

Lemma pick_values fy b :
  map (FiscalYear.pick b) (FederalHoliday.values (holiday_table fy))
  = map VDate (holiday_dates fy b).
Proof. destruct b; reflexivity. Qed.

Lemma holiday_dates_ordinals fy (use_observed : bool) :
  2 <= fy <= 9999 ->
  exists o1 o2 o3 o4 o5 o6 o7 o8 o9 o10 o11 b,
    map toordinal (holiday_dates fy use_observed)
    = [o1; o2; o3; o4; o5; o6; o7; o8; o9; o10; o11]
    /\ b = _days_before_year (fy - 1) + leap_day (fy - 1)
    /\ b + 273 + 8 <= o1 <= b + 273 + 14
    /\ b + 304 + 10 <= o2 <= b + 304 + 12
    /\ b + 304 + 22 <= o3 <= b + 304 + 28
    /\ b + 334 + 24 <= o4 <= b + 334 + 26
    /\ b + 365 <= o5 <= b + 365 + 2
    /\ b + 365 + 15 <= o6 <= b + 365 + 21
    /\ b + 365 + 31 + 15 <= o7 <= b + 365 + 31 + 21
    /\ b + 365 + leap_day fy + 120 + 25 <= o8 <= b + 365 + leap_day fy + 120 + 31
    /\ b + 365 + leap_day fy + 151 + 18 <= o9 <= b + 365 + leap_day fy + 151 + 20
    /\ b + 365 + leap_day fy + 181 + 3 <= o10 <= b + 365 + leap_day fy + 181 + 5
    /\ b + 365 + leap_day fy + 243 + 1 <= o11 <= b + 365 + leap_day fy + 243 + 7.
Proof.
  intros F.
  destruct (actual_dates_facts fy F)
    as (c & t & k & w & m & l & E & (B1 & W1) & (B3 & W3) & (B6 & W6)
        & (B7 & W7) & (B8 & W8) & (B11 & W11)).
  pose proof (actual_dates_valid fy F) as V. rewrite E in V.
  unfold holiday_dates. rewrite E. cbn [map].
  do 12 eexists. split; [reflexivity |]. split; [reflexivity |].
  pose proof (next_year_ordinal (fy - 1)) as Ny.
  replace (fy - 1 + 1) with fy in Ny by lia.
  repeat match goal with
  | H : Forall _ (_ :: _) |- _ => inversion H; clear H; subst
  end.
  assert (S : forall a,
             valid_date a ->
             exists z, toordinal (if use_observed then observed_of a else a)
                       = toordinal a + z
                       /\ -1 <= z <= 1 /\ (weekday a < 5 -> z = 0)).
  { intros a Va. destruct use_observed.
    - exists (shift (weekday a)). split; [apply observed_of_spec, Va |].
      split; [apply shift_range |]. intros L.
      apply (weekday_shift a (weekday a) eq_refl L).
    - exists 0. repeat split; lia. }
  repeat match goal with
  | H : valid_date ?a |- _ =>
      let z := fresh "z" in
      let O := fresh "O" in
      destruct (S a H) as (z & O & ? & ?); rewrite O; clear O H
  end.
  rewrite W1, W3, W6, W7, W8, W11 in *. unfold MONDAY, THURSDAY in *.
  rewrite !(toordinal_late (fy - 1) 10), !(toordinal_late (fy - 1) 11),
    !(toordinal_late (fy - 1) 12), !(toordinal_late fy 5),
    !(toordinal_late fy 6), !(toordinal_late fy 7), !(toordinal_late fy 9)
    by lia.
  rewrite !(toordinal_early fy 1), !(toordinal_early fy 2) by lia.
  table_values.
  repeat split; lia.
Qed.

Lemma sorted_NoDup l : StronglySorted Z.lt l -> NoDup l.
Proof.
  induction 1 as [| a l S IH F]; constructor; [| exact IH].
  intros I. rewrite Forall_forall in F. specialize (F a I). lia.
Qed.

Lemma holiday_dates_sorted fy b :
  2 <= fy <= 9999 ->
  StronglySorted Z.lt (map toordinal (holiday_dates fy b)).
Proof.
  intros F.
  destruct (holiday_dates_ordinals fy b F)
    as (o1 & o2 & o3 & o4 & o5 & o6 & o7 & o8 & o9 & o10 & o11 & z & -> & _
        & B1 & B2 & B3 & B4 & B5 & B6 & B7 & B8 & B9 & B10 & B11).
  pose proof (leap_day_range fy).
  apply Sorted_StronglySorted; [intros x y z'; lia |].
  repeat (apply Sorted_cons; [| first [apply HdRel_nil | apply HdRel_cons; lia]]).
  apply Sorted_nil.
Qed.

Lemma holiday_dates_NoDup fy b :
  2 <= fy <= 9999 -> NoDup (map toordinal (holiday_dates fy b)).
Proof. intros F. apply sorted_NoDup, holiday_dates_sorted, F. Qed.

(** X18. In the order of the mapping [holidays()] returns, the actual dates
    strictly increase and so do the observed dates: no two holidays are
    observed on the same day, so the set of observed dates that
    [count_workdays] builds has eleven elements. *)
Theorem holidays_follow_one_another fy fh s s' hols :
  FederalHoliday.__init__ fy s = (Returned fh, s') ->
  FederalHoliday.holidays fh s' = (Returned (Some hols), s') ->
  StronglySorted Z.lt
    (map (fun p => ordinal_of (FederalHoliday.actual p))
         (FederalHoliday.values hols))
  /\ StronglySorted Z.lt
       (map (fun p => ordinal_of (FederalHoliday.observed p))
            (FederalHoliday.values hols))
  /\ NoDup (map FederalHoliday.observed (FederalHoliday.values hols)).
Proof.
  intros I H.
  destruct (holidays_inv fy fh s s' hols s' I H) as (F & _ & ->).
  split; [apply (holiday_dates_sorted fy false F) |].
  split; [apply (holiday_dates_sorted fy true F) |].
  apply (NoDup_map_inv ordinal_of). rewrite map_map.
  apply (holiday_dates_NoDup fy true F).
Qed.

Lemma holidays_follow_one_another_witness :
  StronglySorted Z.lt
    (map (fun p => ordinal_of (FederalHoliday.actual p))
         (FederalHoliday.values (holiday_table 2027)))
  /\ StronglySorted Z.lt
       (map (fun p => ordinal_of (FederalHoliday.observed p))
            (FederalHoliday.values (holiday_table 2027)))
  /\ NoDup (map FederalHoliday.observed
              (FederalHoliday.values (holiday_table 2027))).
Proof.
  apply (holidays_follow_one_another 2027 (federal_holiday 2027) [] []);
    vm_compute; reflexivity.
Defined.

Lemma date_eqb_eq a b : date_eqb a b = true <-> a = b.
Proof.
  unfold date_eqb. rewrite !andb_true_iff, !Z.eqb_eq.
  destruct a, b; cbn [year month day]. split.
  - intros ((-> & ->) & ->). reflexivity.
  - intros E. inversion E. auto.
Qed.

Lemma py_eq_date v d : py_eq v (VDate d) = true <-> v = VDate d.
Proof.
  destruct v; cbn; try (split; [discriminate | discriminate]).
  rewrite date_eqb_eq. split; congruence.
Qed.

Lemma is_holiday_value now fy when (b : bool) z :
  2 <= fy <= 9999 ->
  FederalHoliday.is_holiday now (federal_holiday fy) when b z
  = (Returned
       (VBool (existsb (fun p => py_eq (_to_date now when) (FiscalYear.pick b p))
                       (FederalHoliday.values (holiday_table fy)))), z).
Proof.
  intros F. unfold FederalHoliday.is_holiday, except_show, bind.
  rewrite (holidays_table fy z F).
  unfold FederalHoliday.values_or_raise, ret, FiscalYear.pick.
  destruct b; reflexivity.
Qed.

Lemma table_payload_dates fy p :
  2 <= fy <= 9999 ->
  In p (FederalHoliday.values (holiday_table fy)) ->
  exists a, p = FederalHoliday.Payload (VDate a) (VDate (observed_of a))
            /\ valid_date a.
Proof.
  intros F I. unfold FederalHoliday.values in I. apply in_map_iff in I.
  destruct I as ((name & q) & <- & I). cbn [snd].
  destruct (table_entries fy name q I) as (a & Ia & ->).
  pose proof (actual_dates_valid fy F) as V. rewrite Forall_forall in V.
  exists a. split; [reflexivity | apply V, Ia].
Qed.

(** X19. For every entry of the mapping [holidays()] returns,
    [is_holiday(observed)] and [is_holiday(actual, observed=False)] return
    [True] with nothing shown, and so does [is_holiday] of a [datetime] at
    any time of the observed day. *)
Theorem is_holiday_recognises_every_entry now fy fh s s' hols name p z :
  FederalHoliday.__init__ fy s = (Returned fh, s') ->
  FederalHoliday.holidays fh s' = (Returned (Some hols), s') ->
  In (name, p) hols ->
  FederalHoliday.is_holiday now fh (FederalHoliday.observed p) true z
  = (Returned (VBool true), z)
  /\ FederalHoliday.is_holiday now fh (FederalHoliday.actual p) false z
     = (Returned (VBool true), z)
  /\ forall dt,
       VDate (dt_date dt) = FederalHoliday.observed p ->
       FederalHoliday.is_holiday now fh (VDateTime dt) true z
       = (Returned (VBool true), z).
Proof.
  intros I H In.
  destruct (holidays_inv fy fh s s' hols s' I H) as (F & -> & ->).
  assert (Ip : List.In p (FederalHoliday.values (holiday_table fy))).
  { unfold FederalHoliday.values. apply in_map_iff. exists (name, p). auto. }
  destruct (table_payload_dates fy p F Ip) as (a & -> & _).
  cbn [FederalHoliday.observed FederalHoliday.actual].
  assert (E : forall when b,
             _to_date now when = FiscalYear.pick b
               (FederalHoliday.Payload (VDate a) (VDate (observed_of a))) ->
             FederalHoliday.is_holiday now (federal_holiday fy) when b z
             = (Returned (VBool true), z)).
  { intros when b T. rewrite is_holiday_value by assumption. do 3 f_equal.
    apply existsb_exists. eexists. split; [exact Ip |].
    rewrite T. destruct b; cbn; apply date_eqb_eq; reflexivity. }
  split; [apply E; reflexivity |]. split; [apply E; reflexivity |].
  intros dt D. apply E. cbn. congruence.
Qed.

Lemma is_holiday_recognises_every_entry_witness :
  let p := FederalHoliday.Payload (VDate (Date 2026 7 4))
                                  (VDate (Date 2026 7 3)) in
  FederalHoliday.is_holiday (Date 2026 11 4) (federal_holiday 2026)
    (FederalHoliday.observed p) true []
  = (Returned (VBool true), [])
  /\ FederalHoliday.is_holiday (Date 2026 11 4) (federal_holiday 2026)
       (FederalHoliday.actual p) false []
     = (Returned (VBool true), [])
  /\ forall dt,
       VDate (dt_date dt) = FederalHoliday.observed p ->
       FederalHoliday.is_holiday (Date 2026 11 4) (federal_holiday 2026)
         (VDateTime dt) true []
       = (Returned (VBool true), []).
Proof.
  apply (is_holiday_recognises_every_entry (Date 2026 11 4) 2026
           (federal_holiday 2026) [] [] (holiday_table 2026)
           "Independence Day").
  - vm_compute. reflexivity.
  - vm_compute. reflexivity.
  - vm_compute. tauto.
Defined.

(** X20. On an object the constructor returned, [is_holiday(when, observed)]
    returns a boolean and shows nothing, whatever [when] is. It is [True]
    exactly when some entry of the mapping holds, under the chosen key, the
    date [_to_date] makes of [when] ([None] stands for today; a value that is
    no date gives [False]). A [True] answer for observed dates means that
    this date is a Monday to Friday inside the fiscal window. *)
Theorem is_holiday_answers_from_the_mapping now fy fh s s' hols when
    (use_observed : bool) z :
  FederalHoliday.__init__ fy s = (Returned fh, s') ->
  FederalHoliday.holidays fh s' = (Returned (Some hols), s') ->
  exists b,
    FederalHoliday.is_holiday now fh when use_observed z
    = (Returned (VBool b), z)
    /\ (b = true <->
        exists name p,
          In (name, p) hols
          /\ FiscalYear.pick use_observed p = _to_date now when)
    /\ (b = true -> use_observed = true ->
        exists d,
          _to_date now when = VDate d /\ weekday d < 5
          /\ date_leb (FederalHoliday.fy_start_date fh) d = true
          /\ date_leb d (FederalHoliday.fy_end_date fh) = true).
Proof.
  intros I H.
  destruct (holidays_inv fy fh s s' hols s' I H) as (F & -> & ->).
  eexists. split; [apply is_holiday_value; assumption |].
  assert (Iff : existsb (fun p => py_eq (_to_date now when)
                                    (FiscalYear.pick use_observed p))
                  (FederalHoliday.values (holiday_table fy)) = true <->
                exists name p,
                  In (name, p) (holiday_table fy)
                  /\ FiscalYear.pick use_observed p = _to_date now when).
  { rewrite existsb_exists. split.
    - intros (p & Ip & E).
      destruct (table_payload_dates fy p F Ip) as (a & -> & _).
      unfold FederalHoliday.values in Ip. apply in_map_iff in Ip.
      destruct Ip as ((name & q) & Eq & Iq). cbn [snd] in Eq. subst q.
      exists name. eexists. split; [exact Iq |].
      destruct use_observed; cbn in *; apply py_eq_date in E; congruence.
    - intros (name & p & Ip & E). exists p. split.
      + unfold FederalHoliday.values. apply in_map_iff. exists (name, p). auto.
      + assert (Ip' : List.In p (FederalHoliday.values (holiday_table fy))).
        { unfold FederalHoliday.values. apply in_map_iff.
          exists (name, p). auto. }
        destruct (table_payload_dates fy p F Ip') as (a & -> & _).
        rewrite <- E. destruct use_observed; cbn; apply date_eqb_eq;
          reflexivity. }
  split; [exact Iff |].
  intros B ->. apply Iff in B. destruct B as (name & p & Ip & E).
  pose proof (holidays_within (federal_holiday fy) s' _ s' H) as Wn.
  specialize (Wn _ eq_refl). rewrite Forall_forall in Wn.
  specialize (Wn (name, p) Ip). destruct Wn as (obs & Eo & Lo & Hi).
  cbn [snd] in Eo.
  destruct (table_entries fy name p Ip) as (a & Ia & ->).
  pose proof (actual_dates_valid fy F) as V. rewrite Forall_forall in V.
  destruct (observed_working a (V a Ia)) as (_ & Wk & _).
  cbn in E, Eo. inversion Eo. subst obs.
  exists (observed_of a). auto.
Qed.

Lemma is_holiday_answers_from_the_mapping_witness :
  exists b,
    FederalHoliday.is_holiday (Date 2026 11 4) (federal_holiday 2027)
      VNone true []
    = (Returned (VBool b), [])
    /\ (b = true <->
        exists name p,
          In (name, p) (holiday_table 2027)
          /\ FiscalYear.pick true p = _to_date (Date 2026 11 4) VNone)
    /\ (b = true -> true = true ->
        exists d,
          _to_date (Date 2026 11 4) VNone = VDate d /\ weekday d < 5
          /\ date_leb (FederalHoliday.fy_start_date (federal_holiday 2027)) d
             = true
          /\ date_leb d (FederalHoliday.fy_end_date (federal_holiday 2027))
             = true).
Proof.
  apply (is_holiday_answers_from_the_mapping (Date 2026 11 4) 2027
           (federal_holiday 2027) [] [] (holiday_table 2027));
    vm_compute; reflexivity.
Defined.

Lemma is_weekend_value now self when s :
  FederalHoliday.is_weekend now self when s
  = match date_of when with
    | Some d => (Returned (VBool ((weekday d =? 5) || (weekday d =? 6))), s)
    | None =>
        (Returned VNone,
         s ++ [dialog (if truthy when then AttributeError else ValueError)
                  "tempus" "FederalHoliday"
                  "is_weekend( self, when: datetime ) -> bool "])
    end.
Proof.
  assert (B : forall d, (5 <=? weekday d)
                        = ((weekday d =? 5) || (weekday d =? 6))).
  { intros d. pose proof (weekday_range d).
    destruct (Z.leb_spec 5 (weekday d)), (Z.eqb_spec (weekday d) 5),
      (Z.eqb_spec (weekday d) 6); cbn; try reflexivity; lia. }
  unfold FederalHoliday.is_weekend. unfold_monad.
  destruct when; cbn [date_of]; try rewrite <- B; try reflexivity;
    destruct (truthy _); reflexivity.
Qed.

(** X21. [is_weekend(when)] returns, for a [date] or a [datetime], whether its day
    is a Saturday or a Sunday, and shows nothing. For any other value it
    shows one dialog and returns [None]: [ValueError] from the guard for a
    falsy value, [AttributeError] otherwise. In particular [None] is refused,
    and does not stand for today as it does in [is_holiday]. *)
Theorem is_weekend_tests_the_weekday now self when s :
  (forall d,
      date_of when = Some d ->
      exists b,
        FederalHoliday.is_weekend now self when s = (Returned (VBool b), s)
        /\ (b = true <-> weekday d = 5 \/ weekday d = 6))
  /\ (date_of when = None ->
      FederalHoliday.is_weekend now self when s
      = (Returned VNone,
         s ++ [dialog (if truthy when then AttributeError else ValueError)
                  "tempus" "FederalHoliday"
                  "is_weekend( self, when: datetime ) -> bool "]))
  /\ FederalHoliday.is_weekend now self VNone s
     = (Returned VNone,
        s ++ [dialog ValueError "tempus" "FederalHoliday"
                "is_weekend( self, when: datetime ) -> bool "]).
Proof.
  rewrite !is_weekend_value. split; [| split].
  - intros d ->. eexists. split; [reflexivity |].
    rewrite orb_true_iff, !Z.eqb_eq. reflexivity.
  - intros ->. reflexivity.
  - reflexivity.
Qed.

(** X22. On an object the constructor returned, a value for which [is_weekend]
    answers [True] is never an observed holiday: [is_holiday] returns
    [False] for it. *)
Theorem a_weekend_day_is_no_observed_holiday now fy fh s s' when z z' :
  FederalHoliday.__init__ fy s = (Returned fh, s') ->
  FederalHoliday.is_weekend now fh when z = (Returned (VBool true), z') ->
  FederalHoliday.is_holiday now fh when true z = (Returned (VBool false), z).
Proof.
  intros I Wk. apply init_inv in I. destruct I as (F & -> & _).
  rewrite is_weekend_value in Wk.
  destruct (date_of when) as [d |] eqn:D; [| discriminate].
  injection Wk as B _.
  rewrite orb_true_iff, !Z.eqb_eq in B.
  assert (T : _to_date now when = VDate d)
    by (destruct when; try discriminate D; cbn in *; congruence).
  rewrite is_holiday_value by assumption. do 3 f_equal. rewrite T.
  apply not_true_is_false. intros E. apply existsb_exists in E.
  destruct E as (p & Ip & E).
  destruct (table_payload_dates fy p F Ip) as (a & -> & V).
  cbn in E. apply date_eqb_eq in E. subst d.
  destruct (observed_working a V) as (_ & L & _). lia.
Qed.

Lemma a_weekend_day_is_no_observed_holiday_witness :
  FederalHoliday.is_holiday (Date 2026 11 4) (federal_holiday 2026)
    (VDate (Date 2026 7 4)) true []
  = (Returned (VBool false), []).
Proof.
  apply (a_weekend_day_is_no_observed_holiday (Date 2026 11 4) 2026
           (federal_holiday 2026) [] [] (VDate (Date 2026 7 4)) [] []);
    vm_compute; reflexivity.
Defined.

(** ** Day-by-day counts *)

Lemma range_nil a b : b <= a -> range a b = [].
Proof.
  intros H. unfold range. replace (Z.to_nat (b - a)) with 0%nat by lia.
  reflexivity.
Qed.

Lemma range_cons a b : a < b -> range a b = a :: range (a + 1) b.
Proof.
  intros H. unfold range.
  replace (Z.to_nat (b - a)) with (S (Z.to_nat (b - (a + 1)))) by lia.
  cbn [seq map]. f_equal; [lia |].
  rewrite <- seq_shift, map_map. apply map_ext. intros i. lia.
Qed.

Lemma range_app a b c :
  a <= b -> b <= c -> range a c = range a b ++ range b c.
Proof.
  intros H1 H2. unfold range.
  replace (Z.to_nat (c - a)) with (Z.to_nat (b - a) + Z.to_nat (c - b))%nat
    by lia.
  rewrite seq_app, map_app. f_equal. cbn [Nat.add].
  assert (G : forall n j,
             map (fun i => a + Z.of_nat i) (seq (Z.to_nat (b - a) + j) n)
             = map (fun i => b + Z.of_nat i) (seq j n)).
  { induction n as [| n IH]; intros j; [reflexivity |].
    cbn [seq map]. f_equal; [lia |].
    replace (S (Z.to_nat (b - a) + j)) with (Z.to_nat (b - a) + S j)%nat
      by lia.
    apply IH. }
  rewrite <- (G _ 0%nat), Nat.add_0_r. reflexivity.
Qed.

Lemma tally_app {A} (f : A -> bool) l1 l2 :
  tally f (l1 ++ l2) = tally f l1 + tally f l2.
Proof. unfold tally. rewrite filter_app, length_app. lia. Qed.

Lemma tally_cons {A} (f : A -> bool) a l :
  tally f (a :: l) = (if f a then 1 else 0) + tally f l.
Proof. unfold tally. cbn [filter]. destruct (f a); cbn [List.length]; lia. Qed.

Lemma tally_range {A} (f : A -> bool) l :
  0 <= tally f l <= Z.of_nat (List.length l).
Proof.
  unfold tally. pose proof (filter_length_le f l). lia.
Qed.

Lemma weekday_ordinal d : weekday d = ordinal_weekday (toordinal d).
Proof. reflexivity. Qed.

Lemma weekends_loop_counts fuel : forall n cur e w,
  valid_date cur -> valid_date e ->
  toordinal cur <= toordinal e + 1 -> toordinal e < _MAXORDINAL ->
  toordinal e - toordinal cur + 2 <= Z.of_nat fuel ->
  FiscalYear.weekends_loop fuel n (VDate cur) (VDate e) w
  = (Returned (VInt (n + tally is_weekend_day (days_between cur e))), w).
Proof.
  induction fuel as [| fuel IH]; intros n cur e w Vc Ve I M F; [lia |].
  cbn [FiscalYear.weekends_loop]. unfold bind, lift, ret.
  rewrite py_le_valid_dates by assumption. unfold days_between.
  destruct (Z.leb_spec (toordinal cur) (toordinal e)) as [Le | Gt].
  - cbn [get_weekday].
    destruct (next_day cur Vc) as [(Lt & nxt & N & Vn & On) | (Eq & N)];
      [| lia].
    rewrite one_day_eq in *. cbn [obind] in N. rewrite N.
    rewrite IH by (try assumption; lia). unfold days_between.
    rewrite (range_cons (toordinal cur)) by lia. rewrite tally_cons, On.
    unfold is_weekend_day at 2. rewrite <- weekday_ordinal.
    destruct (5 <=? weekday cur); do 3 f_equal; lia.
  - rewrite range_nil by lia. unfold tally. cbn. do 3 f_equal. lia.
Qed.

Lemma weekends_loop_overflows fuel : forall n cur e w,
  valid_date cur -> valid_date e ->
  toordinal cur <= toordinal e -> toordinal e = _MAXORDINAL ->
  toordinal e - toordinal cur + 2 <= Z.of_nat fuel ->
  FiscalYear.weekends_loop fuel n (VDate cur) (VDate e) w
  = (Raised OverflowError, w).
Proof.
  induction fuel as [| fuel IH]; intros n cur e w Vc Ve I M F; [lia |].
  cbn [FiscalYear.weekends_loop]. unfold bind, lift, ret.
  rewrite py_le_valid_dates by assumption.
  destruct (Z.leb_spec (toordinal cur) (toordinal e)) as [Le | Gt]; [| lia].
  cbn [get_weekday].
  destruct (next_day cur Vc) as [(Lt & nxt & N & Vn & On) | (Eq & N)].
  - rewrite one_day_eq in *. cbn [obind] in N. rewrite N.
    apply IH; try assumption; lia.
  - rewrite one_day_eq in *. cbn [obind] in N. rewrite N. reflexivity.
Qed.

Lemma py_gt_valid_dates a b :
  valid_date a -> valid_date b ->
  py_gt (VDate a) (VDate b) = Returned (toordinal b <? toordinal a).
Proof.
  intros Va Vb. unfold py_gt, py_cmp, obind.
  rewrite date_cmp_ordinal by assumption. unfold Z.ltb.
  rewrite (Z.compare_antisym (toordinal a) (toordinal b)).
  destruct (toordinal a ?= toordinal b); reflexivity.
Qed.

Lemma count_weekends_value now start end_ s e w :
  _to_date now start = VDate s -> _to_date now end_ = VDate e ->
  valid_date s -> valid_date e -> toordinal e < _MAXORDINAL ->
  FiscalYear.count_weekends now start end_ w
  = (Returned (VInt (tally is_weekend_day (days_between s e))), w).
Proof.
  intros Ts Te Vs Ve M.
  unfold FiscalYear.count_weekends, except_show, bind, lift, ret. cbv zeta.
  rewrite Ts, Te, py_gt_valid_dates by assumption.
  destruct (Z.ltb_spec (toordinal e) (toordinal s)) as [Lt | Ge].
  - unfold days_between. rewrite range_nil by lia. reflexivity.
  - rewrite weekends_loop_counts
      by (try assumption; unfold FiscalYear.span; lia).
    reflexivity.
Qed.

Lemma week_of_weekends a : tally is_weekend_day (range a (a + 7)) = 2.
Proof.
  unfold tally, range. replace (a + 7 - a) with 7 by lia.
  rewrite filter_map_comm, length_map.
  rewrite (filter_ext _ (fun i => 5 <=? (a mod 7 + Z.of_nat i + 6) mod 7)).
  - pose proof (Z.mod_pos_bound a 7 ltac:(lia)) as R.
    assert (C : a mod 7 = 0 \/ a mod 7 = 1 \/ a mod 7 = 2 \/ a mod 7 = 3
                \/ a mod 7 = 4 \/ a mod 7 = 5 \/ a mod 7 = 6) by lia.
    decompose [or] C; clear C;
      match goal with H : a mod 7 = _ |- _ => rewrite H end; reflexivity.
  - intros i. unfold is_weekend_day, ordinal_weekday. f_equal.
    rewrite <- !Z.add_assoc, Zplus_mod_idemp_l. reflexivity.
Qed.

Lemma weeks_of_weekends q : forall a,
  tally is_weekend_day (range a (a + 7 * Z.of_nat q)) = 2 * Z.of_nat q.
Proof.
  induction q as [| q IH]; intros a.
  - rewrite range_nil by lia. reflexivity.
  - rewrite (range_app a (a + 7)) by lia. rewrite tally_app, week_of_weekends.
    replace (a + 7 * Z.of_nat (S q)) with (a + 7 + 7 * Z.of_nat q) by lia.
    rewrite IH. lia.
Qed.

Lemma weekend_bounds a n :
  0 <= n ->
  2 * (n / 7) <= tally is_weekend_day (range a (a + n)) <= 2 * (n / 7) + 2
  /\ (n mod 7 = 0 -> tally is_weekend_day (range a (a + n)) = 2 * (n / 7)).
Proof.
  intros Hn. pose proof (Z.div_mod n 7 ltac:(lia)) as E.
  pose proof (Z.mod_pos_bound n 7 ltac:(lia)) as R.
  assert (Q : 0 <= n / 7) by (apply Z.div_pos; lia).
  set (q := n / 7) in *. set (r := n mod 7) in *.
  rewrite (range_app a (a + 7 * q)) by lia. rewrite tally_app.
  pose proof (weeks_of_weekends (Z.to_nat q) a) as Wq.
  rewrite Z2Nat.id in Wq by lia. rewrite Wq.
  pose proof (week_of_weekends (a + 7 * q)) as W7.
  rewrite (range_app _ (a + n)) in W7 by lia. rewrite tally_app in W7.
  pose proof (tally_range is_weekend_day (range (a + 7 * q) (a + n))).
  pose proof (tally_range is_weekend_day (range (a + n) (a + 7 * q + 7))).
  split; [lia |]. intros Z. rewrite range_nil by lia. unfold tally. cbn. lia.
Qed.

(** X23. For valid dates with [end] before [date.max], [count_weekends(start,
    end)] returns, leaving the store as it was, the number of days from
    [start] to [end], both included, that fall on a Saturday or a Sunday.
    Over [days] consecutive days this number lies between [2 (days / 7)] and
    [2 (days / 7) + 2], and is [2 (days / 7)] for a whole number of weeks. *)
Theorem count_weekends_counts_saturdays_and_sundays now w start end_ s e :
  _to_date now start = VDate s -> _to_date now end_ = VDate e ->
  valid_date s -> valid_date e -> toordinal e < _MAXORDINAL ->
  exists n,
    FiscalYear.count_weekends now start end_ w = (Returned (VInt n), w)
    /\ n = tally (fun k => 5 <=? (k + 6) mod 7)
                 (range (toordinal s) (toordinal e + 1))
    /\ (toordinal s <= toordinal e + 1 ->
        let days := toordinal e - toordinal s + 1 in
        2 * (days / 7) <= n <= 2 * (days / 7) + 2
        /\ (days mod 7 = 0 -> n = 2 * (days / 7))).
Proof.
  intros Ts Te Vs Ve M. eexists.
  split; [apply count_weekends_value; eassumption |].
  split; [reflexivity |]. intros Le days. unfold days_between.
  replace (toordinal e + 1) with (toordinal s + days) by (subst days; lia).
  apply weekend_bounds. subst days. lia.
Qed.

Lemma count_weekends_counts_saturdays_and_sundays_witness :
  exists n,
    FiscalYear.count_weekends (Date 2026 11 4) (VDate (Date 2026 11 2))
      (VDateTime (DateTime (Date 2026 11 15) 9 30 0 0))
      (FiscalYear.World FiscalYear.fresh [])
    = (Returned (VInt n), FiscalYear.World FiscalYear.fresh [])
    /\ n = tally (fun k => 5 <=? (k + 6) mod 7)
                 (range (toordinal (Date 2026 11 2))
                        (toordinal (Date 2026 11 15) + 1))
    /\ (toordinal (Date 2026 11 2) <= toordinal (Date 2026 11 15) + 1 ->
        let days := toordinal (Date 2026 11 15) - toordinal (Date 2026 11 2) + 1 in
        2 * (days / 7) <= n <= 2 * (days / 7) + 2
        /\ (days mod 7 = 0 -> n = 2 * (days / 7))).
Proof.
  apply (count_weekends_counts_saturdays_and_sundays (Date 2026 11 4)
           (FiscalYear.World FiscalYear.fresh []) (VDate (Date 2026 11 2))
           (VDateTime (DateTime (Date 2026 11 15) 9 30 0 0))
           (Date 2026 11 2) (Date 2026 11 15));
    vm_compute; reflexivity.
Defined.

(** X24. [count_weekends(start, end)] with [end] = December 31, 9999 returns
    [None] for every valid [start]: after the last day has been examined the
    loop still advances [cur] by one day, which raises [OverflowError]; the
    handler shows it. *)
Theorem counting_up_to_the_last_day_overflows now w start end_ s e :
  _to_date now start = VDate s -> _to_date now end_ = VDate e ->
  valid_date s -> e = Date MAXYEAR 12 31 ->
  FiscalYear.count_weekends now start end_ w
  = (Returned VNone,
     FiscalYear.World (FiscalYear.self w)
       (FiscalYear.dialogs w
        ++ [dialog OverflowError "fiscal" "FiscalYear"
                   "count_weekends(self, start, end)"])).
Proof.
  intros Ts Te Vs ->.
  assert (Ve : valid_date (Date MAXYEAR 12 31)) by (vm_compute; reflexivity).
  assert (Oe : toordinal (Date MAXYEAR 12 31) = _MAXORDINAL)
    by (vm_compute; reflexivity).
  pose proof (toordinal_bounds s Vs) as Bs.
  unfold FiscalYear.count_weekends, except_show, bind, lift, ret. cbv zeta.
  rewrite Ts, Te, py_gt_valid_dates by assumption.
  destruct (Z.ltb_spec (toordinal (Date MAXYEAR 12 31)) (toordinal s));
    [lia |].
  rewrite weekends_loop_overflows
    by (try assumption; unfold FiscalYear.span; lia).
  reflexivity.
Qed.

Lemma counting_up_to_the_last_day_overflows_witness :
  FiscalYear.count_weekends (Date 2026 11 4) (VDate (Date 9999 12 25))
    (VDate (Date 9999 12 31)) (FiscalYear.World FiscalYear.fresh [])
  = (Returned VNone,
     FiscalYear.World FiscalYear.fresh
       ([] ++ [dialog OverflowError "fiscal" "FiscalYear"
                 "count_weekends(self, start, end)"])).
Proof.
  apply (counting_up_to_the_last_day_overflows (Date 2026 11 4)
           (FiscalYear.World FiscalYear.fresh []) (VDate (Date 9999 12 25))
           (VDate (Date 9999 12 31)) (Date 9999 12 25) (Date 9999 12 31));
    vm_compute; reflexivity.
Defined.

Lemma sum_in_range_dates s e l :
  valid_date s -> valid_date e -> Forall valid_date l ->
  FiscalYear.sum_in_range (VDate s) (VDate e) (map VDate l)
  = Returned (tally (fun h => date_leb s h && date_leb h e) l).
Proof.
  intros Vs Ve. induction 1 as [| h l Vh Vl IH]; [reflexivity |].
  cbn [map FiscalYear.sum_in_range]. rewrite IH, !py_le_dates. cbn [obind].
  rewrite tally_cons.
  destruct (date_leb s h); cbn [obind andb]; [destruct (date_leb h e) |];
    reflexivity.
Qed.

Section Counts.

Variables (now : date) (w : FiscalYear.world) (start end_ : value).
Variables (s e : date) (fy : Z).
Hypothesis Ts : _to_date now start = VDate s.
Hypothesis Te : _to_date now end_ = VDate e.
Hypothesis Vs : valid_date s.
Hypothesis Ve : valid_date e.
Hypothesis Fy : FiscalYear.fiscal_year (FiscalYear.self w) = Some fy.
Hypothesis F : 2 <= fy <= 9999.

Lemma count_holidays_value (use_observed : bool) :
  FiscalYear.count_holidays now start end_ use_observed w
  = (Returned (VInt (tally (fun h => date_leb s h && date_leb h e)
                           (holiday_dates fy use_observed))), w).
Proof.
  unfold FiscalYear.count_holidays, except_show, bind, lift, ret. cbv zeta.
  rewrite Ts, Te, py_gt_valid_dates by assumption.
  destruct (Z.ltb_spec (toordinal e) (toordinal s)) as [Lt | Ge].
  - do 3 f_equal. unfold tally. rewrite filter_none; [reflexivity |].
    intros h Ih. pose proof (holiday_dates_valid fy use_observed F) as V.
    rewrite Forall_forall in V. specialize (V h Ih).
    rewrite !date_leb_ordinal by assumption.
    destruct (Z.leb_spec (toordinal s) (toordinal h)),
      (Z.leb_spec (toordinal h) (toordinal e)); try reflexivity; lia.
  - destruct w as [o z]. cbn [FiscalYear.self] in Fy.
    unfold FiscalYear.attr, FiscalYear.call, FiscalYear.values_of.
    cbn [FiscalYear.self FiscalYear.dialogs]. rewrite Fy.
    cbn [FiscalYear.self FiscalYear.dialogs].
    rewrite (init_returns fy z F).
    cbn [FiscalYear.self FiscalYear.dialogs].
    rewrite (holidays_table fy z F).
    unfold ret. rewrite pick_values.
    rewrite sum_in_range_dates
      by (try assumption; apply holiday_dates_valid; assumption).
    reflexivity.
Qed.

End Counts.

Lemma date_eqb_ordinal a b :
  valid_date a -> valid_date b ->
  date_eqb a b = (toordinal a =? toordinal b).
Proof.
  intros Va Vb. destruct (Z.eqb_spec (toordinal a) (toordinal b)) as [E | N].
  - apply date_eqb_eq. rewrite <- (fromordinal_toordinal a Va),
      <- (fromordinal_toordinal b Vb), E. reflexivity.
  - apply not_true_is_false. intros E. apply date_eqb_eq in E. congruence.
Qed.

Lemma in_holiday_set cur hd :
  valid_date cur -> Forall valid_date hd ->
  existsb (py_eq (VDate cur)) (map VDate hd)
  = existsb (Z.eqb (toordinal cur)) (map toordinal hd).
Proof.
  intros Vc. induction 1 as [| h l Vh Vl IH]; [reflexivity |].
  cbn [map existsb]. rewrite IH. f_equal. cbn [py_eq].
  apply date_eqb_ordinal; assumption.
Qed.

Lemma workdays_loop_counts hd fuel : forall n cur e w,
  Forall valid_date hd -> valid_date cur -> valid_date e ->
  toordinal cur <= toordinal e + 1 -> toordinal e < _MAXORDINAL ->
  toordinal e - toordinal cur + 2 <= Z.of_nat fuel ->
  FiscalYear.workdays_loop fuel (map VDate hd) n (VDate cur) (VDate e) w
  = (Returned (VInt (n + tally (is_workday (map toordinal hd))
                               (days_between cur e))), w).
Proof.
  induction fuel as [| fuel IH]; intros n cur e w Vh Vc Ve I M F; [lia |].
  cbn [FiscalYear.workdays_loop]. unfold bind, lift, ret.
  rewrite py_le_valid_dates by assumption. unfold days_between.
  destruct (Z.leb_spec (toordinal cur) (toordinal e)) as [Le | Gt].
  - cbn [get_weekday].
    destruct (next_day cur Vc) as [(Lt & nxt & N & Vn & On) | (Eq & N)];
      [| lia].
    rewrite one_day_eq in *. cbn [obind] in N. rewrite N.
    rewrite IH by (try assumption; lia). unfold days_between.
    rewrite (range_cons (toordinal cur)) by lia. rewrite tally_cons, On.
    unfold is_workday at 2. rewrite <- weekday_ordinal.
    rewrite in_holiday_set by assumption.
    destruct ((weekday cur <? 5) && _); do 3 f_equal; lia.
  - rewrite range_nil by lia. unfold tally. cbn. do 3 f_equal. lia.
Qed.

Lemma count_workdays_value now w start end_ s e fy (use_observed : bool) :
  _to_date now start = VDate s -> _to_date now end_ = VDate e ->
  valid_date s -> valid_date e -> toordinal e < _MAXORDINAL ->
  FiscalYear.fiscal_year (FiscalYear.self w) = Some fy -> 2 <= fy <= 9999 ->
  FiscalYear.count_workdays now start end_ use_observed w
  = (Returned
       (VInt (tally (is_workday (map toordinal (holiday_dates fy use_observed)))
                    (days_between s e))), w).
Proof.
  intros Ts Te Vs Ve M Fy F.
  unfold FiscalYear.count_workdays, except_show, bind, lift, ret. cbv zeta.
  rewrite Ts, Te, py_gt_valid_dates by assumption.
  destruct (Z.ltb_spec (toordinal e) (toordinal s)) as [Lt | Ge].
  - unfold days_between. rewrite range_nil by lia. reflexivity.
  - destruct w as [o z]. cbn [FiscalYear.self] in Fy.
    unfold FiscalYear.attr, FiscalYear.call, FiscalYear.values_of.
    cbn [FiscalYear.self FiscalYear.dialogs]. rewrite Fy.
    cbn [FiscalYear.self FiscalYear.dialogs].
    rewrite (init_returns fy z F).
    cbn [FiscalYear.self FiscalYear.dialogs].
    rewrite (holidays_table fy z F).
    unfold ret. rewrite pick_values.
    rewrite workdays_loop_counts
      by (try assumption; try (apply holiday_dates_valid; assumption);
          unfold FiscalYear.span; lia).
    reflexivity.
Qed.

(** Counting arguments *)

Lemma NoDup_range a b : NoDup (range a b).
Proof.
  unfold range. apply Finite.Injective_map_NoDup; [| apply seq_NoDup].
  intros i j E. lia.
Qed.

Lemma existsb_eqb_In n l : existsb (Z.eqb n) l = true <-> In n l.
Proof.
  rewrite existsb_exists. split.
  - intros (x & I & E). apply Z.eqb_eq in E. subst. assumption.
  - intros I. exists n. split; [assumption | apply Z.eqb_refl].
Qed.

Lemma three_way_split hs l :
  (forall h, In h hs -> ordinal_weekday h < 5) ->
  tally (is_workday hs) l + tally is_weekend_day l
  + tally (fun n => existsb (Z.eqb n) hs) l
  = Z.of_nat (List.length l).
Proof.
  intros Wk. induction l as [| n l IH]; [reflexivity |].
  rewrite !tally_cons. cbn [List.length]. rewrite Nat2Z.inj_succ.
  unfold is_workday at 1, is_weekend_day at 1.
  destruct (existsb (Z.eqb n) hs) eqn:E.
  - apply existsb_eqb_In in E. specialize (Wk n E).
    destruct (Z.ltb_spec (ordinal_weekday n) 5),
      (Z.leb_spec 5 (ordinal_weekday n)); cbn [andb negb]; lia.
  - destruct (Z.ltb_spec (ordinal_weekday n) 5),
      (Z.leb_spec 5 (ordinal_weekday n)); cbn [andb negb]; lia.
Qed.

Lemma tally_swap hs a b :
  NoDup hs ->
  tally (fun n => existsb (Z.eqb n) hs) (range a b)
  = tally (fun h => (a <=? h) && (h <? b)) hs.
Proof.
  intros Nh. unfold tally. f_equal. apply Permutation_length.
  apply NoDup_Permutation.
  - apply NoDup_filter, NoDup_range.
  - apply NoDup_filter, Nh.
  - intros x. rewrite !filter_In, existsb_eqb_In, andb_true_iff,
      Z.leb_le, Z.ltb_lt.
    split.
    + intros (I & H). apply In_range in I. tauto.
    + intros (H & I). split; [apply range_In; lia | assumption].
Qed.

Lemma length_range a b : a <= b -> Z.of_nat (List.length (range a b)) = b - a.
Proof. intros H. unfold range. rewrite length_map, length_seq. lia. Qed.

Lemma tally_map {A B} (g : A -> B) (f : B -> bool) l :
  tally f (map g l) = tally (fun x => f (g x)) l.
Proof. unfold tally. rewrite filter_map_comm, length_map. reflexivity. Qed.

Lemma tally_ext_in {A} (f g : A -> bool) l :
  (forall x, In x l -> f x = g x) -> tally f l = tally g l.
Proof. intros H. unfold tally. rewrite (filter_ext_in f g l H). reflexivity. Qed.

Lemma tally_all {A} (f : A -> bool) l :
  (forall x, In x l -> f x = true) -> tally f l = Z.of_nat (List.length l).
Proof.
  intros H. unfold tally. f_equal. f_equal.
  induction l as [| a l IH]; [reflexivity |]. cbn [filter].
  rewrite (H a (or_introl eq_refl)). f_equal. apply IH.
  intros x I. apply H. now right.
Qed.

Lemma holiday_dates_in_window fy b h :
  2 <= fy <= 9999 -> In h (holiday_dates fy b) ->
  toordinal (Date (fy - 1) 10 1) <= toordinal h <= toordinal (Date fy 9 30).
Proof.
  intros F I. apply (in_map toordinal) in I.
  destruct (holiday_dates_ordinals fy b F)
    as (o1 & o2 & o3 & o4 & o5 & o6 & o7 & o8 & o9 & o10 & o11 & z & E & Z
        & B1 & B2 & B3 & B4 & B5 & B6 & B7 & B8 & B9 & B10 & B11).
  rewrite E in I. destruct (window_ordinals fy) as (-> & ->).
  pose proof (leap_day_range fy). cbn [In] in I.
  decompose [or] I; try contradiction; lia.
Qed.

Lemma observed_dates_working fy h :
  2 <= fy <= 9999 -> In h (holiday_dates fy true) -> weekday h < 5.
Proof.
  intros F I. unfold holiday_dates in I. apply in_map_iff in I.
  destruct I as (a & <- & Ia).
  pose proof (actual_dates_valid fy F) as V. rewrite Forall_forall in V.
  apply observed_working, V, Ia.
Qed.

(** X25. On an object whose fiscal year [fy] is one [FederalHoliday] accepts, for
    valid dates with [end] before [date.max], [count_workdays(start, end,
    use_observed)] returns, leaving the store as it was, the number of days
    from [start] to [end], both included, that fall on a Monday to Friday and
    are none of the holiday dates (observed or actual, as chosen) of fiscal
    year [fy]; the number is at most the number of days of the range. *)
Theorem count_workdays_counts_working_days now w start end_ s e fy
    (use_observed : bool) :
  _to_date now start = VDate s -> _to_date now end_ = VDate e ->
  valid_date s -> valid_date e -> toordinal e < _MAXORDINAL ->
  FiscalYear.fiscal_year (FiscalYear.self w) = Some fy -> 2 <= fy <= 9999 ->
  exists n,
    FiscalYear.count_workdays now start end_ use_observed w
    = (Returned (VInt n), w)
    /\ n = tally (fun k =>
                    ((k + 6) mod 7 <? 5)
                    && negb (existsb (fun h => k =? toordinal h)
                                     (holiday_dates fy use_observed)))
                 (range (toordinal s) (toordinal e + 1))
    /\ 0 <= n <= Z.max 0 (toordinal e - toordinal s + 1).
Proof.
  intros Ts Te Vs Ve M Fy F. eexists.
  split; [apply (count_workdays_value now w start end_ s e fy); assumption |].
  split.
  - apply tally_ext_in. intros k _. unfold is_workday, ordinal_weekday.
    assert (X : forall l : list date,
               existsb (Z.eqb k) (map toordinal l)
               = existsb (fun h => k =? toordinal h) l).
    { induction l as [| h l IH]; [reflexivity |]. cbn [map existsb].
      rewrite IH. reflexivity. }
    rewrite X. reflexivity.
  - pose proof (tally_range (is_workday (map toordinal
                   (holiday_dates fy use_observed))) (days_between s e)) as R.
    unfold days_between in *.
    destruct (Z.le_gt_cases (toordinal s) (toordinal e + 1)).
    + rewrite length_range in R by assumption. lia.
    + rewrite range_nil by lia. unfold tally. cbn. lia.
Qed.

Lemma count_workdays_counts_working_days_witness :
  let w := FiscalYear.World (bound VNone (Date 2026 11 4)) [] in
  exists n,
    FiscalYear.count_workdays (Date 2026 11 4) (VDate (Date 2026 11 23))
      (VDate (Date 2026 11 29)) true w
    = (Returned (VInt n), w)
    /\ n = tally (fun k =>
                    ((k + 6) mod 7 <? 5)
                    && negb (existsb (fun h => k =? toordinal h)
                                     (holiday_dates 2027 true)))
                 (range (toordinal (Date 2026 11 23))
                        (toordinal (Date 2026 11 29) + 1))
    /\ 0 <= n <= Z.max 0 (toordinal (Date 2026 11 29)
                          - toordinal (Date 2026 11 23) + 1).
Proof.
  apply (count_workdays_counts_working_days (Date 2026 11 4)
           (FiscalYear.World (bound VNone (Date 2026 11 4)) [])
           (VDate (Date 2026 11 23)) (VDate (Date 2026 11 29))
           (Date 2026 11 23) (Date 2026 11 29) 2027 true);
    try (vm_compute; reflexivity). lia.
Defined.

(** X26. On an object whose fiscal year [fy] is one [FederalHoliday] accepts, for
    valid dates, [count_holidays(start, end, use_observed)] returns, leaving
    the store as it was, the number of holiday dates of fiscal year [fy]
    (observed or actual, as chosen) from [start] to [end], both included. It
    is between 0 and 11; it is 11 when the range covers the fiscal window,
    and 0 when the range ends before the window starts or starts after it
    ends. *)
Theorem count_holidays_counts_the_mapping now w start end_ s e fy
    (use_observed : bool) :
  _to_date now start = VDate s -> _to_date now end_ = VDate e ->
  valid_date s -> valid_date e ->
  FiscalYear.fiscal_year (FiscalYear.self w) = Some fy -> 2 <= fy <= 9999 ->
  exists n,
    FiscalYear.count_holidays now start end_ use_observed w
    = (Returned (VInt n), w)
    /\ n = tally (fun h => date_leb s h && date_leb h e)
                 (holiday_dates fy use_observed)
    /\ 0 <= n <= 11
    /\ (date_leb s (Date (fy - 1) 10 1) = true ->
        date_leb (Date fy 9 30) e = true -> n = 11)
    /\ (date_ltb e (Date (fy - 1) 10 1) = true
        \/ date_ltb (Date fy 9 30) s = true -> n = 0).
Proof.
  intros Ts Te Vs Ve Fy F. eexists.
  split; [apply (count_holidays_value now w start end_ s e fy); assumption |].
  split; [reflexivity |].
  pose proof (holiday_dates_valid fy use_observed F) as V.
  rewrite Forall_forall in V.
  split; [| split].
  - pose proof (tally_range (fun h => date_leb s h && date_leb h e)
                  (holiday_dates fy use_observed)) as R.
    replace (List.length (holiday_dates fy use_observed)) with 11%nat in R
      by reflexivity.
    lia.
  - intros Lo Hi.
    rewrite date_leb_ordinal in Lo, Hi
      by (try assumption; first [apply valid_window_start
                                | apply valid_window_end]; assumption).
    apply Z.leb_le in Lo, Hi.
    rewrite tally_all; [reflexivity |]. intros h Ih.
    pose proof (holiday_dates_in_window fy use_observed h F Ih).
    rewrite !date_leb_ordinal by (try assumption; apply V, Ih).
    apply andb_true_iff. rewrite !Z.leb_le. lia.
  - intros Out. unfold tally. rewrite filter_none; [reflexivity |].
    intros h Ih.
    pose proof (holiday_dates_in_window fy use_observed h F Ih).
    rewrite !date_leb_ordinal by (try assumption; apply V, Ih).
    unfold date_ltb in Out.
    rewrite !date_cmp_ordinal in Out
      by (try assumption; first [apply valid_window_start
                                | apply valid_window_end]; assumption).
    destruct (Z.leb_spec (toordinal s) (toordinal h)),
      (Z.leb_spec (toordinal h) (toordinal e)); try reflexivity.
    destruct Out as [Out | Out];
      [destruct (Z.compare_spec (toordinal e)
                   (toordinal (Date (fy - 1) 10 1)))
      | destruct (Z.compare_spec (toordinal (Date fy 9 30)) (toordinal s))];
      try discriminate; lia.
Qed.

Lemma count_holidays_counts_the_mapping_witness :
  let w := FiscalYear.World (bound VNone (Date 2026 11 4)) [] in
  exists n,
    FiscalYear.count_holidays (Date 2026 11 4) (VDate (Date 2026 10 1))
      (VDate (Date 2027 9 30)) true w
    = (Returned (VInt n), w)
    /\ n = tally (fun h => date_leb (Date 2026 10 1) h
                           && date_leb h (Date 2027 9 30))
                 (holiday_dates 2027 true)
    /\ 0 <= n <= 11
    /\ (date_leb (Date 2026 10 1) (Date (2027 - 1) 10 1) = true ->
        date_leb (Date 2027 9 30) (Date 2027 9 30) = true -> n = 11)
    /\ (date_ltb (Date 2027 9 30) (Date (2027 - 1) 10 1) = true
        \/ date_ltb (Date 2027 9 30) (Date 2026 10 1) = true -> n = 0).
Proof.
  apply (count_holidays_counts_the_mapping (Date 2026 11 4)
           (FiscalYear.World (bound VNone (Date 2026 11 4)) [])
           (VDate (Date 2026 10 1)) (VDate (Date 2027 9 30))
           (Date 2026 10 1) (Date 2027 9 30) 2027 true);
    try (vm_compute; reflexivity). lia.
Defined.

(** X27. On an object whose fiscal year is one [FederalHoliday] accepts, for valid
    dates [start <= end] with [end] before [date.max], the three counts with
    observed holidays account for every day of the range exactly once:
    [count_workdays + count_weekends + count_holidays] is the number of days
    from [start] to [end], both included. *)
Theorem every_day_is_counted_once now w start end_ s e fy :
  _to_date now start = VDate s -> _to_date now end_ = VDate e ->
  valid_date s -> valid_date e ->
  toordinal s <= toordinal e -> toordinal e < _MAXORDINAL ->
  FiscalYear.fiscal_year (FiscalYear.self w) = Some fy -> 2 <= fy <= 9999 ->
  exists workdays weekends holidays,
    FiscalYear.count_workdays now start end_ true w
    = (Returned (VInt workdays), w)
    /\ FiscalYear.count_weekends now start end_ w
       = (Returned (VInt weekends), w)
    /\ FiscalYear.count_holidays now start end_ true w
       = (Returned (VInt holidays), w)
    /\ workdays + weekends + holidays = toordinal e - toordinal s + 1.
Proof.
  intros Ts Te Vs Ve Le M Fy F. do 3 eexists.
  split; [apply (count_workdays_value now w start end_ s e fy); assumption |].
  split; [apply (count_weekends_value now start end_ s e); assumption |].
  split; [apply (count_holidays_value now w start end_ s e fy); assumption |].
  pose proof (holiday_dates_valid fy true F) as V.
  rewrite Forall_forall in V.
  assert (Wk : forall k, In k (map toordinal (holiday_dates fy true)) ->
                         ordinal_weekday k < 5).
  { intros k Ik. apply in_map_iff in Ik. destruct Ik as (h & <- & Ih).
    rewrite <- weekday_ordinal. apply (observed_dates_working fy h F Ih). }
  pose proof (three_way_split (map toordinal (holiday_dates fy true))
                (days_between s e) Wk) as T.
  unfold days_between in *.
  rewrite length_range in T by lia.
  rewrite tally_swap in T by (apply holiday_dates_NoDup; assumption).
  rewrite tally_map in T.
  rewrite (tally_ext_in (fun h => date_leb s h && date_leb h e)
             (fun x => (toordinal s <=? toordinal x)
                       && (toordinal x <? toordinal e + 1))).
  - lia.
  - intros h Ih. rewrite !date_leb_ordinal by (try assumption; apply V, Ih).
    f_equal. destruct (Z.leb_spec (toordinal h) (toordinal e)),
      (Z.ltb_spec (toordinal h) (toordinal e + 1)); try reflexivity; lia.
Qed.

Lemma every_day_is_counted_once_witness :
  let w := FiscalYear.World (bound VNone (Date 2026 11 4)) [] in
  exists workdays weekends holidays,
    FiscalYear.count_workdays (Date 2026 11 4) (VDate (Date 2026 11 1))
      (VDate (Date 2026 11 30)) true w
    = (Returned (VInt workdays), w)
    /\ FiscalYear.count_weekends (Date 2026 11 4) (VDate (Date 2026 11 1))
         (VDate (Date 2026 11 30)) w
       = (Returned (VInt weekends), w)
    /\ FiscalYear.count_holidays (Date 2026 11 4) (VDate (Date 2026 11 1))
         (VDate (Date 2026 11 30)) true w
       = (Returned (VInt holidays), w)
    /\ workdays + weekends + holidays
       = toordinal (Date 2026 11 30) - toordinal (Date 2026 11 1) + 1.
Proof.
  apply (every_day_is_counted_once (Date 2026 11 4)
           (FiscalYear.World (bound VNone (Date 2026 11 4)) [])
           (VDate (Date 2026 11 1)) (VDate (Date 2026 11 30))
           (Date 2026 11 1) (Date 2026 11 30) 2027);
    try (vm_compute; reflexivity); try lia; vm_compute; discriminate.
Defined.



